(** * MonadPulse calendar client: offline cache and notification preferences

  A shallow embedding of the notification service
  ([notificationService], both revisions found in the sources), of the
  generic HTTP helper it is built on ([request], [api.get], [api.put],
  [api.post]) and of the service worker ([public/service-worker.js]: the
  cache manager and the notification handlers), followed by the
  properties of the preference reconciler, of the push subscription life
  cycle, of the cache manager, of the other operations of the service and
  of the notifications.

  JavaScript values are kept as JSON trees, objects as finite maps from
  property names to values.  Asynchronous code is written in a state and
  exception monad: every [await] is a bind, a rejected promise is a thrown
  exception, [try]/[catch] is [try_catch].  The browser and the server
  are an immutable record of oracles ([host]); what the program can change
  (the host's push subscription, the list of performed effects) is the
  state that is threaded through. *)

From Stdlib Require Import Ascii.
From stdpp Require Import gmap strings list pretty.

Set Warnings "-register-all".
Open Scope string_scope.

(* ===================================================================== *)
(** * JavaScript values *)
(* ===================================================================== *)

Module Js.

(** JSON-shaped values.  Numbers are the integers (no claim depends on
    fractions or NaN). *)
Inductive jsval :=
| JUndef
| JNull
| JBool (b : bool)
| JNum (n : Z)
| JStr (s : string)
| JArr (l : list jsval)
| JObj (o : gmap string jsval).

(** ToBoolean. *)
Definition truthy (v : jsval) : bool :=
  match v with
  | JUndef | JNull => false
  | JBool b => b
  | JNum n => negb (n =? 0)%Z
  | JStr s => negb (String.eqb s "")
  | JArr _ | JObj _ => true
  end.

(** [v === undefined] *)
Definition is_undefined (v : jsval) : bool :=
  match v with
  | JUndef => true
  | _ => false
  end.

(** [a || b] *)
Definition js_or (a b : jsval) : jsval := if truthy a then a else b.

(** [v !== false] *)
Definition neq_false (v : jsval) : bool :=
  match v with
  | JBool false => false
  | _ => true
  end.

(** [k in v] for a key that is no member of a prototype (every key the
    service tests is of that kind).  [None] is the TypeError raised when
    the right operand is not an object. *)
Definition js_in (k : string) (v : jsval) : option bool :=
  match v with
  | JObj o => Some (bool_decide (is_Some (o !! k)))
  | JArr l =>
      Some (String.eqb k "length"
            || bool_decide (k ∈ (pretty <$> seq 0 (length l))))
  | _ => None
  end.

(** [v.k] for a key that is no member of a prototype, no array index and
    not [length] (the service reads no such key).  [None] is the TypeError
    raised on [undefined] and [null]. *)
Definition js_get (k : string) (v : jsval) : option jsval :=
  match v with
  | JUndef | JNull => None
  | JObj o => Some (default JUndef (o !! k))
  | _ => Some JUndef
  end.

(** [o.k] on an object literal or a spread result. *)
Definition field (k : string) (o : gmap string jsval) : jsval :=
  default JUndef (o !! k).

Definition chars (s : string) : list jsval :=
  (fun c => JStr (String c "")) <$> String.list_ascii_of_string s.

Definition indexed (l : list jsval) : gmap string jsval :=
  list_to_map (imap (fun i x => (pretty i, x)) l).

(** The own enumerable properties copied by a spread [{...v}]. *)
Definition own_props (v : jsval) : gmap string jsval :=
  match v with
  | JObj o => o
  | JArr l => indexed l
  | JStr s => indexed (chars s)
  | _ => ∅
  end.

(** An object literal [{k1: v1, ..., kn: vn}]. *)
Definition literal (kvs : list (string * jsval)) : gmap string jsval :=
  list_to_map (reverse kvs).

Definition join (sep : string) (l : list string) : string :=
  String.concat sep l.

(** ToString, as used by [new Error(message)]. *)
Fixpoint js_to_string (v : jsval) : string :=
  match v with
  | JUndef => "undefined"
  | JNull => "null"
  | JBool true => "true"
  | JBool false => "false"
  | JNum n => pretty n
  | JStr s => s
  | JArr l =>
      join "," (map (fun x => match x with
                              | JUndef | JNull => ""
                              | _ => js_to_string x
                              end) l)
  | JObj _ => "[object Object]"
  end.

(** [s.includes(sub)] *)
Fixpoint includes (sub s : string) : bool :=
  String.prefix sub s ||
  match s with
  | EmptyString => false
  | String _ s' => includes sub s'
  end.

End Js.
Export Js.

(* ===================================================================== *)
(** * Host, state and the monad of asynchronous code *)
(* ===================================================================== *)

Module Host.

(** A thrown value: an [Error] (or DOMException) with its name and
    message. *)
Record exn := JsError { err_name : string; err_message : string }.

Definition Error (msg : string) : exn := JsError "Error" msg.
Definition TypeError (msg : string) : exn := JsError "TypeError" msg.

Inductive outcome (A : Type) :=
| Ret (a : A)
| Throw (e : exn).
Arguments Ret {A} a.
Arguments Throw {A} e.

(** A [PushSubscription]: the endpoint and the two keys (as [toJSON]
    gives them). *)
Record PushSubscription := {
  endpoint : string;
  p256dh : string;
  auth : string
}.

Inductive NotificationPermission := granted | denied | default_permission.

(** [permission === 'granted'] *)
Definition is_granted (p : NotificationPermission) : bool :=
  match p with
  | granted => true
  | _ => false
  end.

(** What [fetch] resolves with: the status line and the body as
    [response.json()] reads it ([None]: the body is no JSON). *)
Record Response := {
  resp_status : Z;
  resp_json : option jsval
}.

(** [response.ok] *)
Definition resp_ok (r : Response) : bool :=
  (200 <=? resp_status r)%Z && (resp_status r <=? 299)%Z.

Inductive level := warn | error.

(** The effects a run performs, in the order it performs them. *)
Inductive event :=
| EvFetch (method url : string) (body : option jsval)
| EvRequestPermission
| EvGetSubscription
| EvSubscribe
| EvDelay (ms : Z)
| EvConsole (l : level) (msg : string).

(** The browser and the server, as the service sees them. *)
Record host := {
  (** [import.meta.env.VITE_API_URL] *)
  VITE_API_URL : jsval;
  (** [window.location.origin] *)
  location_origin : string;
  (** the network: [None] is a rejected [fetch] *)
  net : string -> string -> option jsval -> option Response;
  (** ['serviceWorker' in navigator], ['PushManager' in window],
      ['Notification' in window] *)
  has_serviceWorker : bool;
  has_PushManager : bool;
  has_Notification : bool;
  (** [navigator.brave && typeof navigator.brave.isBrave === 'function'] *)
  has_brave : bool;
  (** [navigator.userAgent] *)
  userAgent : string;
  (** [Notification.requestPermission()] *)
  requestPermission : outcome NotificationPermission;
  (** [navigator.serviceWorker.ready]: the registration, given by whether
      it has a [pushManager] *)
  serviceWorker_ready : outcome bool;
  (** whether [pushManager.getSubscription()] rejects *)
  getSubscription_error : option exn;
  (** the outcome of the n-th call of [pushManager.subscribe] *)
  pushManager_subscribe : nat -> exn + PushSubscription;
  (** the padding, character replacement and [atob] decoding of
      [urlBase64ToUint8Array]: the bytes, or the exception of [atob] *)
  decode_key : jsval -> outcome (list Z)
}.

(** What a run changes. *)
Record state := {
  (** the subscription the push service holds for this profile *)
  push_subscription : option PushSubscription;
  (** how many times [pushManager.subscribe] was called *)
  subscribe_calls : nat;
  (** the effects performed so far, oldest first *)
  trace : list event
}.

Definition initial : state :=
  {| push_subscription := None; subscribe_calls := 0; trace := [] |}.

Definition M (A : Type) : Type := state -> outcome A * state.

Definition ret {A} (a : A) : M A := fun s => (Ret a, s).

Definition throw {A} (e : exn) : M A := fun s => (Throw e, s).

Definition bind {A B} (m : M A) (k : A -> M B) : M B :=
  fun s =>
    match m s with
    | (Ret a, s') => k a s'
    | (Throw e, s') => (Throw e, s')
    end.

Definition try_catch {A} (m : M A) (handler : exn -> M A) : M A :=
  fun s =>
    match m s with
    | (Ret a, s') => (Ret a, s')
    | (Throw e, s') => handler e s'
    end.

Definition emit (e : event) : M unit :=
  fun s =>
    (Ret tt,
     {| push_subscription := push_subscription s;
        subscribe_calls := subscribe_calls s;
        trace := trace s ++ [e] |}).

Definition console (l : level) (msg : string) : M unit :=
  emit (EvConsole l msg).

(** [await new Promise(resolve => setTimeout(resolve, ms))] *)
Definition sleep (ms : Z) : M unit := emit (EvDelay ms).

Definition lift {A} (o : outcome A) : M A := fun s => (o, s).

(** A property read that raises TypeError on [undefined] and [null]. *)
Definition prop (k : string) (v : jsval) : M jsval :=
  match js_get k v with
  | Some x => ret x
  | None => throw (TypeError ("Cannot read properties of " ++ js_to_string v))
  end.

(** The events a run added to the trace. *)
Definition events_of {A} (m : M A) (s : state) : list event :=
  drop (length (trace s)) (trace (snd (m s))).

End Host.
Export Host.

Declare Scope js_scope.
Delimit Scope js_scope with js.
Notation "'let*' x := m 'in' k" := (bind m (fun x => k))
(at level 10, x name, m at level 100, k at level 200,
 format "'[v' 'let*'  x  :=  m  'in' '/' k ']'") : js_scope.
Notation "'exec' m 'in' k" := (bind m (fun _ => k))
(at level 10, m at level 100, k at level 200,
 format "'[v' 'exec'  m  'in' '/' k ']'") : js_scope.
Open Scope js_scope.

(* ===================================================================== *)
(** * The HTTP helper ([api]) *)
(* ===================================================================== *)

Module Api.
Section Api.

Variable h : host.

(** [fetch(url, config)]: the request leaves the client, then the
    promise resolves with the response or rejects. *)
Definition fetch (method url : string) (body : option jsval) : M Response :=
  exec emit (EvFetch method url body) in
  match net h method url body with
  | Some r => ret r
  | None => throw (TypeError "Failed to fetch")
  end.

(** [response.json()] *)
Definition json (r : Response) : M jsval :=
  match resp_json r with
  | Some v => ret v
  | None => throw (JsError "SyntaxError" "Unexpected token in JSON")
  end.

(** [const API_BASE_URL = import.meta.env.VITE_API_URL || ''] *)
Definition API_BASE_URL : string :=
  js_to_string (js_or (VITE_API_URL h) (JStr "")).

Definition request (method url : string) (data : jsval) : M jsval :=
  let body :=
    if negb (String.eqb method "GET") && truthy data then Some data else None in
  try_catch
    (let fullUrl := if String.prefix "http" url then url else API_BASE_URL ++ url in
     let* response := fetch method fullUrl body in
     let* responseData := json response in
     let* failed :=
       (if negb (resp_ok response) then ret true
        else let* success := prop "success" responseData in
             ret (negb (truthy success))) in
     if (failed : bool) then
       let* msg := prop "error" responseData in
       throw (Error (js_to_string (js_or msg (JStr "Request failed"))))
     else prop "data" responseData)
    (fun e =>
       exec console error ("API " ++ method ++ " " ++ url ++ " failed:") in
       throw e).

Definition get (url : string) : M jsval := request "GET" url JUndef.
Definition post (url : string) (data : jsval) : M jsval := request "POST" url data.
Definition put (url : string) (data : jsval) : M jsval := request "PUT" url data.

End Api.
End Api.

(* ===================================================================== *)
(** * The notification service (current revision) *)
(* ===================================================================== *)

Module NotificationService.

Record EventPreference := {
  event_type : string;
  is_enabled : jsval
}.

Definition DEFAULT_PREFERENCES : gmap string jsval :=
  literal
    [("email", JStr "");
     ("notifyEmail", JBool true);
     ("notifyBrowser", JBool true);
     ("notifyAllEvents", JBool true);
     ("email1hBefore", JBool true);
     ("email10mBefore", JBool true);
     ("browser1hBefore", JBool true);
     ("browser10mBefore", JBool true);
     ("notifyNewEvents", JBool true)].

Definition PREFERENCES_URL := "/api/users/me/preferences".
Definition EVENT_PREFERENCES_URL := "/api/users/me/event-preferences".
Definition PUSH_SUBSCRIPTIONS_URL := "/api/users/me/push-subscriptions".
Definition VAPID_URL := "/api/notifications/vapid-public-key".

(** ** Validation of an email address *)

(** [\s] on the characters a byte string has. *)
Definition is_space (c : ascii) : bool :=
  let n := nat_of_ascii c in
  ((9 <=? n)%nat && (n <=? 13)%nat) || (n =? 32)%nat.

(** [[^\s@]] *)
Definition plain (c : ascii) : bool :=
  negb (is_space c) && negb (Ascii.eqb c "@").

Definition toLowerCase_ascii (c : ascii) : ascii :=
  let n := nat_of_ascii c in
  if (65 <=? n)%nat && (n <=? 90)%nat then ascii_of_nat (n + 32) else c.

(** [[^\s@]+\.[^\s@]+$] on what follows the [@]; [seen] tells whether
    the part before the dot is already non-empty. *)
Fixpoint domain_ok (seen : bool) (l : list ascii) : bool :=
  match l with
  | [] => false
  | c :: l' =>
      (Ascii.eqb c "." && seen && negb (bool_decide (l' = [])) && forallb plain l')
      || (plain c && domain_ok true l')
  end.

(** [^[^\s@]+@] followed by the domain. *)
Fixpoint local_ok (seen : bool) (l : list ascii) : bool :=
  match l with
  | [] => false
  | c :: l' =>
      if Ascii.eqb c "@" then seen && domain_ok false l'
      else plain c && local_ok true l'
  end.

Definition isValidEmail (email : string) : bool :=
  if String.eqb email "" then false
  else local_ok false (toLowerCase_ascii <$> String.list_ascii_of_string email).

Section Service.

Variable h : host.

(** ** Preferences *)

Definition getPreferences : M (gmap string jsval) :=
  try_catch
    (let* response := Api.get h PREFERENCES_URL in
     let* legacy :=
       (if truthy response
        then match js_in "notify1hBefore" response with
             | Some b => ret b
             | None => throw (TypeError "Cannot use 'in' operator")
             end
        else ret false) in
     if (legacy : bool) then
       let oldPrefs := response in
       let* email := prop "email" oldPrefs in
       let* notifyEmail := prop "notifyEmail" oldPrefs in
       let* notifyBrowser := prop "notifyBrowser" oldPrefs in
       let* notifyAllEvents := prop "notifyAllEvents" oldPrefs in
       let* email1hBefore := prop "email1hBefore" oldPrefs in
       let* email10mBefore := prop "email10mBefore" oldPrefs in
       let* browser1hBefore := prop "browser1hBefore" oldPrefs in
       let* browser10mBefore := prop "browser10mBefore" oldPrefs in
       let* notifyNewEvents := prop "notifyNewEvents" oldPrefs in
       ret (literal
              [("email", js_or email (JStr ""));
               ("notifyEmail", JBool (neq_false notifyEmail));
               ("notifyBrowser", JBool (neq_false notifyBrowser));
               ("notifyAllEvents", JBool (neq_false notifyAllEvents));
               ("email1hBefore", JBool (neq_false email1hBefore));
               ("email10mBefore", JBool (neq_false email10mBefore));
               ("browser1hBefore", JBool (neq_false browser1hBefore));
               ("browser10mBefore", JBool (neq_false browser10mBefore));
               ("notifyNewEvents", JBool (neq_false notifyNewEvents))])
     else
       (* { ...DEFAULT_PREFERENCES, ...(response || {}) } *)
       ret (own_props (js_or response (JObj ∅)) ∪ DEFAULT_PREFERENCES))
    (fun _ =>
       exec console error "Error getting preferences:" in
       ret (literal
              [("email", JStr "");
               ("notifyEmail", JBool true);
               ("notifyBrowser", JBool true);
               ("notifyAllEvents", JBool true);
               ("email1hBefore", JBool true);
               ("email10mBefore", JBool true);
               ("browser1hBefore", JBool true);
               ("browser10mBefore", JBool true);
               ("notifyNewEvents", JBool true)])).

(** [Object.keys(data).forEach(key => { if (data[key] === undefined)
    delete data[key] })] *)
Definition drop_undefined (data : gmap string jsval) : gmap string jsval :=
  filter (fun kv => is_undefined kv.2 = false) data.

Definition updatePreferences (updates : gmap string jsval)
  : M (gmap string jsval) :=
  try_catch
    (let* currentPrefs := getPreferences in
     (* { ...currentPrefs, ...updates } *)
     let mergedPrefs := updates ∪ currentPrefs in
     let data :=
       drop_undefined
         (literal
            [("email", field "email" mergedPrefs);
             ("notify_email", field "notifyEmail" mergedPrefs);
             ("notify_browser", field "notifyBrowser" mergedPrefs);
             ("notify_all_events", field "notifyAllEvents" mergedPrefs);
             ("email_1h_before", field "email1hBefore" mergedPrefs);
             ("email_10m_before", field "email10mBefore" mergedPrefs);
             ("browser_1h_before", field "browser1hBefore" mergedPrefs);
             ("browser_10m_before", field "browser10mBefore" mergedPrefs);
             ("notify_new_events", field "notifyNewEvents" mergedPrefs)]) in
     let* result := Api.put h PREFERENCES_URL (JObj data) in
     let* notifyEmail := prop "notifyEmail" result in
     let* email := prop "email" result in
     if truthy notifyEmail && negb (truthy email) then
       throw (Error "Email address is required when email notifications are enabled")
     else
       let* notify_email := prop "notify_email" result in
       let* notify_browser := prop "notify_browser" result in
       let* notify_all_events := prop "notify_all_events" result in
       let* email_1h_before := prop "email_1h_before" result in
       let* email_10m_before := prop "email_10m_before" result in
       let* browser_1h_before := prop "browser_1h_before" result in
       let* browser_10m_before := prop "browser_10m_before" result in
       let* notify_new_events := prop "notify_new_events" result in
       ret (literal
              [("email", js_or email (JStr ""));
               ("notifyEmail", JBool (neq_false notify_email));
               ("notifyBrowser", JBool (neq_false notify_browser));
               ("notifyAllEvents", JBool (neq_false notify_all_events));
               ("email1hBefore", JBool (neq_false email_1h_before));
               ("email10mBefore", JBool (neq_false email_10m_before));
               ("browser1hBefore", JBool (neq_false browser_1h_before));
               ("browser10mBefore", JBool (neq_false browser_10m_before));
               ("notifyNewEvents", JBool (neq_false notify_new_events))]))
    (fun e =>
       exec console error "Error updating preferences:" in
       throw e).

(** ** Event type preferences *)

(** The body of [existingPrefs.forEach]: a well-formed record enters the
    lookup table, anything else is skipped. *)
Definition record_pref (prefMap : gmap string bool) (pref : jsval)
  : gmap string bool :=
  match pref with
  | JObj o =>
      match o !! "event_type", o !! "is_enabled" with
      | Some (JStr t), Some (JBool b) => <[t := b]> prefMap
      | _, _ => prefMap
      end
  | _ => prefMap
  end.

(** [Array.isArray(v) ? v : []] *)
Definition array_or_empty (v : jsval) : list jsval :=
  match v with
  | JArr l => l
  | _ => []
  end.

Definition all_disabled (availableEventTypes : list string)
  : list EventPreference :=
  (fun eventType => {| event_type := eventType; is_enabled := JBool false |})
    <$> availableEventTypes.

Definition getEventPreferences (availableEventTypes : list string)
  : M (list EventPreference) :=
  try_catch
    (let* prefs := getPreferences in
     if bool_decide (length availableEventTypes = 0) then ret []
     else
       let* response := Api.get h EVENT_PREFERENCES_URL in
       let existingPrefs := array_or_empty response in
       let prefMap := foldl record_pref ∅ existingPrefs in
       let isNewUser := bool_decide (length existingPrefs = 0) in
       ret ((fun eventType =>
               {| event_type := eventType;
                  is_enabled :=
                    if isNewUser then field "notifyAllEvents" prefs
                    else match prefMap !! eventType with
                         | Some b => JBool b
                         | None => field "notifyAllEvents" prefs
                         end |})
              <$> availableEventTypes))
    (fun _ =>
       exec console error "Error getting event preferences:" in
       ret (all_disabled availableEventTypes)).

(** ** Capabilities and permission *)

Definition isSupported : bool :=
  has_serviceWorker h && has_PushManager h && has_Notification h.

Definition requestNotificationPermission : M NotificationPermission :=
  if negb isSupported then
    exec console warn "Push notifications are not supported in this browser" in
    ret denied
  else
    try_catch
      (exec emit EvRequestPermission in
       lift (requestPermission h))
      (fun _ =>
         exec console error "Error requesting notification permission:" in
         ret denied).

(** [(navigator.brave && typeof navigator.brave.isBrave === 'function')
    || false] *)
Definition isBraveBrowser : bool := has_brave h || false.

(** ** The VAPID key *)

Definition getVapidPublicKey : M jsval :=
  let baseUrl := js_to_string (js_or (VITE_API_URL h) (JStr "")) in
  let url := baseUrl ++ VAPID_URL in
  try_catch
    ((* new URL(url, window.location.origin).toString() *)
     let fullUrl :=
       if String.prefix "http" url then url else location_origin h ++ url in
     let* response := Api.fetch h "GET" fullUrl None in
     exec (if negb (resp_ok response) then
             exec console error "[NotificationService] HTTP error!" in
             throw (Error ("HTTP error! status: " ++ pretty (resp_status response)))
           else ret tt) in
     let* responseData :=
       try_catch (Api.json response)
         (fun _ =>
            (* [await response.text()] comes first, and rejects: the body
               was consumed by [response.json()] *)
            throw (TypeError "Failed to execute 'text' on 'Response': body stream already read")) in
     (* responseData?.success && responseData.publicKey *)
     let success :=
       match js_get "success" responseData with
       | Some v => v
       | None => JUndef
       end in
     let* publicKey :=
       (if truthy success then prop "publicKey" responseData else ret success) in
     if truthy publicKey then ret publicKey
     else
       exec console error "[NotificationService] Invalid VAPID key response format." in
       ret JNull)
    (fun _ =>
       exec console error "[NotificationService] Error getting VAPID public key:" in
       exec console error "[NotificationService] Error details:" in
       ret JNull).

Definition urlBase64ToUint8Array (base64String : jsval) : M (list Z) :=
  lift (decode_key h base64String).

(** ** The push manager of the registration *)

(** [registration.pushManager.getSubscription()] *)
Definition pushManager_getSubscription : M (option PushSubscription) :=
  exec emit EvGetSubscription in
  match getSubscription_error h with
  | Some e => throw e
  | None => fun s => (Ret (push_subscription s), s)
  end.

(** [registration.pushManager.subscribe(options)]: on success the push
    service holds the new subscription. *)
Definition pushManager_subscribe_call : M PushSubscription :=
  exec emit EvSubscribe in
  fun s =>
    let n := subscribe_calls s in
    match pushManager_subscribe h n with
    | inl e =>
        (Throw e,
         {| push_subscription := push_subscription s;
            subscribe_calls := S n;
            trace := trace s |})
    | inr sub =>
        (Ret sub,
         {| push_subscription := Some sub;
            subscribe_calls := S n;
            trace := trace s |})
    end.

(** [subscription.toJSON()] (the [getKey] fallback builds the same
    object) *)
Definition toJSON (sub : PushSubscription) : gmap string jsval :=
  literal
    [("endpoint", JStr (endpoint sub));
     ("keys", JObj (literal [("p256dh", JStr (p256dh sub));
                             ("auth", JStr (auth sub))]))].

Definition when (b : bool) (m : M unit) : M unit :=
  if b then m else ret tt.

(** ** Subscribing *)

Definition subscribeToPushNotifications (userId userEmail : string)
  : M PushSubscription :=
  let isBrave := isBraveBrowser in
  try_catch
    (exec when (negb (has_serviceWorker h))
       (exec console warn "Service workers are not supported in this browser" in
        throw (Error "Service workers are not supported in this browser")) in
     exec when (negb (has_PushManager h))
       (exec console warn "Push notifications are not supported in this browser" in
        throw (Error "Push notifications are not supported in this browser")) in
     let* permission := requestNotificationPermission in
     exec when (negb (is_granted permission))
       (exec console warn "Notification permission not granted" in
        throw (Error "Notification permission not granted")) in
     let* registration :=
       try_catch (lift (serviceWorker_ready h))
         (fun _ =>
            exec console error
              "[NotificationService] Error getting service worker registration:" in
            exec when isBrave
              (console warn
                 "[NotificationService] Brave may have blocked service worker registration.") in
            throw (Error "Failed to initialize service worker")) in
     exec when (negb (registration : bool))
       (exec console error "PushManager not available in service worker" in
        exec when isBrave
          (console warn
             "[NotificationService] In Brave, ensure you have disabled the Brave Shields for this site") in
        throw (Error "PushManager not available in service worker")) in
     (* Check for existing subscription first *)
     let* existing :=
       try_catch pushManager_getSubscription
         (fun _ =>
            exec console warn
              "[NotificationService] Error checking for existing subscription:" in
            ret None) in
     match existing with
     | Some subscription => ret subscription
     | None =>
         let* vapidPublicKey := getVapidPublicKey in
         exec when (negb (truthy vapidPublicKey))
           (exec console error "Failed to get VAPID public key" in
            throw (Error "Failed to get VAPID public key")) in
         let* convertedVapidKey :=
           try_catch (urlBase64ToUint8Array vapidPublicKey)
             (fun _ =>
                exec console error "[NotificationService] Error converting VAPID key:" in
                throw (Error "Invalid VAPID public key format")) in
         let* subscription :=
           try_catch
             (exec when isBrave (sleep 500) in
              pushManager_subscribe_call)
             (fun _ =>
                exec console error "[NotificationService] Error during push subscription:" in
                exec (if isBrave then
                        exec console warn
                          "[NotificationService] Brave-specific push notification issue detected." in
                        exec console warn
                          "Please ensure the following Brave settings are configured:" in
                        exec console warn
                          "1. Open brave://settings/shields and disable Shields for this site" in
                        exec console warn
                          "2. Go to brave://settings/content/notifications and ensure this site is allowed" in
                        console warn "3. Restart the browser and try again"
                      else if includes "Firefox" (userAgent h) then
                        console warn
                          "[NotificationService] Firefox may require additional configuration for push notifications"
                      else if includes "Safari" (userAgent h) then
                        console warn
                          "[NotificationService] Safari has limited support for push notifications"
                      else ret tt) in
                throw (Error ("Failed to subscribe to push notifications. " ++
                              (if isBrave
                               then "Please check Brave browser settings and try again."
                               else "Please check browser permissions.")))) in
         try_catch
           (let subscriptionData := toJSON subscription in
            exec when (String.eqb userEmail "")
              (exec console warn
                 "[NotificationService] No user email provided for push subscription" in
               throw (Error "User email is required for push notifications")) in
            exec Api.post h PUSH_SUBSCRIPTIONS_URL
              (JObj (literal
                       [("endpoint", field "endpoint" subscriptionData);
                        ("keys", field "keys" subscriptionData);
                        ("email", JStr userEmail)])) in
            ret subscription)
           (fun _ =>
              exec console error
                "[NotificationService] Failed to save subscription to server:" in
              (* Don't throw here, we still have a valid subscription locally *)
              ret subscription)
     end)
    (fun e =>
       let errorMsg := err_message e in
       exec console error "[NotificationService] Error in subscribeToPushNotifications:" in
       if isBrave && includes "push service error" errorMsg then
         throw (Error "Brave blocked push notification subscription. Please disable Shields for this site and try again.")
       else throw e).

Definition isSubscribed : M bool :=
  if negb isSupported then ret false
  else
    try_catch
      (let* registration := lift (serviceWorker_ready h) in
       (* registration.pushManager.getSubscription() *)
       exec when (negb (registration : bool))
         (throw (TypeError "Cannot read properties of undefined (reading 'getSubscription')")) in
       let* subscription := pushManager_getSubscription in
       ret (bool_decide (is_Some subscription)))
      (fun _ =>
         exec console error "Error checking subscription status:" in
         ret false).

End Service.
End NotificationService.

(* ===================================================================== *)
(** * The notification service (earlier revision) *)
(* ===================================================================== *)

(** The sources hold an earlier revision of the service next to the
    current one.  Its preference reconciler differs from the current one
    and it is the revision that has the retry loop of the push
    subscription. *)

Module NotificationServiceRev1.

Import NotificationService.

(** [v.k] on a value that is known to be an object. *)
Definition member (k : string) (v : jsval) : jsval :=
  default JUndef (js_get k v).

Definition defaults : gmap string jsval :=
  literal
    [("email", JStr "");
     ("notifyEmail", JBool true);
     ("notifyBrowser", JBool true);
     ("notifyAllEvents", JBool true);
     ("email1hBefore", JBool true);
     ("email10mBefore", JBool true);
     ("browser1hBefore", JBool true);
     ("browser10mBefore", JBool true)].

Section Service.

Variable h : host.

Definition getPreferences : M jsval :=
  try_catch
    (let* response := Api.get h PREFERENCES_URL in
     let* legacy :=
       (if truthy response
        then match js_in "notify1hBefore" response with
             | Some b => ret b
             | None => throw (TypeError "Cannot use 'in' operator")
             end
        else ret false) in
     if (legacy : bool) then
       let oldPrefs := response in
       let* email := prop "email" oldPrefs in
       let* notifyEmail := prop "notifyEmail" oldPrefs in
       let* notifyBrowser := prop "notifyBrowser" oldPrefs in
       let* notifyAllEvents := prop "notifyAllEvents" oldPrefs in
       let* notify1hBefore := prop "notify1hBefore" oldPrefs in
       let* notify10mBefore := prop "notify10mBefore" oldPrefs in
       ret (JObj (literal
                    [("email", js_or email (JStr ""));
                     ("notifyEmail", JBool (neq_false notifyEmail));
                     ("notifyBrowser", JBool (neq_false notifyBrowser));
                     ("notifyAllEvents", JBool (neq_false notifyAllEvents));
                     ("email1hBefore", JBool (neq_false notify1hBefore));
                     ("email10mBefore", JBool (neq_false notify10mBefore));
                     ("browser1hBefore", JBool (neq_false notify1hBefore));
                     ("browser10mBefore", JBool (neq_false notify10mBefore))]))
     else
       (* response || { ...defaults } *)
       ret (js_or response (JObj defaults)))
    (fun _ =>
       exec console error "Error getting preferences:" in
       ret (JObj defaults)).

Definition getEventPreferences (availableEventTypes : list string)
  : M (list EventPreference) :=
  try_catch
    (let* prefs := getPreferences in
     let* response := Api.get h EVENT_PREFERENCES_URL in
     let* data := prop "data" response in
     let existingPrefs := array_or_empty data in
     let prefMap := foldl record_pref ∅ existingPrefs in
     let isNewUser := bool_decide (length existingPrefs = 0) in
     ret ((fun eventType =>
             {| event_type := eventType;
                is_enabled :=
                  if isNewUser then JBool true
                  else match prefMap !! eventType with
                       | Some b => JBool b
                       | None => member "notifyAllEvents" prefs
                       end |})
            <$> availableEventTypes))
    (fun _ =>
       exec console error "Error getting event preferences:" in
       ret (all_disabled availableEventTypes)).

(** ** The retry loop of the push subscription *)

Definition attempt_failed (attempts : Z) : string :=
  "[NotificationService] Attempt " ++ pretty attempts ++ " failed:".

Definition generic_failure : exn :=
  Error "Failed to subscribe to push notifications after multiple attempts".

(** The [while (attempts < maxAttempts)] loop.  [fuel] bounds the number
    of iterations; [attemptPushSubscription] gives it the number the loop
    can take at most, so that [O] is only met when the loop condition is
    false. *)
Fixpoint attempt_loop (fuel : nat) (maxAttempts delay attempts : Z)
    (lastError : option exn) : M PushSubscription :=
  match fuel with
  | O => throw (default generic_failure lastError)
  | S fuel' =>
      if (attempts <? maxAttempts)%Z then
        let attempts := (attempts + 1)%Z in
        let* r :=
          try_catch
            (let* subscription := pushManager_subscribe_call h in
             ret (inr subscription))
            (fun e =>
               exec console warn (attempt_failed attempts) in
               exec when (attempts <? maxAttempts)%Z (sleep delay) in
               ret (inl e)) in
        match r with
        | inr subscription => ret subscription
        | inl e => attempt_loop fuel' maxAttempts delay attempts (Some e)
        end
      else throw (default generic_failure lastError)
  end.

Definition attemptPushSubscription (maxAttempts delay : Z)
  : M PushSubscription :=
  attempt_loop (Z.to_nat maxAttempts) maxAttempts delay 0 None.

End Service.

(** The events of [n] failed attempts in a row, the first of which is
    attempt number [attempts + 1]. *)
Fixpoint failed_attempts (maxAttempts delay attempts : Z) (n : nat)
  : list event :=
  match n with
  | O => []
  | S n' =>
      let attempts := (attempts + 1)%Z in
      [EvSubscribe; EvConsole warn (attempt_failed attempts)]
        ++ (if (attempts <? maxAttempts)%Z then [EvDelay delay] else [])
        ++ failed_attempts maxAttempts delay attempts n'
  end.

Definition is_subscribe (e : event) : bool :=
  match e with
  | EvSubscribe => true
  | _ => false
  end.

Definition is_delay (e : event) : bool :=
  match e with
  | EvDelay _ => true
  | _ => false
  end.

(** How many times a run called [pushManager.subscribe], how many times
    it waited. *)
Definition subscribes (evs : list event) : nat :=
  length (filter (fun e => is_subscribe e = true) evs).

Definition delays (evs : list event) : nat :=
  length (filter (fun e => is_delay e = true) evs).

End NotificationServiceRev1.

(* ===================================================================== *)
(** * The service worker (cache manager) *)
(* ===================================================================== *)

(** The handlers of [public/service-worker.js] for the [install],
    [activate] and [fetch] events, with the cache storage passed
    explicitly.  A handler gives the settled value of the promise it hands
    to [event.waitUntil] or [event.respondWith]. *)

Module ServiceWorker.

Record Request := {
  method : string;
  url : string
}.

Record Response := {
  status : Z;
  (** [response.type]: "basic", "cors", "opaque", ... *)
  type : string;
  body : string
}.

(** [response.ok] *)
Definition ok (r : Response) : bool :=
  (200 <=? status r)%Z && (status r <=? 299)%Z.

Inductive promise (A : Type) :=
| Fulfilled (a : A)
| Rejected (reason : string).
Arguments Fulfilled {A} a.
Arguments Rejected {A} reason.

(** What a [fetch] event ends with: the handler returned without
    [respondWith] (the browser handles the request itself), or it
    responded with a promise; [Fulfilled None] is a promise fulfilled with
    [undefined]. *)
Inductive handled :=
| PassThrough
| RespondWith (p : promise (option Response)).

Inductive effect :=
| Log (msg : string)
| SkipWaiting
| Fetch (url : string)
| Claim
| PostMessage (client : string) (type : string).

(** A named cache maps request URLs to responses; the storage lists the
    caches in the order of their creation. *)
Record worker := {
  caches : list (string * gmap string Response);
  effects : list effect
}.

Definition CACHE_NAME := "calendar-app-v1".

Definition CACHE_URLS : list string :=
  ["/";
   "/index.html";
   "/manifest.json";
   "/public/icons/calendar-192x192.png";
   "/public/icons/calendar-512x512.png";
   "/public/icons/icon-192x192.png";
   "/public/icons/icon-512x512.png"].

(** ** The cache storage of the browser *)

(** [caches.keys()] *)
Definition caches_keys (cs : list (string * gmap string Response)) : list string :=
  cs.*1.

(** [caches.open(name)] creates the cache when there is none of that
    name. *)
Definition caches_open (name : string) (cs : list (string * gmap string Response))
  : list (string * gmap string Response) :=
  if bool_decide (name ∈ caches_keys cs) then cs else cs ++ [(name, ∅)].

(** [caches.delete(name)] *)
Definition caches_delete (name : string) (cs : list (string * gmap string Response))
  : list (string * gmap string Response) :=
  filter (fun nc => nc.1 ≠ name) cs.

(** [caches.match(request)]: the first cache, in creation order, that
    holds the URL. *)
Fixpoint caches_match (u : string) (cs : list (string * gmap string Response))
  : option Response :=
  match cs with
  | [] => None
  | (_, c) :: cs' =>
      match c !! u with
      | Some r => Some r
      | None => caches_match u cs'
      end
  end.

(** The cache of a given name. *)
Fixpoint cache_of (name : string) (cs : list (string * gmap string Response))
  : option (gmap string Response) :=
  match cs with
  | [] => None
  | (n, c) :: cs' => if bool_decide (n = name) then Some c else cache_of name cs'
  end.

(** [cache.put(request, response)] on the cache of a given name. *)
Definition cache_put (name u : string) (r : Response)
    (cs : list (string * gmap string Response))
  : list (string * gmap string Response) :=
  (fun nc => if bool_decide (nc.1 = name) then (nc.1, <[u := r]> nc.2) else nc) <$> cs.

Section Worker.

(** The network: [None] is a rejected [fetch]. *)
Variable network : string -> option Response.

(** The window clients of the worker. *)
Variable clients : list string.

Definition log (msg : string) (w : worker) : worker :=
  {| caches := caches w; effects := effects w ++ [Log msg] |}.

Definition perform (e : effect) (w : worker) : worker :=
  {| caches := caches w; effects := effects w ++ [e] |}.

Definition set_caches (cs : list (string * gmap string Response)) (w : worker)
  : worker :=
  {| caches := cs; effects := effects w |}.

(** The requests of [cache.addAll(urls)]: every URL is fetched; the
    promise rejects when a fetch rejects or a response is not [ok], and
    then nothing is stored. *)
Fixpoint fetch_all (urls : list string) : option (list (string * Response)) :=
  match urls with
  | [] => Some []
  | u :: urls' =>
      match network u with
      | Some r =>
          if ok r then
            match fetch_all urls' with
            | Some rs => Some ((u, r) :: rs)
            | None => None
            end
          else None
      | None => None
      end
  end.

Definition put_all (name : string) (rs : list (string * Response))
    (cs : list (string * gmap string Response))
  : list (string * gmap string Response) :=
  foldl (fun cs ur => cache_put name ur.1 ur.2 cs) cs rs.

(** [cache.addAll(urls)] on the cache of a given name *)
Definition cache_addAll (name : string) (urls : list string) (w : worker)
  : promise unit * worker :=
  let w := foldl (fun w u => perform (Fetch u) w) w urls in
  match fetch_all urls with
  | Some rs => (Fulfilled tt, set_caches (put_all name rs (caches w)) w)
  | None => (Rejected "TypeError: Failed to fetch", w)
  end.

(** ** install *)

Definition install (w : worker) : promise unit * worker :=
  let w := log "Service worker installed" w in
  let w := perform SkipWaiting w in
  let w := log "Service worker scope:" w in
  (* event.waitUntil(caches.open(CACHE_NAME).then(..).then(..).catch(..)) *)
  let w := set_caches (caches_open CACHE_NAME (caches w)) w in
  let w := log "Caching app shell" w in
  match cache_addAll CACHE_NAME CACHE_URLS w with
  | (Fulfilled _, w) => (Fulfilled tt, log "App shell cached" w)
  | (Rejected _, w) => (Fulfilled tt, log "Cache addAll error:" w)
  end.

(** ** activate *)

(** [cacheNames.map(cacheName => { if (cacheName !== CACHE_NAME) return
    caches.delete(cacheName) })] *)
Definition delete_old (w : worker) (cacheName : string) : worker :=
  if bool_decide (cacheName ≠ CACHE_NAME) then
    set_caches (caches_delete cacheName (caches w))
      (log "Deleting old cache:" w)
  else w.

Definition activate (w : worker) : promise unit * worker :=
  let w := log "Service worker activated" w in
  let cacheNames := caches_keys (caches w) in
  let w := foldl delete_old w cacheNames in
  let w := perform Claim w in
  let w := log "Service worker now controlling all clients" w in
  let w := foldl (fun w client => perform (PostMessage client "SERVICE_WORKER_READY") w)
             w clients in
  (Fulfilled tt, log "Service worker activated and ready to handle fetch events" w).

(** ** fetch *)

Definition on_fetch (request : Request) (w : worker) : handled * worker :=
  if negb (String.eqb (method request) "GET")
     || String.prefix "chrome-extension://" (url request)
  then (PassThrough, w)
  else if includes "/api/" (url request) then
    (* network first *)
    let w := perform (Fetch (url request)) w in
    match network (url request) with
    | Some response =>
        if (status response =? 200)%Z
        then (RespondWith (Fulfilled (Some response)), w)
        else (RespondWith (Fulfilled (caches_match (url request) (caches w))), w)
    | None =>
        (RespondWith (Fulfilled (caches_match "/offline.html" (caches w))), w)
    end
  else
    (* cache first *)
    match caches_match (url request) (caches w) with
    | Some cachedResponse => (RespondWith (Fulfilled (Some cachedResponse)), w)
    | None =>
        let w := perform (Fetch (url request)) w in
        match network (url request) with
        | Some response =>
            if negb (status response =? 200)%Z
               || negb (String.eqb (type response) "basic")
            then (RespondWith (Fulfilled (Some response)), w)
            else
              let cs := caches_open CACHE_NAME (caches w) in
              (RespondWith (Fulfilled (Some response)),
               set_caches (cache_put CACHE_NAME (url request) response cs) w)
        | None => (RespondWith (Rejected "TypeError: Failed to fetch"), w)
        end
    end.

End Worker.

(** A storage is well formed when no two caches have the same name. *)
Definition well_formed (cs : list (string * gmap string Response)) : Prop :=
  NoDup (caches_keys cs).

End ServiceWorker.

(* ===================================================================== *)
(** * Sample hosts *)
(* ===================================================================== *)

Module Samples.

Import NotificationService.

(** The success envelope of the server around [data]. *)
Definition envelope (data : jsval) : Host.Response :=
  {| resp_status := 200;
     resp_json := Some (JObj (literal [("success", JBool true); ("data", data)])) |}.

Definition sample_subscription : PushSubscription :=
  {| endpoint := "https://push.example/send/1"; p256dh := "BPk"; auth := "k9" |}.

Definition NotAllowedError (n : nat) : exn :=
  JsError "NotAllowedError" ("Registration failed - push service error " ++ pretty n).

(** A browser that supports push and has granted the permission, in
    front of a server that answers the preference, event preference and
    VAPID key requests as given ([None]: the request fails on the
    network), stores what is put and posted when [writes] is set, and
    whose push service answers as [subscribe] says. *)
Definition sample_host (prefs events : option jsval) (writes : bool)
    (subscribe : nat -> exn + PushSubscription) : host :=
  {| VITE_API_URL := JUndef;
     location_origin := "https://calendar.example";
     net := fun m u body =>
       if String.eqb m "GET" then
         if String.eqb u PREFERENCES_URL then envelope <$> prefs
         else if String.eqb u EVENT_PREFERENCES_URL then envelope <$> events
         else if String.eqb u ("https://calendar.example" ++ VAPID_URL) then
           Some {| resp_status := 200;
                   resp_json := Some (JObj (literal [("success", JBool true);
                                                     ("publicKey", JStr "BEl62iUYgUivx")])) |}
         else None
       else if writes then envelope <$> body
       else None;
     has_serviceWorker := true;
     has_PushManager := true;
     has_Notification := true;
     has_brave := false;
     userAgent := "Mozilla/5.0 (X11; Linux x86_64) Chrome/120.0";
     requestPermission := Ret granted;
     serviceWorker_ready := Ret true;
     getSubscription_error := None;
     pushManager_subscribe := subscribe;
     decode_key := fun _ => Ret [4; 73; 122]%Z |}.

Definition legacy_record : jsval :=
  JObj (literal [("notify1hBefore", JBool false); ("notify10mBefore", JBool true)]).

(** What a run returned, if it returned. *)
Definition returned {A} (r : outcome A * state) : option A :=
  match r.1 with
  | Ret a => Some a
  | Throw _ => None
  end.

(** What a run threw, if it threw. *)
Definition thrown {A} (r : outcome A * state) : option exn :=
  match r.1 with
  | Ret _ => None
  | Throw e => Some e
  end.

(** A service worker network that serves the given table. *)
Definition table (t : list (string * ServiceWorker.Response)) (u : string)
  : option ServiceWorker.Response :=
  (list_to_map t : gmap string ServiceWorker.Response) !! u.

Definition page (b : string) : ServiceWorker.Response :=
  {| ServiceWorker.status := 200; ServiceWorker.type := "basic"; ServiceWorker.body := b |}.

Definition not_found : ServiceWorker.Response :=
  {| ServiceWorker.status := 404; ServiceWorker.type := "basic";
     ServiceWorker.body := "Not Found" |}.

Definition fresh_worker : ServiceWorker.worker :=
  {| ServiceWorker.caches := []; ServiceWorker.effects := [] |}.

End Samples.

(* ===================================================================== *)
(** * Predicates on runs *)
(* ===================================================================== *)

Module Runs.

Import NotificationService NotificationServiceRev1.

(** The state after some more events. *)
Definition after (evs : list event) (s : state) : state :=
  {| push_subscription := push_subscription s;
     subscribe_calls := subscribe_calls s;
     trace := trace s ++ evs |}.

(** The state after a call of [pushManager.subscribe] that left the push
    service with the subscription [ps], [evs1] being the events before the
    call and [evs2] those after it. *)
Definition called (ps : option PushSubscription) (evs1 evs2 : list event)
    (s : state) : state :=
  {| push_subscription := ps;
     subscribe_calls := S (subscribe_calls s);
     trace := trace s ++ evs1 ++ EvSubscribe :: evs2 |}.

(** Events among which there is no call of [pushManager.subscribe]. *)
Definition silent (evs : list event) : Prop :=
  Forall (fun e => is_subscribe e = false) evs.

(** A computation is quiet when all it does to the state is to add
    events, none of which is a call of [pushManager.subscribe]. *)
Definition quiet {A} (m : M A) : Prop :=
  forall s, exists r evs, m s = (r, after evs s) /\ silent evs.

(** A computation is total when it never throws. *)
Definition total {A} (m : M A) : Prop :=
  forall s, exists a s', m s = (Ret a, s').

(** [post m s Q]: the run of [m] from [s] ends in an outcome and a state
    that satisfy [Q]. *)
Definition post {A} (m : M A) (s : state) (Q : outcome A -> state -> Prop) : Prop :=
  Q (m s).1 (m s).2.

(** The [console.error] of a failed synchronisation with the server. *)
Definition sync_failed : event :=
  EvConsole error "[NotificationService] Failed to save subscription to server:".

Section Host.

Variable h : host.

(** The call number [i] of [pushManager.subscribe] fails. *)
Definition fails_at (i : nat) : Prop :=
  exists e, pushManager_subscribe h i = inl e.

(** The error of the call number [i] of [pushManager.subscribe]. *)
Definition error_at (i : nat) : exn :=
  match pushManager_subscribe h i with
  | inl e => e
  | inr _ => generic_failure
  end.

(** The browser supports push, the permission is granted and the worker
    is ready, with a push manager. *)
Definition ready : Prop :=
  has_serviceWorker h = true /\ has_PushManager h = true
  /\ has_Notification h = true /\ requestPermission h = Ret granted
  /\ serviceWorker_ready h = Ret true.

(** The three ways a run of [subscribeToPushNotifications] from [s0] can
    end: without a call of [pushManager.subscribe], ... *)
Definition untouched (s0 : state) (r : outcome PushSubscription) (s1 : state)
  : Prop :=
  exists evs,
    s1 = after evs s0 /\ silent evs
    /\ forall sub, r = Ret sub -> push_subscription s0 = Some sub /\ ready.

(** ... with a call that the push service granted, ... *)
Definition granted_by_host (s0 : state) (r : outcome PushSubscription) (s1 : state)
  : Prop :=
  exists sub evs1 evs2,
    pushManager_subscribe h (subscribe_calls s0) = inr sub
    /\ r = Ret sub /\ ready
    /\ s1 = called (Some sub) evs1 evs2 s0
    /\ silent evs1 /\ silent evs2
    /\ (sync_failed ∈ evs2
        \/ exists body s2 v s3, Api.post h PUSH_SUBSCRIPTIONS_URL body s2 = (Ret v, s3)).

(** ... or with a call that it refused. *)
Definition refused_by_host (s0 : state) (r : outcome PushSubscription) (s1 : state)
  : Prop :=
  exists e e' evs1 evs2,
    pushManager_subscribe h (subscribe_calls s0) = inl e
    /\ r = Throw e'
    /\ s1 = called (push_subscription s0) evs1 evs2 s0
    /\ silent evs1 /\ silent evs2.

Definition ends (s0 : state) (r : outcome PushSubscription) (s1 : state) : Prop :=
  untouched s0 r s1 \/ granted_by_host s0 r s1 \/ refused_by_host s0 r s1.

End Host.

(** What a cache holds after the responses [rs] were put into it. *)
Definition store (c : gmap string ServiceWorker.Response)
    (rs : list (string * ServiceWorker.Response))
  : gmap string ServiceWorker.Response :=
  foldl (fun c ur => <[ur.1 := ur.2]> c) c rs.

End Runs.

(* ===================================================================== *)
(** * Sample inputs *)
(* ===================================================================== *)

Module Inputs.

Import NotificationService Samples.

Definition refusing (n : nat) : exn + PushSubscription := inl (NotAllowedError n).

Definition granting (n : nat) : exn + PushSubscription := inr sample_subscription.

(** The push service fails once, then grants. *)
Definition second_time (n : nat) : exn + PushSubscription :=
  if bool_decide (n = 1) then inr sample_subscription else inl (NotAllowedError n).

Definition legacy_host : host :=
  sample_host (Some legacy_record) None true refusing.

Definition all_events_off : jsval :=
  JObj (literal [("notifyAllEvents", JBool false)]).

Definition new_user_host : host :=
  sample_host (Some all_events_off) (Some (JArr [])) true refusing.

Definition standup_enabled : jsval :=
  JArr [JObj (literal [("event_type", JStr "standup"); ("is_enabled", JBool true)])].

(** The preference request fails, the event preference request does
    not. *)
Definition no_preferences_host : host :=
  sample_host None (Some standup_enabled) true refusing.

(** The event preference request fails. *)
Definition no_event_preferences_host : host :=
  sample_host (Some JNull) None true refusing.

Definition invalid_update : gmap string jsval :=
  literal [("notifyEmail", JBool true); ("email", JStr "not-an-address")].

Definition writable_host : host :=
  sample_host (Some JNull) None true granting.

(** The server refuses every write. *)
Definition read_only_host : host :=
  sample_host (Some JNull) None false granting.

Definition events_url := "https://calendar.example/api/events".

Definition events_request : ServiceWorker.Request :=
  {| ServiceWorker.method := "GET"; ServiceWorker.url := events_url |}.

(** A worker whose current cache holds a copy of the events. *)
Definition worker_with_copy : ServiceWorker.worker :=
  {| ServiceWorker.caches :=
       [(ServiceWorker.CACHE_NAME, {[ events_url := page "stale events" ]})];
     ServiceWorker.effects := [] |}.

(** A worker with the cache of the previous version and the current
    one. *)
Definition worker_with_old_cache : ServiceWorker.worker :=
  {| ServiceWorker.caches :=
       [("calendar-app-v0", {[ "/index.html" := page "old shell" ]});
        (ServiceWorker.CACHE_NAME, {[ "/index.html" := page "shell" ]})];
     ServiceWorker.effects := [] |}.

(** A network that serves every asset of the manifest but
    [/manifest.json]. *)
Definition network_without_manifest : string -> option ServiceWorker.Response :=
  table [("/", page "shell");
         ("/index.html", page "shell");
         ("/public/icons/calendar-192x192.png", page "png");
         ("/public/icons/calendar-512x512.png", page "png");
         ("/public/icons/icon-192x192.png", page "png");
         ("/public/icons/icon-512x512.png", page "png")].

End Inputs.

(* ===================================================================== *)
(** * The notification service: the other operations *)
(* ===================================================================== *)

(** The operations of the current revision that write to the server
    ([updateEventPreference], [ensureNotificationsEnabled],
    [saveAllPreferences], [sendTestNotification]), that end or start a
    subscription ([unsubscribeFromPushNotifications],
    [initializePushNotifications]) and that read the event types off the
    calendar ([getUniqueEventTypes], in both revisions). *)

Module Operations.

Import NotificationService.

Definition TEST_NOTIFICATION_URL := "/api/notifications/test".

(** A calendar event, by what the service reads of it: its title and
    [extendedProperties?.eventType]. *)
Record CalendarEvent := {
  title : string;
  eventType : option string
}.

(** The label of an event: its type, or its title when it has no type
    (or an empty one); none when both are empty. *)
Definition label (event : CalendarEvent) : option string :=
  match eventType event with
  | Some t => if negb (String.eqb t "") then Some t
              else if negb (String.eqb (title event) "") then Some (title event)
              else None
  | None => if negb (String.eqb (title event) "") then Some (title event) else None
  end.

(** [types.add(x)] on a [Set], kept in insertion order. *)
Definition set_add (types : list string) (x : string) : list string :=
  if bool_decide (x ∈ types) then types else types ++ [x].

(** The body of [events.forEach]. *)
Definition add_label (types : list string) (event : CalendarEvent) : list string :=
  match label event with
  | Some x => set_add types x
  | None => types
  end.

(** [getUniqueEventTypes] of the earlier revision: [Array.from(types)]. *)
Definition getUniqueEventTypes_rev1 (events : list CalendarEvent) : list string :=
  foldl add_label [] events.

(** [pref && typeof pref.eventType !== 'undefined' && typeof
    pref.isEnabled !== 'undefined'], with the two fields. *)
Definition complete_pref (pref : jsval) : option (jsval * jsval) :=
  if truthy pref then
    match js_get "eventType" pref, js_get "isEnabled" pref with
    | Some t, Some e =>
        if is_undefined t || is_undefined e then None else Some (t, e)
    | _, _ => None
    end
  else None.

Section Service.

Variable h : host.

(** [Notification.permission] *)
Variable Notification_permission : NotificationPermission.

(** What [subscription.unsubscribe()] settles with. *)
Variable unsubscribe_settles : outcome bool.

(** [a.localeCompare(b)] *)
Variable localeCompare : string -> string -> Z.

(** ** Event types *)

(** [Array.prototype.sort] with a comparator is stable: an element goes
    behind the elements that do not compare greater. *)
Fixpoint sorted_insert (x : string) (l : list string) : list string :=
  match l with
  | [] => [x]
  | y :: l' =>
      if (0 <? localeCompare y x)%Z then x :: y :: l' else y :: sorted_insert x l'
  end.

Definition sort (l : list string) : list string :=
  foldl (fun acc x => sorted_insert x acc) [] l.

Definition getUniqueEventTypes (events : list CalendarEvent) : list string :=
  sort (foldl add_label [] events).

(** ** Writes *)

Definition ensureNotificationsEnabled : M unit :=
  try_catch
    (let* prefs := getPreferences h in
     if negb (truthy (JObj prefs)) then
       exec updatePreferences h DEFAULT_PREFERENCES in
       ret tt
     else ret tt)
    (fun e =>
       exec console error "Error ensuring notifications are enabled:" in
       throw e).

Definition updateEventPreference (eventType : string) (isEnabled isNewType : bool)
  : M unit :=
  if String.eqb eventType "" then throw (Error "Event type is required")
  else
    try_catch
      (let* prefs := getPreferences h in
       let isEnabled :=
         if isNewType && truthy (field "notifyAllEvents" prefs) then true
         else isEnabled in
       exec Api.post h EVENT_PREFERENCES_URL
         (JObj (literal [("eventType", JStr eventType);
                         ("isEnabled", JBool isEnabled)])) in
       when isEnabled ensureNotificationsEnabled)
      (fun e =>
         exec console error "Error updating event preference:" in
         throw e).

(** The [for (const pref of eventPreferences)] loop. *)
Fixpoint save_event_preferences (email : jsval) (eventPreferences : list jsval)
  : M unit :=
  match eventPreferences with
  | [] => ret tt
  | pref :: rest =>
      exec (match complete_pref pref with
            | Some (t, e) =>
                try_catch
                  (exec Api.post h EVENT_PREFERENCES_URL
                     (JObj (literal [("eventType", t);
                                     ("isEnabled", e);
                                     ("email", email)])) in
                   ret tt)
                  (fun _ =>
                     console error
                       ("Error updating event preference for " ++ js_to_string t ++ ":"))
            | None => ret tt
            end) in
      save_event_preferences email rest
  end.

Definition saveAllPreferences (preferences : jsval) : M (gmap string jsval) :=
  try_catch
    ((* const { eventPreferences, ...mainPreferences } = preferences *)
     let* eventPreferences := prop "eventPreferences" preferences in
     let mainPreferences := delete "eventPreferences" (own_props preferences) in
     exec updatePreferences h
       (literal
          [("email", field "email" mainPreferences);
           ("notifyEmail", field "notifyEmail" mainPreferences);
           ("notifyBrowser", field "notifyBrowser" mainPreferences);
           ("notifyAllEvents", field "notifyAllEvents" mainPreferences);
           ("email1hBefore", field "email1hBefore" mainPreferences);
           ("email10mBefore", field "email10mBefore" mainPreferences);
           ("browser1hBefore", field "browser1hBefore" mainPreferences);
           ("browser10mBefore", field "browser10mBefore" mainPreferences);
           ("notifyNewEvents", field "notifyNewEvents" mainPreferences)]) in
     exec save_event_preferences (field "email" mainPreferences)
       (array_or_empty eventPreferences) in
     ret (literal [("success", JBool true)]))
    (fun _ =>
       exec console error "Error saving all preferences:" in
       throw (Error "Failed to save preferences")).

Definition sendTestNotification (userId : string) : M bool :=
  try_catch
    (exec Api.post h TEST_NOTIFICATION_URL (JObj (literal [("userId", JStr userId)])) in
     ret true)
    (fun _ =>
       exec console error "Error sending test notification:" in
       ret false).

(** ** The subscription *)

(** [typeof window !== 'undefined' && 'Notification' in window &&
    Notification.permission === 'granted'] *)
Definition hasNotificationPermission : bool :=
  has_Notification h && is_granted Notification_permission.

(** [subscription.unsubscribe()]: once it has settled the push service
    holds no subscription any more. *)
Definition subscription_unsubscribe : M bool :=
  fun s =>
    match unsubscribe_settles with
    | Ret b =>
        (Ret b,
         {| push_subscription := None;
            subscribe_calls := subscribe_calls s;
            trace := trace s |})
    | Throw e => (Throw e, s)
    end.

Definition unsubscribeFromPushNotifications (_userId : string) : M bool :=
  if negb (isSupported h) then ret false
  else
    try_catch
      (let* registration := lift (serviceWorker_ready h) in
       (* registration.pushManager.getSubscription() *)
       exec when (negb (registration : bool))
         (throw (TypeError "Cannot read properties of undefined (reading 'getSubscription')")) in
       let* subscription := pushManager_getSubscription h in
       match subscription with
       | Some subscription =>
           exec subscription_unsubscribe in
           exec try_catch
             (exec Api.fetch h "DELETE" PUSH_SUBSCRIPTIONS_URL
                (Some (JObj (literal [("endpoint", JStr (endpoint subscription))]))) in
              ret tt)
             (fun _ => console error "Failed to notify server about unsubscription:") in
           ret true
       | None => ret false
       end)
      (fun e =>
         exec console error "Error unsubscribing from push notifications:" in
         throw e).

Definition initializePushNotifications (userId userEmail : string) : M bool :=
  try_catch
    (if negb (isSupported h) || negb hasNotificationPermission then ret false
     else if String.eqb userEmail "" then
       exec console error "User email is required for push notifications" in
       ret false
     else
       let* subscribed := isSubscribed h in
       if (subscribed : bool) then ret true
       else
         let* subscription := subscribeToPushNotifications h userId userEmail in
         (* subscription !== null *)
         ret true)
    (fun _ =>
       exec console error "Error initializing push notifications:" in
       ret false).

End Service.

End Operations.

(* ===================================================================== *)
(** * The service worker: notifications *)
(* ===================================================================== *)

(** The [message], [push] and [notificationclick] handlers of the service
    worker and [showNotification].  A handler is a function from the event
    to the list of the actions it performs, in order; the clock is the
    number of [Date.now()] calls made so far. *)

Module WorkerNotifications.

#[local] Open Scope list_scope.

Inductive action :=
| Log (msg : string)
(** [self.registration.showNotification(title, options)] *)
| Show (title : jsval) (options : gmap string jsval)
(** [event.ports[0].postMessage(message)] *)
| Reply (port : string) (message : gmap string jsval)
(** [event.notification.close()] *)
| Close
(** [client.focus()], by the URL of the client *)
| Focus (client : string)
(** [clients.openWindow(url)] *)
| OpenWindow (url : string).

(** What the host does with a notification. *)
Inductive display :=
| Displays
| RejectsWith (e : exn)
| ThrowsSync (e : exn).

(** A settled promise. *)
Inductive settled (A : Type) :=
| Resolved (a : A)
| RejectedWith (reason : jsval).
Arguments Resolved {A} a.
Arguments RejectedWith {A} reason.

(** What a call ends with: a returned value or a thrown one. *)
Inductive completion (A : Type) :=
| Returns (a : A)
| Throws (reason : jsval).
Arguments Returns {A} a.
Arguments Throws {A} reason.

(** An [Error] object as a value. *)
Definition error_value (e : exn) : jsval :=
  JObj (literal [("name", JStr (err_name e)); ("message", JStr (err_message e))]).

(** [event.data] of a push event, by the methods it has and what they
    give ([None]: [json()] throws). *)
Record PushMessageData := {
  has_json : bool;
  json : option jsval;
  has_text : bool;
  text : string
}.

(** A window client: its URL and whether it has a [focus] method. *)
Record WindowClient := {
  client_url : string;
  has_focus : bool
}.

Definition DEFAULT_ICON := "/icons/icon-192x192.png".
Definition DEFAULT_BADGE := "/icons/calendar-192x192.png".
Definition VIBRATE : jsval := JArr [JNum 200; JNum 100; JNum 200].

Section Worker.

(** [self.registration] and [self.registration.showNotification] *)
Variable has_registration : bool.
Variable has_showNotification : bool.

(** The host's [showNotification]. *)
Variable host_show : jsval -> gmap string jsval -> display.

(** [Date.now()], by the number of the call. *)
Variable Date_now : nat -> Z.

(** [JSON.parse(text)] ([None]: it throws) *)
Variable JSON_parse : string -> option jsval.

(** [clients.matchAll({ type: 'window' })] and whether there is a
    [clients.openWindow]. *)
Variable window_clients : list WindowClient.
Variable has_openWindow : bool.

(** The options that [showNotification] hands to the host. *)
Definition normalize (options : gmap string jsval) (now : Z) : gmap string jsval :=
  <["data" := JObj (<["timestamp" := JNum now]>
                      (own_props (js_or (field "data" options) (JObj ∅))))]>
    (<["vibrate" := VIBRATE]>
       (<["badge" := js_or (field "badge" options) (JStr DEFAULT_BADGE)]>
          (<["icon" := js_or (field "icon" options) (JStr DEFAULT_ICON)]> options))).

(** [showNotification(notificationData)], from [clock] calls of
    [Date.now()]: the promise it returns (or what it throws), the actions
    and the clock afterwards. *)
Definition showNotification (notificationData : jsval) (clock : nat)
  : completion (settled bool) * list action * nat :=
  if negb has_registration then
    (Returns (RejectedWith (JStr "No service worker registration")),
     [Log "Error: No service worker registration found"], clock)
  else if negb has_showNotification then
    (Returns (RejectedWith (JStr "showNotification not available")),
     [Log "Error: showNotification not available in service worker registration"],
     clock)
  else
    (* const { title, ...options } = notificationData *)
    match js_get "title" notificationData with
    | None =>
        (Throws (error_value (TypeError "Cannot destructure property 'title'")),
         [], clock)
    | Some title =>
        let options := delete "title" (own_props notificationData) in
        let shown := normalize options (Date_now clock) in
        let before := [Log "Attempting to show notification with title:"] in
        match host_show title shown with
        | Displays =>
            (Returns (Resolved true),
             before ++ [Show title shown; Log "Notification shown successfully"],
             S clock)
        | RejectsWith e =>
            (Returns (RejectedWith (error_value e)),
             before ++ [Show title shown; Log "Error showing notification:"],
             S clock)
        | ThrowsSync e =>
            (Returns (RejectedWith (error_value e)),
             before ++ [Show title shown; Log "Exception in showNotification:"],
             S clock)
        end
    end.

(** ** message *)

(** [event.ports && event.ports[0] && event.ports[0].postMessage(m)] *)
Definition reply (ports : list string) (m : gmap string jsval) : list action :=
  match ports with
  | port :: _ => [Reply port m]
  | [] => []
  end.

(** [event.data.type === 'SHOW_NOTIFICATION'] *)
Definition is_show_notification (type : jsval) : bool :=
  match type with
  | JStr t => String.eqb t "SHOW_NOTIFICATION"
  | _ => false
  end.

Definition on_message (data : jsval) (ports : list string) (clock : nat)
  : completion unit * list action * nat :=
  let received := [Log "Message received from client:"] in
  let notification := default JUndef (js_get "notification" data) in
  if truthy data
     && is_show_notification (default JUndef (js_get "type" data))
     && truthy notification
  then
    match showNotification notification clock with
    | (Returns (Resolved _), acts, clock') =>
        (Returns tt,
         received ++ [Log "Received SHOW_NOTIFICATION message, showing notification..."]
           ++ acts
           ++ reply ports (literal [("success", JBool true);
                                    ("message", JStr "Notification shown successfully")]),
         clock')
    | (Returns (RejectedWith reason), acts, clock') =>
        (Returns tt,
         received ++ [Log "Received SHOW_NOTIFICATION message, showing notification..."]
           ++ acts
           ++ [Log "Failed to show notification from message:"]
           ++ reply ports
                (literal [("success", JBool false);
                          ("error", js_or (default JUndef (js_get "message" reason))
                                      (JStr "Failed to show notification"))]),
         clock')
    | (Throws reason, acts, clock') =>
        (Throws reason,
         received ++ [Log "Received SHOW_NOTIFICATION message, showing notification..."]
           ++ acts,
         clock')
    end
  else (Returns tt, received, clock).

(** ** push *)

(** The card of a push message that is plain text. *)
Definition text_card (text : string) (now : Z) : jsval :=
  JObj (literal
          [("title", JStr "New Notification");
           ("body", js_or (JStr text) (JStr "You have a new notification"));
           ("icon", JStr DEFAULT_ICON);
           ("badge", JStr DEFAULT_BADGE);
           ("data", JObj (literal [("url", JStr "/");
                                   ("timestamp", JNum now);
                                   ("source", JStr "push-event")]))]).

Definition fallback_card (now : Z) : jsval :=
  JObj (literal
          [("title", JStr "New Notification");
           ("body", JStr "You have a new notification");
           ("icon", JStr DEFAULT_ICON);
           ("badge", JStr DEFAULT_BADGE);
           ("data", JObj (literal [("url", JStr "/");
                                   ("timestamp", JNum now);
                                   ("source", JStr "push-event-fallback")]))]).

Definition error_card (now : Z) : jsval :=
  JObj (literal
          [("title", JStr "Notification Error");
           ("body", JStr "There was an error showing this notification");
           ("icon", JStr DEFAULT_ICON);
           ("badge", JStr DEFAULT_BADGE);
           ("data", JObj (literal [("url", JStr "/");
                                   ("timestamp", JNum now);
                                   ("error", JBool true)]))]).

(** A call of [showNotification] whose promise is dropped: what it
    throws, if it throws, the actions and the clock. *)
Definition show_and_forget (notificationData : jsval) (clock : nat)
  : option jsval * list action * nat :=
  match showNotification notificationData clock with
  | (Returns _, acts, clock') => (None, acts, clock')
  | (Throws reason, acts, clock') => (Some reason, acts, clock')
  end.

(** The [catch] of the handler: the error card. *)
Definition show_error_card (acts : list action) (clock : nat)
  : completion unit * list action * nat :=
  match show_and_forget (error_card (Date_now clock)) (S clock) with
  | (None, acts', clock') =>
      (Returns tt, acts ++ [Log "Error handling push event:"] ++ acts', clock')
  | (Some reason, acts', clock') =>
      (Throws reason, acts ++ [Log "Error handling push event:"] ++ acts', clock')
  end.

Definition on_push (data : option PushMessageData) (clock : nat)
  : completion unit * list action * nat :=
  let received := [Log "Push event received:"] in
  match data with
  | None => (Returns tt, received ++ [Log "Push event has no data"], clock)
  | Some data =>
      if has_json data then
        match json data with
        | None => show_error_card received clock
        | Some notificationData =>
            match show_and_forget notificationData clock with
            | (None, acts, clock') =>
                (Returns tt,
                 received ++ [Log "Parsed push notification data:"] ++ acts, clock')
            | (Some _, acts, clock') =>
                show_error_card
                  (received ++ [Log "Parsed push notification data:"] ++ acts) clock'
            end
        end
      else if has_text data then
        let received := received ++ [Log "Received text push data:"] in
        let plain (acts : list action) (clock : nat) :=
          match show_and_forget (text_card (text data) (Date_now clock)) (S clock) with
          | (None, acts', clock') =>
              (Returns tt,
               acts ++ [Log "Could not parse push data as JSON, using as plain text"]
                 ++ acts', clock')
          | (Some _, acts', clock') =>
              show_error_card
                (acts ++ [Log "Could not parse push data as JSON, using as plain text"]
                   ++ acts') clock'
          end in
        match JSON_parse (text data) with
        | None => plain received clock
        | Some notificationData =>
            match show_and_forget notificationData clock with
            | (None, acts, clock') =>
                (Returns tt, received ++ [Log "Parsed text data as JSON:"] ++ acts, clock')
            | (Some _, acts, clock') =>
                plain (received ++ [Log "Parsed text data as JSON:"] ++ acts) clock'
            end
        end
      else
        match show_and_forget (fallback_card (Date_now clock)) (S clock) with
        | (None, acts, clock') =>
            (Returns tt,
             received ++ [Log "No usable data in push event, showing fallback notification"]
               ++ acts, clock')
        | (Some _, acts, clock') =>
            show_error_card
              (received ++ [Log "No usable data in push event, showing fallback notification"]
                 ++ acts) clock'
        end
  end.

(** ** notificationclick *)

(** The URL a click leads to. *)
Definition target_url (data : jsval) : string :=
  let url := default JUndef (js_get "url" data) in
  let eventId := default JUndef (js_get "eventId" data) in
  if truthy data && truthy url then js_to_string url
  else if truthy data && truthy eventId then ("/event/" ++ js_to_string eventId)%string
  else "/".

(** The [for (const client of clientList)] loop: the first client that
    shows the URL and can be focused. *)
Fixpoint first_match (url : string) (clientList : list WindowClient)
  : option WindowClient :=
  match clientList with
  | [] => None
  | client :: rest =>
      if includes url (client_url client) && has_focus client then Some client
      else first_match url rest
  end.

Definition on_notificationclick (chosen : string) (data : jsval) : list action :=
  let url := target_url data in
  [Close] ++
  (* action === 'view' || action === '' *)
  (if String.eqb chosen "view" || String.eqb chosen "" then
     match first_match url window_clients with
     | Some client => [Focus (client_url client)]
     | None => if has_openWindow then [OpenWindow url] else []
     end
   else []).

End Worker.

(** The notifications among the actions of a handler, and the replies
    to the page. *)
Definition shows (acts : list action) : list (jsval * gmap string jsval) :=
  omap (fun a => match a with
                 | Show title options => Some (title, options)
                 | _ => None
                 end) acts.

Definition replies (acts : list action) : list (string * gmap string jsval) :=
  omap (fun a => match a with
                 | Reply port message => Some (port, message)
                 | _ => None
                 end) acts.



End WorkerNotifications.

(* ===================================================================== *)
(** * Shapes of requests and records *)
(* ===================================================================== *)

Module Shapes.

Import NotificationService.

(** The URL that [request] hands to [fetch]. *)
Definition sent_url (h : host) (url : string) : string :=
  if String.prefix "http" url then url else Api.API_BASE_URL h ++ url.

(** The body that [request] sends. *)
Definition sent_body (method : string) (data : jsval) : option jsval :=
  if negb (String.eqb method "GET") && truthy data then Some data else None.

(** The [console.error] of a failed [request]. *)
Definition request_failed (method url : string) : event :=
  EvConsole error ("API " ++ method ++ " " ++ url ++ " failed:").

(** The fields of the preferences, as the client names them and as the
    server names them. *)
Definition FIELDS : list (string * string) :=
  [("email", "email");
   ("notifyEmail", "notify_email");
   ("notifyBrowser", "notify_browser");
   ("notifyAllEvents", "notify_all_events");
   ("email1hBefore", "email_1h_before");
   ("email10mBefore", "email_10m_before");
   ("browser1hBefore", "browser_1h_before");
   ("browser10mBefore", "browser_10m_before");
   ("notifyNewEvents", "notify_new_events")].

(** The type a stored record is about, when it is well formed. *)
Definition type_of_record (pref : jsval) : option string :=
  match pref with
  | JObj o =>
      match o !! "event_type", o !! "is_enabled" with
      | Some (JStr t), Some (JBool _) => Some t
      | _, _ => None
      end
  | _ => None
  end.

Definition is_fetch (e : event) : bool :=
  match e with
  | EvFetch _ _ _ => true
  | _ => false
  end.

(** A request that changes the server. *)
Definition is_write (e : event) : bool :=
  match e with
  | EvFetch m _ _ => negb (String.eqb m "GET")
  | _ => false
  end.

(** The strings the embedding of [isValidEmail] speaks for: those of
    ASCII characters, on which a character is a byte. *)
Definition ascii_only (s : string) : bool :=
  forallb (fun c => (nat_of_ascii c <? 128)%nat) (String.list_ascii_of_string s).

(** A computation that only reads: all it does to the state is to add
    events that satisfy [P]. *)
Definition only (P : event -> bool) {A} (m : M A) : Prop :=
  forall s, exists r evs,
    m s = (r, Runs.after evs s) /\ Forall (fun e => P e = true) evs.

(** No request at all, and no request that changes the server. *)
Definition no_fetch (e : event) : bool := negb (is_fetch e).
Definition no_write (e : event) : bool := negb (is_write e).

(** The requests of a run that change the server. *)
Definition writes (evs : list event) : list event :=
  filter (fun e => is_write e = true) evs.

(** The main preferences that [saveAllPreferences] hands to
    [updatePreferences]. *)
Definition main_preferences (o : gmap string jsval) : gmap string jsval :=
  literal
    [("email", field "email" o);
     ("notifyEmail", field "notifyEmail" o);
     ("notifyBrowser", field "notifyBrowser" o);
     ("notifyAllEvents", field "notifyAllEvents" o);
     ("email1hBefore", field "email1hBefore" o);
     ("email10mBefore", field "email10mBefore" o);
     ("browser1hBefore", field "browser1hBefore" o);
     ("browser10mBefore", field "browser10mBefore" o);
     ("notifyNewEvents", field "notifyNewEvents" o)].

(** The request that saves the preference of one event type. *)
Definition event_preference_post (h : host) (email : jsval) (te : jsval * jsval)
  : event :=
  EvFetch "POST" (sent_url h EVENT_PREFERENCES_URL)
    (Some (JObj (literal [("eventType", te.1); ("isEnabled", te.2); ("email", email)]))).

(** The request that tells the server that a subscription ended. *)
Definition unsubscription_request (sub : PushSubscription) : event :=
  EvFetch "DELETE" PUSH_SUBSCRIPTIONS_URL
    (Some (JObj (literal [("endpoint", JStr (endpoint sub))]))).

(** A list in which no element compares greater than the next one. *)
Fixpoint ascending (compare : string -> string -> Z) (l : list string) : bool :=
  match l with
  | a :: l' =>
      match l' with
      | b :: _ => (compare a b <=? 0)%Z && ascending compare l'
      | [] => true
      end
  | [] => true
  end.

(** What stays in the page: the permission prompt, the console and the
    timers. *)
Definition local_only (e : event) : bool :=
  match e with
  | EvRequestPermission | EvConsole _ _ | EvDelay _ => true
  | _ => false
  end.

End Shapes.

(* ===================================================================== *)
(** * More sample inputs *)
(* ===================================================================== *)

Module MoreInputs.

Import NotificationService Samples Inputs.

(** The user switched all events off, then the stand-up on. *)
Definition stored_choice_host : host :=
  sample_host (Some all_events_off) (Some standup_enabled) true refusing.

(** The same browser and server, the permission prompt answered as
    given. *)
Definition with_permission (p : outcome NotificationPermission) (h : host) : host :=
  {| VITE_API_URL := VITE_API_URL h;
     location_origin := location_origin h;
     net := net h;
     has_serviceWorker := has_serviceWorker h;
     has_PushManager := has_PushManager h;
     has_Notification := has_Notification h;
     has_brave := has_brave h;
     userAgent := userAgent h;
     requestPermission := p;
     serviceWorker_ready := serviceWorker_ready h;
     getSubscription_error := getSubscription_error h;
     pushManager_subscribe := pushManager_subscribe h;
     decode_key := decode_key h |}.

(** The user answers the prompt with 'denied'. *)
Definition denying_host : host := with_permission (Ret denied) writable_host.

(** The push service holds a subscription. *)
Definition subscribed : state :=
  {| push_subscription := Some sample_subscription;
     subscribe_calls := 1;
     trace := [] |}.

(** The order of the code points, as a comparator. *)
Definition by_code_point (a b : string) : Z :=
  match String.compare a b with
  | Lt => (-1)%Z
  | Eq => 0%Z
  | Gt => 1%Z
  end.

Definition standup : Operations.CalendarEvent :=
  {| Operations.title := "Daily"; Operations.eventType := Some "standup" |}.

Definition release : Operations.CalendarEvent :=
  {| Operations.title := "release"; Operations.eventType := None |}.

Definition untitled : Operations.CalendarEvent :=
  {| Operations.title := ""; Operations.eventType := Some "" |}.

(** What the settings page saves: the main preferences and one record
    per event type, the second of them without a value. *)
Definition settings : jsval :=
  JObj (literal
          [("email", JStr "ada@example.org");
           ("notifyBrowser", JBool false);
           ("eventPreferences",
            JArr [JObj (literal [("eventType", JStr "standup");
                                 ("isEnabled", JBool true)]);
                  JObj (literal [("eventType", JStr "release")])])]).


(** A reminder as the server pushes it. *)
Definition reminder : jsval :=
  JObj (literal [("title", JStr "Stand-up in 10 minutes");
                 ("body", JStr "Daily stand-up");
                 ("data", JObj (literal [("eventId", JNum 42);
                                         ("timestamp", JNum 1)]))]).

(** A host that displays every notification. *)
Definition displaying (title : jsval) (options : gmap string jsval)
  : WorkerNotifications.display :=
  WorkerNotifications.Displays.

(** A host that refuses every notification. *)
Definition blocking (title : jsval) (options : gmap string jsval)
  : WorkerNotifications.display :=
  WorkerNotifications.RejectsWith (TypeError "No notification permission has been granted").

Definition clock_from (start : Z) (n : nat) : Z := (start + Z.of_nat n)%Z.

Definition calendar_tab : WorkerNotifications.WindowClient :=
  {| WorkerNotifications.client_url := "https://calendar.example/event/42";
     WorkerNotifications.has_focus := true |}.

Definition other_tab : WorkerNotifications.WindowClient :=
  {| WorkerNotifications.client_url := "https://calendar.example/settings";
     WorkerNotifications.has_focus := true |}.

End MoreInputs.

(* ===================================================================== *)
(** * Facts on runs *)
(* ===================================================================== *)

Module RunFacts.

Import NotificationService Runs.

Lemma after_nil s : after [] s = s.
Proof. destruct s; unfold after; simpl. by rewrite app_nil_r. Qed.

Lemma after_after evs1 evs2 s :
  after evs2 (after evs1 s) = after (evs1 ++ evs2)%list s.
Proof. unfold after; simpl. by rewrite app_assoc. Qed.

Lemma after_called evs ps evs1 evs2 s :
  after evs (called ps evs1 evs2 s) = called ps evs1 (evs2 ++ evs) s.
Proof.
  unfold after, called; simpl. f_equal.
  by rewrite <- !app_assoc, <- app_comm_cons.
Qed.

Lemma called_after ps evs s : called ps [] [] (after evs s) = called ps evs [] s.
Proof. unfold called, after; simpl. f_equal. by rewrite <- app_assoc. Qed.

Lemma events_of_state {A} (m : M A) s evs :
  trace (m s).2 = (trace s ++ evs)%list -> events_of m s = evs.
Proof. intros E. unfold events_of. by rewrite E, drop_app_length. Qed.

Lemma events_of_after {A} (m : M A) s r evs :
  m s = (r, after evs s) -> events_of m s = evs.
Proof. intros E. apply events_of_state. by rewrite E. Qed.


(** ** Quiet computations *)

Lemma quiet_ret {A} (a : A) : quiet (ret a).
Proof. intros s. exists (Ret a), []. rewrite after_nil. split; [done|]. apply Forall_nil_2. Qed.

Lemma quiet_throw {A} e : quiet (@throw A e).
Proof. intros s. exists (Throw e), []. rewrite after_nil. split; [done|]. apply Forall_nil_2. Qed.

Lemma quiet_lift {A} (o : outcome A) : quiet (lift o).
Proof. intros s. exists o, []. rewrite after_nil. split; [done|]. apply Forall_nil_2. Qed.

Lemma quiet_emit e :
  NotificationServiceRev1.is_subscribe e = false -> quiet (emit e).
Proof.
  intros He s. exists (Ret tt), [e]. split; [done|].
  apply Forall_cons_2; [done | apply Forall_nil_2].
Qed.

Lemma quiet_console l msg : quiet (console l msg).
Proof. by apply quiet_emit. Qed.

Lemma quiet_sleep ms : quiet (sleep ms).
Proof. by apply quiet_emit. Qed.

Lemma quiet_bind {A B} (m : M A) (k : A -> M B) :
  quiet m -> (forall a, quiet (k a)) -> quiet (bind m k).
Proof.
  intros Hm Hk s. destruct (Hm s) as (r & evs & E & Hevs).
  unfold bind. rewrite E. destruct r as [a|e].
  - destruct (Hk a (after evs s)) as (r' & evs' & E' & Hevs').
    exists r', (evs ++ evs')%list. rewrite E', after_after. split; [done|].
    by apply Forall_app_2.
  - by exists (Throw e), evs.
Qed.

Lemma quiet_try_catch {A} (m : M A) (handler : exn -> M A) :
  quiet m -> (forall e, quiet (handler e)) -> quiet (try_catch m handler).
Proof.
  intros Hm Hk s. destruct (Hm s) as (r & evs & E & Hevs).
  unfold try_catch. rewrite E. destruct r as [a|e].
  - by exists (Ret a), evs.
  - destruct (Hk e (after evs s)) as (r' & evs' & E' & Hevs').
    exists r', (evs ++ evs')%list. rewrite E', after_after. split; [done|].
    by apply Forall_app_2.
Qed.

Lemma quiet_prop k v : quiet (prop k v).
Proof. unfold prop. destruct (js_get k v); [apply quiet_ret | apply quiet_throw]. Qed.

Lemma quiet_when b m : quiet m -> quiet (when b m).
Proof. intros Hm. destruct b; [done | apply quiet_ret]. Qed.

Lemma total_try_catch {A} (m : M A) (handler : exn -> M A) :
  (forall e, total (handler e)) -> total (try_catch m handler).
Proof.
  intros Hh s. unfold try_catch. destruct (m s) as [[a|e] s']; [by eauto|].
  apply Hh.
Qed.

Lemma total_console_ret {A} l msg (a : A) :
  total (bind (console l msg) (fun _ => ret a)).
Proof. intros s. by eexists _, _. Qed.

Lemma total_when_console b l msg : total (when b (console l msg)).
Proof. intros s. destruct b; by eexists _, _. Qed.

Lemma total_when_sleep b ms : total (when b (sleep ms)).
Proof. intros s. destruct b; by eexists _, _. Qed.

Create HintDb quiet.
#[export] Hint Resolve quiet_ret quiet_throw quiet_lift quiet_console quiet_sleep
  quiet_prop : quiet.

(** Decomposes a computation along its binds, handlers and branches. *)
Ltac quiet :=
  repeat first
    [ solve [auto with quiet]
    | apply quiet_emit; reflexivity
    | match goal with |- forall _, _ => intro end
    | apply quiet_bind
    | apply quiet_try_catch
    | apply quiet_when
    | match goal with
      | |- quiet (if ?b then _ else _) => destruct b
      | |- quiet (match ?x with _ => _ end) => destruct x
      | |- quiet (let _ := _ in _) => cbv zeta
      end
    | progress cbv beta ].

Ltac silence :=
  repeat first
    [ assumption
    | apply Forall_nil_2
    | apply Forall_app_2
    | apply Forall_cons_2; [reflexivity|] ].

Section Service.

Variable h : host.

Lemma quiet_fetch m u b : quiet (Api.fetch h m u b).
Proof. unfold Api.fetch. quiet. Qed.

Lemma quiet_json r : quiet (Api.json r).
Proof. unfold Api.json. quiet. Qed.

#[local] Hint Resolve quiet_fetch quiet_json : quiet.

Lemma quiet_request m u d : quiet (Api.request h m u d).
Proof. unfold Api.request. quiet. Qed.

Lemma quiet_get u : quiet (Api.get h u).
Proof. apply quiet_request. Qed.

Lemma quiet_put u d : quiet (Api.put h u d).
Proof. apply quiet_request. Qed.

Lemma quiet_post u d : quiet (Api.post h u d).
Proof. apply quiet_request. Qed.

#[local] Hint Resolve quiet_get quiet_put quiet_post : quiet.

Lemma quiet_getPreferences : quiet (getPreferences h).
Proof. unfold getPreferences. quiet. Qed.

Lemma total_getPreferences : total (getPreferences h).
Proof.
  unfold getPreferences. apply total_try_catch.
  intros e. apply total_console_ret.
Qed.

Lemma quiet_requestNotificationPermission : quiet (requestNotificationPermission h).
Proof. unfold requestNotificationPermission. quiet. Qed.

Lemma quiet_getVapidPublicKey : quiet (getVapidPublicKey h).
Proof. unfold getVapidPublicKey. quiet. Qed.

Lemma quiet_urlBase64ToUint8Array k : quiet (urlBase64ToUint8Array h k).
Proof. unfold urlBase64ToUint8Array. quiet. Qed.

Lemma quiet_getSubscription : quiet (pushManager_getSubscription h).
Proof.
  unfold pushManager_getSubscription.
  apply quiet_bind; [by apply quiet_emit|]. intros _.
  destruct (getSubscription_error h); [apply quiet_throw|].
  intros s. exists (Ret (push_subscription s)), []. rewrite after_nil.
  split; [done | apply Forall_nil_2].
Qed.

End Service.

#[export] Hint Resolve quiet_fetch quiet_json quiet_request quiet_get quiet_put
  quiet_post quiet_getPreferences quiet_requestNotificationPermission
  quiet_getVapidPublicKey quiet_urlBase64ToUint8Array quiet_getSubscription : quiet.

(** ** Events of composed runs *)

Lemma events_try_catch {A} (m : M A) (handler : exn -> M A) x s :
  quiet m -> (forall e, quiet (handler e)) ->
  x ∈ events_of m s -> x ∈ events_of (try_catch m handler) s.
Proof.
  intros Hm Hh. destruct (Hm s) as (r & evs & E & _).
  rewrite (events_of_after _ _ _ _ E). intros Hx.
  destruct r as [a|e].
  - erewrite events_of_after; [done|]. unfold try_catch. by rewrite E.
  - destruct (Hh e (after evs s)) as (r' & evs' & E' & _).
    erewrite events_of_after; last first.
    { unfold try_catch. rewrite E, E', after_after. done. }
    apply elem_of_app. by left.
Qed.

Lemma events_bind_l {A B} (m : M A) (k : A -> M B) x s :
  quiet m -> (forall a, quiet (k a)) ->
  x ∈ events_of m s -> x ∈ events_of (bind m k) s.
Proof.
  intros Hm Hk. destruct (Hm s) as (r & evs & E & _).
  rewrite (events_of_after _ _ _ _ E). intros Hx.
  destruct r as [a|e].
  - destruct (Hk a (after evs s)) as (r' & evs' & E' & _).
    erewrite events_of_after; last first.
    { unfold bind. rewrite E, E', after_after. done. }
    apply elem_of_app. by left.
  - erewrite events_of_after; [done|]. unfold bind. by rewrite E.
Qed.

Lemma events_bind_r {A B} (m : M A) (k : A -> M B) x s a s1 :
  quiet m -> (forall a, quiet (k a)) ->
  m s = (Ret a, s1) ->
  x ∈ events_of (k a) s1 -> x ∈ events_of (bind m k) s.
Proof.
  intros Hm Hk E1. destruct (Hm s) as (r & evs & E & _).
  rewrite E in E1. injection E1 as -> <-.
  destruct (Hk a (after evs s)) as (r' & evs' & E' & _).
  rewrite (events_of_after _ _ _ _ E'). intros Hx.
  erewrite events_of_after; last first.
  { unfold bind. rewrite E, E', after_after. done. }
  apply elem_of_app. by right.
Qed.

Lemma events_request h m u d s :
  EvFetch m (if String.prefix "http" u then u else Api.API_BASE_URL h ++ u)
    (if negb (String.eqb m "GET") && truthy d then Some d else None)
    ∈ events_of (Api.request h m u d) s.
Proof.
  unfold Api.request. apply events_try_catch; [quiet..|].
  apply events_bind_l; [quiet..|].
  unfold Api.fetch. apply events_bind_l; [quiet..|].
  unfold events_of, emit. simpl. rewrite drop_app_length. apply list_elem_of_here.
Qed.

(** ** Postconditions *)

Lemma post_ret {A} (a : A) s (Q : outcome A -> state -> Prop) :
  Q (Ret a) s -> post (ret a) s Q.
Proof. done. Qed.

Lemma post_throw {A} e s (Q : outcome A -> state -> Prop) :
  Q (Throw e) s -> post (throw e) s Q.
Proof. done. Qed.

Lemma post_bind {A B} (m : M A) (k : A -> M B) s (Q : outcome B -> state -> Prop) :
  post m s (fun r s1 =>
              match r with
              | Ret a => post (k a) s1 Q
              | Throw e => Q (Throw e) s1
              end) ->
  post (bind m k) s Q.
Proof. unfold post, bind. by destruct (m s) as [[a|e] s1]. Qed.

Lemma post_try_catch {A} (m : M A) (handler : exn -> M A) s
    (Q : outcome A -> state -> Prop) :
  post m s (fun r s1 =>
              match r with
              | Ret a => Q (Ret a) s1
              | Throw e => post (handler e) s1 Q
              end) ->
  post (try_catch m handler) s Q.
Proof. unfold post, try_catch. by destruct (m s) as [[a|e] s1]. Qed.

Lemma post_emit e s (Q : outcome unit -> state -> Prop) :
  Q (Ret tt) (after [e] s) -> post (emit e) s Q.
Proof. done. Qed.

Lemma post_console l msg s (Q : outcome unit -> state -> Prop) :
  Q (Ret tt) (after [EvConsole l msg] s) -> post (console l msg) s Q.
Proof. done. Qed.

Lemma post_sleep ms s (Q : outcome unit -> state -> Prop) :
  Q (Ret tt) (after [EvDelay ms] s) -> post (sleep ms) s Q.
Proof. done. Qed.

Lemma post_lift {A} (o : outcome A) s (Q : outcome A -> state -> Prop) :
  Q o s -> post (lift o) s Q.
Proof. done. Qed.

Lemma post_quiet {A} (m : M A) s (Q : outcome A -> state -> Prop) :
  quiet m ->
  (forall r evs, silent evs -> Q r (after evs s)) ->
  post m s Q.
Proof.
  intros Hm HQ. destruct (Hm s) as (r & evs & E & Hevs).
  unfold post. rewrite E. by apply HQ.
Qed.

Lemma post_quiet_total {A} (m : M A) s (Q : outcome A -> state -> Prop) :
  quiet m -> total m ->
  (forall a evs, silent evs -> Q (Ret a) (after evs s)) ->
  post m s Q.
Proof.
  intros Hm Ht HQ. destruct (Hm s) as (r & evs & E & Hevs).
  destruct (Ht s) as (a & s' & E'). unfold post. rewrite E.
  rewrite E in E'. injection E' as -> _. by apply HQ.
Qed.

(** One step of a run towards its postcondition. *)
Ltac step :=
  lazymatch goal with
  | |- post (bind _ _) _ _ => apply post_bind
  | |- post (try_catch _ _) _ _ => apply post_try_catch
  | |- post (console _ _) _ _ => apply post_console
  | |- post (sleep _) _ _ => apply post_sleep
  | |- post (emit _) _ _ => apply post_emit
  | |- post (ret _) _ _ => apply post_ret
  | |- post (throw _) _ _ => apply post_throw
  | |- post (lift _) _ _ => apply post_lift
  end;
  cbv beta iota; rewrite ?after_after, ?after_called.

End RunFacts.

(* ===================================================================== *)
(** * The preference reconciler *)
(* ===================================================================== *)

Module Reconciler.

Import NotificationService Samples Inputs Runs RunFacts.

Section Facts.

Variable h : host.

(** [getPreferences] never throws: a failure of the request ends in the
    record of defaults. *)
Lemma getPreferences_returns s :
  exists prefs evs, getPreferences h s = (Ret prefs, after evs s).
Proof.
  destruct (total_getPreferences h s) as (prefs & s' & E).
  destruct (quiet_getPreferences h s) as (r & evs & E' & _).
  rewrite E in E'. injection E' as _ ->. by exists prefs, evs.
Qed.

(** C2, as amended: for every list of candidate types, when the stored
    event preferences are empty (an empty array, or no array at all)
    every returned record has [is_enabled] equal to the [notifyAllEvents]
    value of the reconciled preferences; it is not [true] whatever the
    flag. *)
Theorem new_user_follows_notifyAllEvents (types : list string) s :
  (exists response,
     (Api.get h EVENT_PREFERENCES_URL (getPreferences h s).2).1 = Ret response
     /\ array_or_empty response = []) ->
  exists prefs,
    (getPreferences h s).1 = Ret prefs
    /\ returned (getEventPreferences h types s)
       = Some ((fun t => {| event_type := t;
                            is_enabled := field "notifyAllEvents" prefs |})
                 <$> types).
Proof.
  intros (response & Eget & Hnew).
  destruct (getPreferences_returns s) as (prefs & evs & Eprefs).
  rewrite Eprefs in Eget. cbn [fst snd] in Eget.
  exists prefs. rewrite Eprefs. split; [done|].
  unfold returned, getEventPreferences, try_catch, bind. rewrite Eprefs.
  case_bool_decide as Hlen.
  - destruct types; [done | discriminate].
  - destruct (Api.get h EVENT_PREFERENCES_URL (after evs s)) as [r s2].
    cbn [fst] in Eget. subst r. rewrite Hnew. done.
Qed.

(** C10, as amended: for every list of candidate types, when the request
    for the stored event preferences fails, [getEventPreferences] does not
    throw and returns one record per candidate type, all disabled.  (A
    failure of the request for the user preferences does not reach this
    fallback: [getPreferences] answers it with the defaults.) *)
Theorem event_fetch_failure_disables_all (types : list string) s e :
  thrown (Api.get h EVENT_PREFERENCES_URL (getPreferences h s).2) = Some e ->
  returned (getEventPreferences h types s) = Some (all_disabled types).
Proof.
  destruct (getPreferences_returns s) as (prefs & evs & Eprefs).
  rewrite Eprefs. cbn [snd]. unfold thrown. intros Hget.
  unfold returned, getEventPreferences, try_catch, bind. rewrite Eprefs.
  case_bool_decide as Hlen.
  - destruct types; [done | discriminate].
  - by destruct (Api.get h EVENT_PREFERENCES_URL (after evs s)) as [[a|e'] s2].
Qed.

Lemma lookup_data_email (a b c d e0 f g i j : jsval) :
  a ≠ JUndef ->
  drop_undefined (literal
     [("email", a); ("notify_email", b); ("notify_browser", c);
      ("notify_all_events", d); ("email_1h_before", e0); ("email_10m_before", f);
      ("browser_1h_before", g); ("browser_10m_before", i); ("notify_new_events", j)])
    !! "email" = Some a.
Proof.
  intros Ha. unfold drop_undefined. apply map_lookup_filter_Some. split.
  - unfold literal. simpl. by simplify_map_eq.
  - simpl. by destruct a.
Qed.

Lemma lookup_data_notify_email (a b c d e0 f g i j : jsval) :
  b ≠ JUndef ->
  drop_undefined (literal
     [("email", a); ("notify_email", b); ("notify_browser", c);
      ("notify_all_events", d); ("email_1h_before", e0); ("email_10m_before", f);
      ("browser_1h_before", g); ("browser_10m_before", i); ("notify_new_events", j)])
    !! "notify_email" = Some b.
Proof.
  intros Ha. unfold drop_undefined. apply map_lookup_filter_Some. split.
  - unfold literal. simpl. by simplify_map_eq.
  - simpl. by destruct b.
Qed.

Lemma field_union_l k (v : jsval) (m1 m2 : gmap string jsval) :
  m1 !! k = Some v -> field k (m1 ∪ m2) = v.
Proof. intros H1. unfold field. by erewrite lookup_union_Some_l. Qed.

Lemma events_put_preferences (o : gmap string jsval) s :
  EvFetch "PUT" (Api.API_BASE_URL h ++ PREFERENCES_URL) (Some (JObj o))
    ∈ events_of (Api.put h PREFERENCES_URL (JObj o)) s.
Proof. exact (events_request h "PUT" PREFERENCES_URL (JObj o) s). Qed.

(** C4, on the code: a call of [updatePreferences] with [notifyEmail]
    true and an address that [isValidEmail] refuses is not rejected before
    the network: the run issues the PUT request to the preferences
    endpoint, with that address and [notify_email] true in its body. *)
Theorem updatePreferences_puts_invalid_email (updates : gmap string jsval) s e :
  updates !! "notifyEmail" = Some (JBool true) ->
  updates !! "email" = Some (JStr e) ->
  isValidEmail e = false ->
  exists body,
    EvFetch "PUT" (Api.API_BASE_URL h ++ PREFERENCES_URL) (Some (JObj body))
      ∈ events_of (updatePreferences h updates) s
    /\ body !! "email" = Some (JStr e)
    /\ body !! "notify_email" = Some (JBool true).
Proof.
  intros Hn He _.
  destruct (getPreferences_returns s) as (cur & evs & Eprefs).
  eexists. split; [|split].
  - unfold updatePreferences. apply events_try_catch; [quiet..|].
    eapply events_bind_r; [quiet.. | exact Eprefs |].
    cbv zeta. apply events_bind_l; [quiet..|].
    apply events_put_preferences.
  - rewrite (field_union_l _ _ _ _ He). by apply lookup_data_email.
  - rewrite (field_union_l _ _ _ _ Hn). by apply lookup_data_notify_email.
Qed.

(** The earlier revision did map the legacy reminders onto both
    channels. *)
Lemma earlier_revision_migrates_legacy_reminders s (o : gmap string jsval) s1 :
  Api.get h PREFERENCES_URL s = (Ret (JObj o), s1) ->
  is_Some (o !! "notify1hBefore") ->
  exists prefs,
    NotificationServiceRev1.getPreferences h s = (Ret (JObj prefs), s1)
    /\ prefs !! "email1hBefore" = Some (JBool (neq_false (field "notify1hBefore" o)))
    /\ prefs !! "browser1hBefore" = Some (JBool (neq_false (field "notify1hBefore" o)))
    /\ prefs !! "email10mBefore" = Some (JBool (neq_false (field "notify10mBefore" o)))
    /\ prefs !! "browser10mBefore" = Some (JBool (neq_false (field "notify10mBefore" o))).
Proof.
  intros Eget Hin. eexists. split.
  - unfold NotificationServiceRev1.getPreferences, try_catch, bind. rewrite Eget. simpl.
    rewrite bool_decide_true by done. simpl. reflexivity.
  - unfold literal, field. simpl. by simplify_map_eq.
Qed.

(** The earlier revision did enable every type of a new user. *)
Lemma earlier_revision_enables_new_user (types : list string) s prefs s1 response s2 data :
  NotificationServiceRev1.getPreferences h s = (Ret prefs, s1) ->
  Api.get h EVENT_PREFERENCES_URL s1 = (Ret response, s2) ->
  js_get "data" response = Some data ->
  array_or_empty data = [] ->
  returned (NotificationServiceRev1.getEventPreferences h types s)
  = Some ((fun t => {| event_type := t; is_enabled := JBool true |}) <$> types).
Proof.
  intros Eprefs Eget Hdata Hnew.
  unfold returned, NotificationServiceRev1.getEventPreferences, try_catch, bind.
  rewrite Eprefs, Eget. unfold prop. rewrite Hdata. unfold ret. simpl. by rewrite Hnew.
Qed.

End Facts.

(** C1, on the code: for the legacy record [{notify1hBefore: false,
    notify10mBefore: true}] the current [getPreferences] returns a record
    whose four timing flags are all [true]: the legacy reminder values are
    not carried over to either channel. *)
Theorem getPreferences_ignores_legacy_reminders :
  let prefs := returned (getPreferences legacy_host initial) in
  field "email1hBefore" <$> prefs = Some (JBool true)
  /\ field "browser1hBefore" <$> prefs = Some (JBool true)
  /\ field "email10mBefore" <$> prefs = Some (JBool true)
  /\ field "browser10mBefore" <$> prefs = Some (JBool true).
Proof. vm_compute. auto. Qed.

(** The same record through the earlier revision. *)
Lemma earlier_revision_on_legacy_record :
  let prefs := returned (NotificationServiceRev1.getPreferences legacy_host initial) in
  NotificationServiceRev1.member "email1hBefore" <$> prefs = Some (JBool false)
  /\ NotificationServiceRev1.member "browser1hBefore" <$> prefs = Some (JBool false)
  /\ NotificationServiceRev1.member "email10mBefore" <$> prefs = Some (JBool true)
  /\ NotificationServiceRev1.member "browser10mBefore" <$> prefs = Some (JBool true).
Proof. vm_compute. auto. Qed.

(** C2, the claim refuted: a new user (no stored event preference)
    whose [notifyAllEvents] flag is off gets every candidate type
    disabled. *)
Lemma new_user_disabled_by_global_flag :
  (Api.get new_user_host EVENT_PREFERENCES_URL initial).1 = Ret (JArr [])
  /\ returned (getEventPreferences new_user_host ["standup"; "release"] initial)
     = Some [ {| event_type := "standup"; is_enabled := JBool false |};
              {| event_type := "release"; is_enabled := JBool false |} ].
Proof. split; vm_compute; reflexivity. Qed.

Lemma new_user_follows_notifyAllEvents_witness :
  exists prefs,
    (getPreferences new_user_host initial).1 = Ret prefs
    /\ returned (getEventPreferences new_user_host ["standup"; "release"] initial)
       = Some ((fun t => {| event_type := t;
                            is_enabled := field "notifyAllEvents" prefs |})
                 <$> ["standup"; "release"]).
Proof.
  apply (new_user_follows_notifyAllEvents new_user_host ["standup"; "release"] initial).
  exists (JArr []). split; vm_compute; reflexivity.
Defined.

(** C10, the claim refuted: the request for the user preferences fails,
    and the stored choice of the user is returned all the same. *)
Lemma preferences_failure_keeps_stored_choice :
  thrown (Api.get no_preferences_host PREFERENCES_URL initial)
  = Some (TypeError "Failed to fetch")
  /\ returned (getEventPreferences no_preferences_host ["standup"] initial)
     = Some [ {| event_type := "standup"; is_enabled := JBool true |} ].
Proof. split; vm_compute; reflexivity. Qed.

Lemma event_fetch_failure_disables_all_witness :
  thrown (Api.get no_event_preferences_host EVENT_PREFERENCES_URL
            (getPreferences no_event_preferences_host initial).2)
  = Some (TypeError "Failed to fetch")
  /\ returned (getEventPreferences no_event_preferences_host ["standup"; "release"] initial)
     = Some (all_disabled ["standup"; "release"]).
Proof.
  assert (H : thrown (Api.get no_event_preferences_host EVENT_PREFERENCES_URL
                        (getPreferences no_event_preferences_host initial).2)
              = Some (TypeError "Failed to fetch"))
    by (vm_compute; reflexivity).
  split; [exact H|].
  exact (event_fetch_failure_disables_all no_event_preferences_host
           ["standup"; "release"] initial _ H).
Defined.

Lemma updatePreferences_puts_invalid_email_witness :
  isValidEmail "not-an-address" = false
  /\ exists body,
       EvFetch "PUT" "/api/users/me/preferences" (Some (JObj body))
         ∈ events_of (updatePreferences writable_host invalid_update) initial
       /\ body !! "email" = Some (JStr "not-an-address")
       /\ body !! "notify_email" = Some (JBool true).
Proof.
  split; [reflexivity|].
  apply (updatePreferences_puts_invalid_email writable_host invalid_update initial
           "not-an-address"); reflexivity.
Defined.

End Reconciler.

(* ===================================================================== *)
(** * The retry loop of the push subscription *)
(* ===================================================================== *)

Module Retry.

Import NotificationService NotificationServiceRev1 Samples Inputs Runs RunFacts.

Lemma subscribes_app evs1 evs2 :
  subscribes (evs1 ++ evs2) = subscribes evs1 + subscribes evs2.
Proof. unfold subscribes. by rewrite filter_app, length_app. Qed.

Lemma delays_app evs1 evs2 :
  delays (evs1 ++ evs2) = delays evs1 + delays evs2.
Proof. unfold delays. by rewrite filter_app, length_app. Qed.

Lemma subscribes_failed_attempts maxAttempts delay attempts n :
  subscribes (failed_attempts maxAttempts delay attempts n) = n.
Proof.
  revert attempts. induction n as [|n IH]; intros attempts; [done|].
  cbn [failed_attempts]. rewrite !subscribes_app, IH.
  by destruct (attempts + 1 <? maxAttempts)%Z.
Qed.

Lemma delays_failed_attempts maxAttempts delay attempts n :
  (attempts + Z.of_nat n <= maxAttempts)%Z ->
  delays (failed_attempts maxAttempts delay attempts n)
  = if bool_decide (attempts + Z.of_nat n = maxAttempts)%Z then n - 1 else n.
Proof.
  revert attempts. induction n as [|n IH]; intros attempts Hle.
  { by case_bool_decide. }
  cbn [failed_attempts]. rewrite !delays_app.
  destruct (Z.ltb_spec (attempts + 1) maxAttempts) as [Hlt|Hge].
  - rewrite IH by lia. change (delays [EvSubscribe; _]) with 0.
    change (delays [EvDelay delay]) with 1.
    repeat case_bool_decide; lia.
  - assert (n = 0) as -> by lia. case_bool_decide; [done | lia].
Qed.

Section Facts.

Variable h : host.

Lemma subscribe_call_fails s e :
  pushManager_subscribe h (subscribe_calls s) = inl e ->
  pushManager_subscribe_call h s = (Throw e, called (push_subscription s) [] [] s).
Proof.
  intros He. unfold pushManager_subscribe_call, bind, emit. simpl. by rewrite He.
Qed.

Lemma subscribe_call_succeeds s sub :
  pushManager_subscribe h (subscribe_calls s) = inr sub ->
  pushManager_subscribe_call h s = (Ret sub, called (Some sub) [] [] s).
Proof.
  intros He. unfold pushManager_subscribe_call, bind, emit. simpl. by rewrite He.
Qed.

(** A loop all of whose attempts fail: it makes every attempt it has, and
    throws the error of the last one. *)
Lemma attempt_loop_all_fail maxAttempts delay n :
  forall attempts lastError s,
    (maxAttempts - attempts = Z.of_nat n)%Z ->
    (forall k, k < n -> fails_at h (subscribe_calls s + k)) ->
    attempt_loop h n maxAttempts delay attempts lastError s
    = (Throw (match n with
              | O => default generic_failure lastError
              | S m => error_at h (subscribe_calls s + m)
              end),
       {| push_subscription := push_subscription s;
          subscribe_calls := subscribe_calls s + n;
          trace := trace s ++ failed_attempts maxAttempts delay attempts n |}).
Proof.
  induction n as [|n IH]; intros attempts lastError s Hn Hfail.
  { simpl. unfold throw. destruct s; simpl. by rewrite Nat.add_0_r, app_nil_r. }
  cbn [attempt_loop].
  destruct (Z.ltb_spec attempts maxAttempts) as [_|]; [|lia].
  destruct (Hfail 0 ltac:(lia)) as [e He]. rewrite Nat.add_0_r in He.
  unfold bind at 1, try_catch at 1, bind at 1.
  rewrite (subscribe_call_fails _ _ He). unfold called.
  unfold bind at 1, console, emit. cbn [trace subscribe_calls push_subscription].
  unfold bind at 1, when, sleep.
  set (s1 := fun evs => {| push_subscription := push_subscription s;
                           subscribe_calls := S (subscribe_calls s);
                           trace := trace s ++ evs |}).
  assert (Hstep : forall evs,
    attempt_loop h n maxAttempts delay (attempts + 1) (Some e) (s1 evs)
    = (Throw (error_at h (subscribe_calls s + n)),
       {| push_subscription := push_subscription s;
          subscribe_calls := subscribe_calls s + S n;
          trace := trace s ++ evs ++ failed_attempts maxAttempts delay (attempts + 1) n |})).
  { intros evs. rewrite IH; [|lia|].
    - unfold s1; cbn [trace subscribe_calls push_subscription]. f_equal.
      + destruct n as [|m]; simpl.
        * unfold error_at. by rewrite Nat.add_0_r, He.
        * do 2 f_equal. lia.
      + f_equal; [lia|]. by rewrite <- app_assoc.
    - intros k Hk. unfold s1; cbn [subscribe_calls].
      replace (S (subscribe_calls s) + k) with (subscribe_calls s + S k) by lia.
      apply Hfail. lia. }
  cbn [failed_attempts].
  destruct (attempts + 1 <? maxAttempts)%Z;
    unfold emit, ret; cbn [trace subscribe_calls push_subscription app];
    rewrite <- ?app_assoc; cbn [app].
  - exact (Hstep [EvSubscribe; EvConsole warn (attempt_failed (attempts + 1)); EvDelay delay]).
  - exact (Hstep [EvSubscribe; EvConsole warn (attempt_failed (attempts + 1))]).
Qed.

(** A loop whose attempt number [k] is the first to succeed: it makes
    [k + 1] attempts and returns the subscription. *)
Lemma attempt_loop_succeeds maxAttempts delay k sub :
  forall n attempts lastError s,
    (maxAttempts - attempts = Z.of_nat n)%Z ->
    k < n ->
    (forall j, j < k -> fails_at h (subscribe_calls s + j)) ->
    pushManager_subscribe h (subscribe_calls s + k) = inr sub ->
    attempt_loop h n maxAttempts delay attempts lastError s
    = (Ret sub,
       {| push_subscription := Some sub;
          subscribe_calls := subscribe_calls s + S k;
          trace := trace s ++ failed_attempts maxAttempts delay attempts k ++ [EvSubscribe] |}).
Proof.
  induction k as [|k IH]; intros n attempts lastError s Hn Hk Hfail Hok.
  - destruct n as [|n]; [lia|]. cbn [attempt_loop failed_attempts].
    destruct (Z.ltb_spec attempts maxAttempts) as [_|]; [|lia].
    rewrite Nat.add_0_r in Hok.
    unfold bind at 1, try_catch at 1, bind at 1.
    rewrite (subscribe_call_succeeds _ _ Hok). unfold ret, called. simpl.
    do 3 f_equal. lia.
  - destruct n as [|n]; [lia|]. cbn [attempt_loop failed_attempts].
    destruct (Z.ltb_spec attempts maxAttempts) as [_|]; [|lia].
    destruct (Hfail 0 ltac:(lia)) as [e He]. rewrite Nat.add_0_r in He.
    unfold bind at 1, try_catch at 1, bind at 1.
    rewrite (subscribe_call_fails _ _ He). unfold called.
    unfold bind at 1, console, emit. cbn [trace subscribe_calls push_subscription].
    unfold bind at 1, when, sleep.
    destruct (Z.ltb_spec (attempts + 1) maxAttempts) as [_|]; [|lia].
    unfold emit, ret; cbn [trace subscribe_calls push_subscription].
    rewrite (IH n); cbn [trace subscribe_calls push_subscription]; [|lia|lia| |].
    + do 2 f_equal; [lia|]. rewrite <- !app_assoc. done.
    + intros j Hj. replace (S (subscribe_calls s) + j) with (subscribe_calls s + S j) by lia.
      apply Hfail. lia.
    + by replace (S (subscribe_calls s) + k) with (subscribe_calls s + S k) by lia.
Qed.

(** C5: for every bound [maxAttempts >= 1], when [pushManager.subscribe]
    fails on every attempt, [attemptPushSubscription] makes exactly
    [maxAttempts] attempts, waits [delay] between two attempts (and not
    after the last), and throws the error of the last attempt; when the
    first success is on attempt [k + 1 <= maxAttempts], it returns that
    subscription after exactly [k + 1] attempts. *)
Theorem attemptPushSubscription_retry_bound (maxAttempts delay : Z) s :
  (1 <= maxAttempts)%Z ->
  let N := Z.to_nat maxAttempts in
  let run := attemptPushSubscription h maxAttempts delay in
  ((forall k, k < N -> fails_at h (subscribe_calls s + k)) ->
   exists e,
     (run s).1 = Throw e
     /\ pushManager_subscribe h (subscribe_calls s + N - 1) = inl e
     /\ events_of run s = failed_attempts maxAttempts delay 0 N
     /\ subscribes (events_of run s) = N
     /\ delays (events_of run s) = N - 1)
  /\
  (forall k sub,
     k < N ->
     (forall j, j < k -> fails_at h (subscribe_calls s + j)) ->
     pushManager_subscribe h (subscribe_calls s + k) = inr sub ->
     (run s).1 = Ret sub
     /\ events_of run s = (failed_attempts maxAttempts delay 0 k ++ [EvSubscribe])%list
     /\ subscribes (events_of run s) = S k
     /\ subscribe_calls (run s).2 = subscribe_calls s + S k).
Proof.
  intros HN N run. split.
  - intros Hfail.
    assert (E : run s = _)
      by exact (attempt_loop_all_fail maxAttempts delay N 0 None s ltac:(lia) Hfail).
    assert (Hev : events_of run s = failed_attempts maxAttempts delay 0 N).
    { unfold events_of. rewrite E. simpl. by rewrite drop_app_length. }
    destruct N as [|m] eqn:EN; [lia|].
    destruct (Hfail m ltac:(lia)) as [e He].
    exists e. rewrite E, Hev. cbn [fst snd]. split; [|split; [|split; [|split]]].
    + unfold error_at. by rewrite He.
    + rewrite <- He. f_equal. lia.
    + done.
    + apply subscribes_failed_attempts.
    + rewrite delays_failed_attempts by lia. case_bool_decide; lia.
  - intros k sub Hk Hfail Hok.
    assert (E : run s = _)
      by exact (attempt_loop_succeeds maxAttempts delay k sub N 0 None s
                  ltac:(lia) Hk Hfail Hok).
    assert (Hev : events_of run s
                  = (failed_attempts maxAttempts delay 0 k ++ [EvSubscribe])%list).
    { unfold events_of. rewrite E. simpl. by rewrite drop_app_length. }
    rewrite E, Hev. cbn [fst snd subscribe_calls].
    split; [|split; [|split]]; [done..| |done].
    rewrite subscribes_app, subscribes_failed_attempts.
    change (subscribes [EvSubscribe]) with 1. lia.
Qed.

End Facts.

Lemma attemptPushSubscription_retry_bound_witness :
  (exists e,
     (attemptPushSubscription (sample_host None None true refusing) 3 500 initial).1
     = Throw e
     /\ refusing 2 = inl e
     /\ subscribes (events_of (attemptPushSubscription
                                 (sample_host None None true refusing) 3 500) initial) = 3
     /\ delays (events_of (attemptPushSubscription
                             (sample_host None None true refusing) 3 500) initial) = 2)
  /\ (attemptPushSubscription (sample_host None None true second_time) 3 500 initial).1
     = Ret sample_subscription
  /\ subscribes (events_of (attemptPushSubscription
                              (sample_host None None true second_time) 3 500) initial) = 2.
Proof.
  split.
  - destruct (attemptPushSubscription_retry_bound
                (sample_host None None true refusing) 3 500 initial ltac:(lia))
      as [Hfail _].
    destruct Hfail as (e & Hthrow & Hlast & _ & Hsubs & Hdelays).
    { intros k _. by eexists. }
    exists e. by repeat split.
  - destruct (attemptPushSubscription_retry_bound
                (sample_host None None true second_time) 3 500 initial ltac:(lia))
      as [_ Hok].
    destruct (Hok 1 sample_subscription) as (Hret & _ & Hsubs & _).
    + simpl. lia.
    + intros j Hj. assert (j = 0) as -> by lia. by eexists.
    + reflexivity.
    + by split.
Defined.

End Retry.

(* ===================================================================== *)
(** * The push subscription *)
(* ===================================================================== *)

Module Subscription.

Import NotificationService Samples Inputs Runs RunFacts.

Section Facts.

Variable h : host.

Lemma untouched_throw s0 e evs :
  silent evs -> ends h s0 (Throw e) (after evs s0).
Proof. intros Hevs. left. exists evs. by repeat split. Qed.

Lemma granted_intro s0 sub evs1 evs2 :
  pushManager_subscribe h (subscribe_calls s0) = inr sub ->
  ready h -> silent evs1 -> silent evs2 ->
  (sync_failed ∈ evs2
   \/ exists body s2 v s3, Api.post h PUSH_SUBSCRIPTIONS_URL body s2 = (Ret v, s3)) ->
  ends h s0 (Ret sub) (called (Some sub) evs1 evs2 s0).
Proof. intros. right; left. by exists sub, evs1, evs2. Qed.

(** The handler of the outer [catch] logs and throws. *)
Lemma outer_catch isBrave e s (Q : outcome PushSubscription -> state -> Prop) :
  (forall e', Q (Throw e')
     (after [EvConsole error "[NotificationService] Error in subscribeToPushNotifications:"] s)) ->
  post (exec console error "[NotificationService] Error in subscribeToPushNotifications:" in
        if isBrave && includes "push service error" (err_message e) then
          throw (Error "Brave blocked push notification subscription. Please disable Shields for this site and try again.")
        else throw e) s Q.
Proof. intros HQ. do 2 step. destruct (isBrave && _); step; apply HQ. Qed.

Lemma outer_catch_untouched isBrave e s0 evs :
  silent evs ->
  post (exec console error "[NotificationService] Error in subscribeToPushNotifications:" in
        if isBrave && includes "push service error" (err_message e) then
          throw (Error "Brave blocked push notification subscription. Please disable Shields for this site and try again.")
        else throw e) (after evs s0) (ends h s0).
Proof.
  intros Hevs. apply outer_catch. intros e'. rewrite after_after.
  apply untouched_throw; silence.
Qed.

Lemma outer_catch_refused isBrave e0 e s0 evs1 evs2 :
  pushManager_subscribe h (subscribe_calls s0) = inl e0 ->
  silent evs1 -> silent evs2 ->
  post (exec console error "[NotificationService] Error in subscribeToPushNotifications:" in
        if isBrave && includes "push service error" (err_message e) then
          throw (Error "Brave blocked push notification subscription. Please disable Shields for this site and try again.")
        else throw e) (called (push_subscription s0) evs1 evs2 s0) (ends h s0).
Proof.
  intros Hsub Hevs1 Hevs2. apply outer_catch. intros e'. rewrite after_called.
  right; right. eexists e0, e', evs1, _. repeat split; [done|done|silence].
Qed.

(** The permission is only [granted] in a browser that supports push and
    whose prompt resolved with [granted]. *)
Lemma requestNotificationPermission_granted s :
  exists p evs,
    requestNotificationPermission h s = (Ret p, after evs s) /\ silent evs
    /\ (p = granted -> has_serviceWorker h = true /\ has_PushManager h = true
                       /\ has_Notification h = true /\ requestPermission h = Ret granted).
Proof.
  unfold requestNotificationPermission, isSupported.
  destruct (has_serviceWorker h), (has_PushManager h), (has_Notification h); simpl;
    try (exists denied, [EvConsole warn "Push notifications are not supported in this browser"];
         split; [done|]; split; [silence|done]).
  unfold try_catch, bind, emit, lift. simpl.
  destruct (requestPermission h) as [p|e].
  - exists p, [EvRequestPermission]. split; [done|]. split; [silence|]. by intros ->.
  - exists denied, [EvRequestPermission; EvConsole error "Error requesting notification permission:"].
    unfold console, emit, ret, after. simpl. rewrite <- app_assoc.
    split; [done|]. split; [silence|done].
Qed.

Ltac fail_out :=
  repeat first [ solve [apply outer_catch_untouched; silence] | step ].

(** Every run of [subscribeToPushNotifications] ends in one of the three
    ways. *)
Lemma subscribe_ends userId userEmail s0 :
  post (subscribeToPushNotifications h userId userEmail) s0 (ends h s0).
Proof.
  unfold subscribeToPushNotifications. cbv zeta.
  apply post_try_catch. rewrite <- (after_nil s0) at 1.
  assert (Hnil : silent []) by silence. revert Hnil. generalize (@nil event) as evs0.
  intros evs0 Hevs0.
  (* 'serviceWorker' in navigator *)
  step. unfold when at 1. destruct (has_serviceWorker h) eqn:Hsw; simpl negb; cbv iota;
    [|fail_out].
  step.
  (* 'PushManager' in window *)
  step. unfold when at 1. destruct (has_PushManager h) eqn:Hpm; simpl negb; cbv iota;
    [|fail_out].
  step.
  (* the permission *)
  step. destruct (requestNotificationPermission_granted (after evs0 s0))
    as (p & evs1 & Eperm & Hevs1 & Hgranted).
  unfold post at 1. rewrite Eperm. cbn [fst snd]. rewrite after_after.
  step. unfold when at 1. destruct p; simpl negb; cbv iota; [|fail_out..].
  destruct (Hgranted eq_refl) as (_ & _ & Hnotif & Hrequest). clear Hgranted Eperm.
  step.
  (* the registration *)
  do 3 step. destruct (serviceWorker_ready h) as [registration|e] eqn:Hready; cbv iota.
  2:{ do 3 step. apply post_quiet_total; [quiet|apply total_when_console|].
      intros _ evs2 Hevs2. rewrite after_after. fail_out. }
  step. unfold when at 1. destruct registration; simpl negb; cbv iota.
  2:{ do 3 step. apply post_quiet_total; [quiet|apply total_when_console|].
      intros _ evs2 Hevs2. rewrite after_after. fail_out. }
  step.
  assert (Hready' : ready h) by done.
  clear Hsw Hpm Hnotif Hrequest Hready.
  assert (Hevs : silent (evs0 ++ evs1)) by silence.
  revert Hevs. generalize (evs0 ++ evs1)%list as evs. clear Hevs0 Hevs1 evs0 evs1.
  intros evs Hevs.
  (* the creation of a new subscription *)
  lazymatch goal with
  | |- post (bind _ (fun existing => match existing with
                                     | Some _ => _
                                     | None => ?fresh
                                     end)) _ ?Q =>
      assert (Hfresh : forall evs, silent evs -> post fresh (after evs s0) Q)
  end.
  { clear evs Hevs. intros evs Hevs.
    (* the VAPID key *)
    step. apply post_quiet; [quiet|]. intros [vapidPublicKey|e] evs2 Hevs2;
      cbv iota; rewrite after_after; [|fail_out].
    step. unfold when at 1. destruct (truthy vapidPublicKey); simpl negb; cbv iota;
      [|fail_out].
    step. do 2 step. apply post_quiet; [quiet|]. intros [key|e] evs3 Hevs3;
      cbv iota; rewrite after_after; [|fail_out].
    (* pushManager.subscribe *)
    do 3 step. apply post_quiet_total; [quiet|apply total_when_sleep|].
    intros _ evs4 Hevs4. rewrite after_after.
    unfold post at 1.
    destruct (pushManager_subscribe h (subscribe_calls s0)) as [e|sub] eqn:Hsub.
    - rewrite (Retry.subscribe_call_fails _ _ e) by done. rewrite called_after.
      cbn [fst snd push_subscription after].
      do 3 step. apply post_quiet_total; [quiet| |].
      { intros s. destruct (isBraveBrowser h), (includes "Firefox" (userAgent h)),
          (includes "Safari" (userAgent h)); by eexists _, _. }
      intros _ evs5 Hevs5. rewrite after_called. step.
      apply (outer_catch_refused _ e); [done|silence..].
    - rewrite (Retry.subscribe_call_succeeds _ _ sub) by done. rewrite called_after.
      cbn [fst snd]. cbv iota.
      (* the POST of the subscription *)
      do 2 step. unfold when at 1. destruct (userEmail =? ""); cbv iota.
      + do 6 step. apply granted_intro; [done|done|silence..|].
        left. unfold sync_failed. rewrite !elem_of_app, !list_elem_of_singleton. auto.
      + do 2 step.
        match goal with
        | |- post (Api.post h ?u ?body) ?s _ =>
            destruct (quiet_post h u body s) as (r & evs5 & Epost & Hevs5)
        end.
        unfold post at 1. rewrite Epost. cbn [fst snd]. rewrite after_called.
        destruct r as [v|e]; cbv iota.
        * step. apply granted_intro; [done|done|silence..|].
          right. eauto.
        * do 3 step. apply granted_intro; [done|done|silence..|].
          left. unfold sync_failed. rewrite !elem_of_app, !list_elem_of_singleton. auto. }
  (* Check for existing subscription first *)
  do 2 step. unfold pushManager_getSubscription. do 2 step.
  destruct (getSubscription_error h) as [e|] eqn:Hge.
  - step. do 3 step. cbv iota. apply Hfresh; silence.
  - unfold post at 1. cbn [fst snd push_subscription after].
    destruct (push_subscription s0) as [subscription|] eqn:Hexisting; cbv iota.
    + step. left. eexists. split; [done|]. split; [silence|].
      intros sub [= <-]. done.
    + apply Hfresh; silence.
Qed.




End Facts.



End Subscription.

(* ===================================================================== *)
(** * The cache manager *)
(* ===================================================================== *)

Module CacheManager.

Import ServiceWorker Samples Inputs Runs.

(** ** The cache storage *)

Lemma filter_all {A} (P : A -> Prop) `{!forall x, Decision (P x)} (l : list A) :
  (forall x, P x) -> filter P l = l.
Proof.
  intros HP. induction l as [|x l IH]; [done|].
  by rewrite filter_cons_True, IH.
Qed.

Lemma filter_ext_in {A} (P1 P2 : A -> Prop)
    `{!forall x, Decision (P1 x), !forall x, Decision (P2 x)} (l : list A) :
  (forall x, x ∈ l -> P1 x <-> P2 x) -> filter P1 l = filter P2 l.
Proof.
  induction l as [|x l IH]; intros HP; [done|].
  rewrite !filter_cons.
  rewrite IH by (intros y Hy; apply HP; by right).
  apply decide_ext, HP. by left.
Qed.

Lemma caches_keys_delete name cs :
  caches_keys (caches_delete name cs) = filter (fun n => n ≠ name) (caches_keys cs).
Proof.
  unfold caches_keys, caches_delete. induction cs as [|[n c] cs IH]; [done|].
  rewrite fmap_cons, !filter_cons. cbn [fst].
  destruct (decide (n ≠ name)); [rewrite fmap_cons|]; by rewrite IH.
Qed.

Lemma well_formed_delete name cs :
  well_formed cs -> well_formed (caches_delete name cs).
Proof. unfold well_formed. rewrite caches_keys_delete. apply NoDup_filter. Qed.

Lemma well_formed_open name cs :
  well_formed cs -> well_formed (caches_open name cs).
Proof.
  unfold well_formed, caches_open. intros Hwf. case_bool_decide as Hin; [done|].
  unfold caches_keys in *. rewrite fmap_app. simpl.
  apply NoDup_app. split; [done|]. split; [|apply NoDup_singleton].
  intros n Hn. rewrite list_elem_of_singleton. by intros ->.
Qed.

Lemma caches_open_keys name cs : name ∈ caches_keys (caches_open name cs).
Proof.
  unfold caches_open. case_bool_decide as Hin; [done|].
  unfold caches_keys. rewrite fmap_app. apply elem_of_app. right. by left.
Qed.

Lemma caches_keys_put name u r cs :
  caches_keys (cache_put name u r cs) = caches_keys cs.
Proof.
  unfold caches_keys, cache_put. rewrite <- list_fmap_compose.
  apply list_fmap_ext. intros i [n c] _. simpl. by case_bool_decide.
Qed.

Lemma cache_of_Some cs :
  CACHE_NAME ∈ caches_keys cs -> exists c, cache_of CACHE_NAME cs = Some c.
Proof.
  unfold caches_keys. induction cs as [|[n c] cs IH]; simpl.
  - by intros ?%elem_of_nil.
  - case_bool_decide as Hn; [by eauto|].
    rewrite elem_of_cons. intros [|]; [congruence|by apply IH].
Qed.

Lemma filter_current cs c :
  well_formed cs -> cache_of CACHE_NAME cs = Some c ->
  filter (fun nc : string * gmap string Response => nc.1 = CACHE_NAME) cs
  = [(CACHE_NAME, c)].
Proof.
  unfold well_formed, caches_keys.
  induction cs as [|[n c'] cs IH]; [done|]. simpl.
  intros [Hn Hwf]%NoDup_cons. case_bool_decide as Hname.
  - intros [= ->]. subst n. rewrite filter_cons_True by done. f_equal.
    clear IH Hwf. induction cs as [|[m d] cs IH]; [done|].
    simpl in Hn. rewrite not_elem_of_cons in Hn. destruct Hn as [Hm Hn].
    rewrite filter_cons_False by (simpl; congruence). by apply IH.
  - intros Hc. rewrite filter_cons_False by done. by apply IH.
Qed.

Lemma cache_of_put name u r cs :
  cache_of name (cache_put name u r cs) = <[u := r]> <$> cache_of name cs.
Proof.
  unfold cache_put. induction cs as [|[n c] cs IH]; [done|].
  rewrite fmap_cons. cbn [fst snd]. case_bool_decide as Hn; simpl.
  - by rewrite bool_decide_true.
  - by rewrite bool_decide_false.
Qed.

Lemma store_lookup_other c rs u :
  u ∉ rs.*1 -> store c rs !! u = c !! u.
Proof.
  unfold store. revert c. induction rs as [|[v r] rs IH]; intros c; [done|].
  rewrite fmap_cons, not_elem_of_cons. intros [Hne Hin]. simpl.
  rewrite IH by done. by rewrite lookup_insert_ne.
Qed.

(** ** activate *)

Section Activate.

Variable clients : list string.

Lemma delete_old_caches w names :
  caches (foldl delete_old w names)
  = filter (fun nc => nc.1 = CACHE_NAME \/ nc.1 ∉ names) (caches w).
Proof.
  revert w. induction names as [|n names IH]; intros w.
  - simpl. symmetry. apply filter_all. intros nc. right. apply not_elem_of_nil.
  - simpl. rewrite IH. unfold delete_old. case_bool_decide as Hn.
    + simpl. unfold caches_delete. rewrite list_filter_filter.
      apply list_filter_iff. intros [m c]. simpl. rewrite not_elem_of_cons.
      intuition congruence.
    + subst n.
      apply list_filter_iff. intros [m c]. simpl. rewrite not_elem_of_cons.
      destruct (decide (m = CACHE_NAME)); intuition congruence.
Qed.

Lemma activate_caches w :
  caches (activate clients w).2
  = filter (fun nc => nc.1 = CACHE_NAME) (caches w).
Proof.
  unfold activate. cbn [snd caches log perform].
  assert (Hposts : forall cl w', caches (foldl (fun w client =>
             perform (PostMessage client "SERVICE_WORKER_READY") w) w' cl) = caches w').
  { induction cl as [|c cl IH]; intros w'; [done|]. simpl. by rewrite IH. }
  rewrite Hposts. cbn [caches perform log]. rewrite delete_old_caches.
  cbn [caches log]. apply filter_ext_in. intros [n c] Hin. simpl.
  split; [|tauto]. intros [|Hn]; [done|].
  exfalso. apply Hn. unfold caches_keys. by apply (list_elem_of_fmap_2 fst _ (n, c)).
Qed.

(** What [activate] leaves of a storage that holds the current cache. *)
Lemma activate_leaves_current w c :
  well_formed (caches w) ->
  cache_of CACHE_NAME (caches w) = Some c ->
  caches (activate clients w).2 = [(CACHE_NAME, c)].
Proof. intros Hwf Hc. rewrite activate_caches. by apply filter_current. Qed.

(** C8: in a storage that holds the cache of the current version (no
    two caches having the same name), after the [activate] handler has
    completed exactly one cache is left, that of the current version, with
    the content it had; every cache of another name is deleted, and a
    request can only be matched by an entry of the current cache. *)
Theorem activate_keeps_only_current_generation w :
  well_formed (caches w) ->
  CACHE_NAME ∈ caches_keys (caches w) ->
  let w' := (activate clients w).2 in
  (activate clients w).1 = Fulfilled tt
  /\ caches_keys (caches w') = [CACHE_NAME]
  /\ cache_of CACHE_NAME (caches w') = cache_of CACHE_NAME (caches w)
  /\ (forall name, name ≠ CACHE_NAME -> cache_of name (caches w') = None)
  /\ (forall u, caches_match u (caches w') = cache_of CACHE_NAME (caches w) ≫= (.!! u)).
Proof.
  intros Hwf Hin w'. destruct (cache_of_Some _ Hin) as [c Hc].
  unfold w'. rewrite (activate_leaves_current w c Hwf Hc), Hc.
  split; [done|]. split; [done|]. split; [done|]. split.
  - intros name Hname. simpl. by rewrite bool_decide_false by congruence.
  - intros u. simpl. by destruct (c !! u).
Qed.

End Activate.

(** ** install *)

Section Install.

Variable network : string -> option Response.

Lemma fetch_all_fails urls u :
  u ∈ urls ->
  (network u = None \/ exists r, network u = Some r /\ ok r = false) ->
  fetch_all network urls = None.
Proof.
  induction urls as [|v urls IH]; [by intros ?%elem_of_nil|].
  rewrite elem_of_cons. intros [<-|Hin] Hfail; simpl.
  - destruct Hfail as [->|(r & -> & ->)]; done.
  - destruct (network v) as [r|]; [|done]. destruct (ok r); [|done].
    by rewrite IH.
Qed.

Lemma fetch_all_Some urls rs :
  fetch_all network urls = Some rs ->
  rs.*1 = urls /\ Forall (fun ur => network ur.1 = Some ur.2 /\ ok ur.2 = true) rs.
Proof.
  revert rs. induction urls as [|u urls IH]; intros rs; simpl.
  - by intros [= <-].
  - destruct (network u) as [r|] eqn:Hu; [|done]. destruct (ok r) eqn:Hok; [|done].
    destruct (fetch_all network urls) as [rs'|]; [|done]. intros [= <-].
    destruct (IH rs' eq_refl) as [<- Hrs]. split; [done|]. by constructor.
Qed.

Lemma fetch_all_succeeds urls :
  (forall u, u ∈ urls -> exists r, network u = Some r /\ ok r = true) ->
  fetch_all network urls <> None.
Proof.
  induction urls as [|v urls IH]; intros Hok; [done|]. simpl.
  destruct (Hok v ltac:(by left)) as (r & -> & ->).
  destruct (fetch_all network urls) eqn:E; [done|].
  exfalso. apply IH; [|done]. intros u' Hu'. apply Hok. by right.
Qed.

Lemma cache_of_put_all name rs cs :
  cache_of name (put_all name rs cs) = (fun c => store c rs) <$> cache_of name cs.
Proof.
  unfold put_all, store. revert cs. induction rs as [|[u r] rs IH]; intros cs; simpl.
  - by destruct (cache_of name cs).
  - rewrite IH, cache_of_put. by destruct (cache_of name cs).
Qed.

Lemma caches_keys_put_all name rs cs :
  caches_keys (put_all name rs cs) = caches_keys cs.
Proof.
  unfold put_all. revert cs. induction rs as [|[u r] rs IH]; intros cs; [done|].
  simpl. by rewrite IH, caches_keys_put.
Qed.

Lemma store_lookup c rs u :
  Forall (fun ur => network ur.1 = Some ur.2 /\ ok ur.2 = true) rs ->
  u ∈ rs.*1 -> store c rs !! u = network u.
Proof.
  revert c. induction rs as [|[v r] rs IH]; intros c Hrs; [by intros ?%elem_of_nil|].
  apply Forall_cons in Hrs as [[Hv _] Hrs]. simpl in Hv.
  rewrite fmap_cons, elem_of_cons. intros Hin.
  destruct (decide (u ∈ rs.*1)) as [Hlater|Hlater].
  - by apply IH.
  - destruct Hin as [->|]; [|done].
    change (store c ((v, r) :: rs)) with (store (<[v := r]> c) rs).
    rewrite store_lookup_other by done. by rewrite lookup_insert_eq.
Qed.

Lemma fetches_keep_caches urls w :
  caches (foldl (fun w u => perform (Fetch u) w) w urls) = caches w.
Proof.
  revert w. induction urls as [|u urls IH]; intros w; [done|]. simpl. by rewrite IH.
Qed.

Lemma install_caches w :
  caches (install network w).2
  = match fetch_all network CACHE_URLS with
    | Some rs => put_all CACHE_NAME rs (caches_open CACHE_NAME (caches w))
    | None => caches_open CACHE_NAME (caches w)
    end.
Proof.
  unfold install, cache_addAll.
  destruct (fetch_all network CACHE_URLS) as [rs|]; cbn [snd log caches set_caches];
    by rewrite fetches_keep_caches.
Qed.

(** [install] leaves the storage well formed, with the current cache in
    it. *)
Lemma install_opens_current w :
  well_formed (caches w) ->
  well_formed (caches (install network w).2)
  /\ CACHE_NAME ∈ caches_keys (caches (install network w).2).
Proof.
  intros Hwf. rewrite install_caches. unfold well_formed.
  destruct (fetch_all network CACHE_URLS) as [rs|]; rewrite ?caches_keys_put_all;
    (split; [by apply well_formed_open | apply caches_open_keys]).
Qed.

(** C9, as amended: the promise that [install] hands to [waitUntil] is
    always fulfilled, so the transition completes whether or not the
    assets were cached; when the fetch of an asset of the manifest fails
    (it rejects, or its response is not ok) nothing is stored (no partial
    commit: only the empty cache of the current version is created) and
    the error is logged; when every asset is fetched, every asset is
    stored in the current cache. *)
Theorem install_completes_even_when_caching_fails w :
  let w' := (install network w).2 in
  (install network w).1 = Fulfilled tt
  /\ (forall u,
        u ∈ CACHE_URLS ->
        (network u = None \/ exists r, network u = Some r /\ ok r = false) ->
        caches w' = caches_open CACHE_NAME (caches w)
        /\ Log "Cache addAll error:" ∈ effects w')
  /\ ((forall u, u ∈ CACHE_URLS -> exists r, network u = Some r /\ ok r = true) ->
      forall u, u ∈ CACHE_URLS ->
        cache_of CACHE_NAME (caches w') ≫= (.!! u) = network u).
Proof.
  intros w'. split; [|split].
  - unfold install, cache_addAll. by destruct (fetch_all network CACHE_URLS).
  - intros u Hu Hfail. pose proof (fetch_all_fails _ _ Hu Hfail) as Hnone. split.
    + unfold w'. by rewrite install_caches, Hnone.
    + unfold w', install, cache_addAll. rewrite Hnone. cbn [snd log effects].
      apply elem_of_app. right. by left.
  - intros Hall u Hu.
    destruct (fetch_all network CACHE_URLS) as [rs|] eqn:Hrs.
    + destruct (fetch_all_Some _ _ Hrs) as [Hkeys Hforall].
      unfold w'. rewrite install_caches, Hrs, cache_of_put_all.
      destruct (cache_of_Some _ (caches_open_keys CACHE_NAME (caches w))) as [c ->].
      simpl. apply store_lookup; [done|]. by rewrite Hkeys.
    + by apply fetch_all_succeeds in Hall.
Qed.

End Install.

(** After [install] and [activate], whatever the storage held and whatever
    the network did, the cache of the current version is the only one. *)
Lemma install_then_activate network clients w :
  well_formed (caches w) ->
  caches_keys (caches (activate clients (install network w).2).2) = [CACHE_NAME].
Proof.
  intros Hwf. destruct (install_opens_current network w Hwf) as [Hwf' Hin].
  destruct (cache_of_Some _ Hin) as [c Hc].
  by rewrite (activate_leaves_current clients _ c Hwf' Hc).
Qed.

(** ** fetch *)

Section Fetch.

Variable network : string -> option Response.

(** C3, as amended: for every intercepted GET request whose URL contains
    the prefix of the remote API, when the network fetch resolves with
    status 200 the handler answers with the live response as it is, even
    if a cached copy exists; when it resolves with another status the
    handler answers with the cached entry that matches the request, if
    there is one (with nothing otherwise); the storage is not changed. *)
Theorem api_requests_are_network_first request w response :
  method request = "GET" ->
  String.prefix "chrome-extension://" (url request) = false ->
  includes "/api/" (url request) = true ->
  network (url request) = Some response ->
  (status response = 200%Z ->
   (on_fetch network request w).1 = RespondWith (Fulfilled (Some response)))
  /\ (status response ≠ 200%Z ->
      (on_fetch network request w).1
      = RespondWith (Fulfilled (caches_match (url request) (caches w))))
  /\ caches (on_fetch network request w).2 = caches w.
Proof.
  intros Hget Hext Hapi Hnet. unfold on_fetch.
  rewrite Hget, Hext, Hapi, Hnet. simpl.
  destruct (Z.eqb_spec (status response) 200) as [->|Hne]; simpl; repeat split; done.
Qed.

End Fetch.

(** C3, the claim refuted: the network answers the API request with
    status 404 and a cached copy exists: the handler answers with the
    cached copy, not with the live response. *)
Lemma api_error_status_served_from_cache :
  table [(events_url, not_found)] events_url = Some not_found
  /\ (on_fetch (table [(events_url, not_found)]) events_request worker_with_copy).1
     = RespondWith (Fulfilled (Some (page "stale events")))
  /\ page "stale events" ≠ not_found.
Proof. split; [|split]; [vm_compute; reflexivity..|discriminate]. Qed.

(** When the fetch of an API request rejects, the handler looks for
    [/offline.html] and never for a cached copy of the request. *)
Lemma api_offline_ignores_cached_copy :
  table [] events_url = None
  /\ caches_match events_url (caches worker_with_copy) = Some (page "stale events")
  /\ (on_fetch (table []) events_request worker_with_copy).1
     = RespondWith (Fulfilled None).
Proof. repeat split; vm_compute; reflexivity. Qed.

Lemma api_requests_are_network_first_witness :
  (on_fetch (table [(events_url, page "events")]) events_request worker_with_copy).1
  = RespondWith (Fulfilled (Some (page "events"))).
Proof.
  destruct (api_requests_are_network_first (table [(events_url, page "events")])
              events_request worker_with_copy (page "events"))
    as (Hlive & _ & _); [reflexivity..|].
  apply Hlive. reflexivity.
Defined.

Lemma activate_keeps_only_current_generation_witness :
  caches_keys (caches (activate ["tab-1"; "tab-2"] worker_with_old_cache).2)
  = [CACHE_NAME]
  /\ cache_of "calendar-app-v0" (caches (activate ["tab-1"; "tab-2"] worker_with_old_cache).2)
     = None.
Proof.
  destruct (activate_keeps_only_current_generation ["tab-1"; "tab-2"] worker_with_old_cache)
    as (_ & Hkeys & _ & Hold & _).
  - unfold well_formed, caches_keys. simpl. apply NoDup_cons. split.
    + rewrite list_elem_of_singleton. discriminate.
    + apply NoDup_singleton.
  - unfold caches_keys. simpl. apply list_elem_of_further, list_elem_of_here.
  - split; [exact Hkeys|]. apply Hold. discriminate.
Defined.

(** C9, the claim refuted: the fetch of [/manifest.json] fails, and the
    installation completes all the same, with an empty cache. *)
Lemma install_completes_without_manifest :
  network_without_manifest "/manifest.json" = None
  /\ (install network_without_manifest fresh_worker).1 = Fulfilled tt
  /\ caches (install network_without_manifest fresh_worker).2 = [(CACHE_NAME, ∅)].
Proof. repeat split; vm_compute; reflexivity. Qed.

End CacheManager.

(* ===================================================================== *)
(** * Computations that only read *)
(* ===================================================================== *)

Module TraceFacts.

Import NotificationService Runs RunFacts Shapes.

Section Only.

Variable P : event -> bool.

Lemma only_ret {A} (a : A) : only P (ret a).
Proof. intros s. exists (Ret a), []. rewrite after_nil. split; [done | apply Forall_nil_2]. Qed.

Lemma only_throw {A} e : only P (@throw A e).
Proof. intros s. exists (Throw e), []. rewrite after_nil. split; [done | apply Forall_nil_2]. Qed.

Lemma only_lift {A} (o : outcome A) : only P (lift o).
Proof. intros s. exists o, []. rewrite after_nil. split; [done | apply Forall_nil_2]. Qed.

Lemma only_emit e : P e = true -> only P (emit e).
Proof.
  intros He s. exists (Ret tt), [e]. split; [done|].
  apply Forall_cons_2; [done | apply Forall_nil_2].
Qed.

Lemma only_console l msg : P (EvConsole l msg) = true -> only P (console l msg).
Proof. apply only_emit. Qed.

Lemma only_bind {A B} (m : M A) (k : A -> M B) :
  only P m -> (forall a, only P (k a)) -> only P (bind m k).
Proof.
  intros Hm Hk s. destruct (Hm s) as (r & evs & E & Hevs).
  unfold bind. rewrite E. destruct r as [a|e].
  - destruct (Hk a (after evs s)) as (r' & evs' & E' & Hevs').
    exists r', (evs ++ evs')%list. rewrite E', after_after. split; [done|].
    by apply Forall_app_2.
  - by exists (Throw e), evs.
Qed.

Lemma only_try_catch {A} (m : M A) (handler : exn -> M A) :
  only P m -> (forall e, only P (handler e)) -> only P (try_catch m handler).
Proof.
  intros Hm Hk s. destruct (Hm s) as (r & evs & E & Hevs).
  unfold try_catch. rewrite E. destruct r as [a|e].
  - by exists (Ret a), evs.
  - destruct (Hk e (after evs s)) as (r' & evs' & E' & Hevs').
    exists r', (evs ++ evs')%list. rewrite E', after_after. split; [done|].
    by apply Forall_app_2.
Qed.

Lemma only_prop k v : only P (prop k v).
Proof. unfold prop. destruct (js_get k v); [apply only_ret | apply only_throw]. Qed.

Lemma only_when b m : only P m -> only P (when b m).
Proof. intros Hm. destruct b; [done | apply only_ret]. Qed.

End Only.

(** Decomposes a computation along its binds, handlers and branches; the
    events it meets are checked by evaluation. *)
Ltac reads :=
  repeat first
    [ assumption
    | apply only_ret | apply only_throw | apply only_lift | apply only_prop
    | apply only_emit; first [assumption | reflexivity]
    | apply only_console; reflexivity
    | match goal with |- forall _, _ => intro end
    | apply only_bind
    | apply only_try_catch
    | apply only_when
    | match goal with
      | |- only _ (if ?b then _ else _) => destruct b
      | |- only _ (match ?x with _ => _ end) => destruct x
      | |- only _ (let _ := _ in _) => cbv zeta
      end
    | progress cbv beta ].

(** Checks a property of every event of a given list by evaluation. *)
Ltac each :=
  repeat first
    [ assumption
    | apply Forall_nil_2
    | apply Forall_app_2
    | apply Forall_cons_2; [reflexivity|] ].

Section Service.

Variable h : host.
Variable P : event -> bool.

(** Messages on the console are among the events [P] admits. *)
Hypothesis console_ok : forall l msg, P (EvConsole l msg) = true.

Lemma only_log l msg : only P (console l msg).
Proof. apply only_emit, console_ok. Qed.

Lemma only_request m u d :
  P (EvFetch m (sent_url h u) (sent_body m d)) = true ->
  only P (Api.request h m u d).
Proof.
  intros Hf. unfold Api.request.
  apply only_try_catch; [|intros e; apply only_bind; [apply only_log | intros; apply only_throw]].
  cbv zeta. apply only_bind; [|intros response; unfold Api.json; reads].
  unfold Api.fetch. apply only_bind; [by apply only_emit|]. reads.
Qed.

Lemma only_getPreferences :
  P (EvFetch "GET" (sent_url h PREFERENCES_URL) None) = true ->
  only P (getPreferences h).
Proof.
  intros Hf. unfold getPreferences.
  apply only_try_catch.
  - apply only_bind; [by apply only_request|]. reads.
  - intros e. apply only_bind; [apply only_log | intros; apply only_ret].
Qed.

Lemma only_updatePreferences (updates : gmap string jsval) :
  P (EvFetch "GET" (sent_url h PREFERENCES_URL) None) = true ->
  (forall body, P (EvFetch "PUT" (sent_url h PREFERENCES_URL) body) = true) ->
  only P (updatePreferences h updates).
Proof.
  intros Hget Hput. unfold updatePreferences. apply only_try_catch.
  - apply only_bind; [by apply only_getPreferences|]. intros currentPrefs. cbv zeta.
    apply only_bind; [apply only_request, Hput|]. reads.
  - intros e. apply only_bind; [apply only_log | intros; apply only_throw].
Qed.

End Service.

Lemma post_only {A} P (m : M A) s (Q : outcome A -> state -> Prop) :
  only P m ->
  (forall r evs, Forall (fun e => P e = true) evs -> Q r (after evs s)) ->
  post m s Q.
Proof.
  intros Hm HQ. destruct (Hm s) as (r & evs & E & Hevs).
  unfold post. rewrite E. by apply HQ.
Qed.

(** What [request] does to the state: the request, then its line on the
    console if it throws. *)
Lemma request_run h m u d s :
  Api.request h m u d s
  = ((Api.request h m u d s).1,
     after (EvFetch m (sent_url h u) (sent_body m d)
            :: match (Api.request h m u d s).1 with
               | Ret _ => []
               | Throw _ => [request_failed m u]
               end) s).
Proof.
  unfold Api.request, try_catch, bind, Api.fetch, emit, Api.json, bind, prop, after.
  fold (sent_url h u). fold (sent_body m d). simpl.
  destruct (net h m (sent_url h u) (sent_body m d)) as [r|]; simpl;
    [|by rewrite <- app_assoc].
  destruct (resp_json r) as [v|]; simpl; [|by rewrite <- app_assoc].
  destruct (resp_ok r); simpl.
  - destruct (js_get "success" v) as [b|]; simpl; [|by rewrite <- app_assoc].
    destruct (truthy b); simpl.
    + destruct (js_get "data" v); simpl; [done | by rewrite <- app_assoc].
    + destruct (js_get "error" v); simpl; by rewrite <- app_assoc.
  - destruct (js_get "error" v); simpl; by rewrite <- app_assoc.
Qed.

Lemma no_fetch_no_write evs :
  Forall (fun e => no_fetch e = true) evs -> Forall (fun e => no_write e = true) evs.
Proof.
  intros H. eapply Forall_impl; [exact H|].
  intros e. unfold no_fetch, no_write. by destruct e.
Qed.

Lemma writes_nil evs :
  Forall (fun e => no_write e = true) evs -> writes evs = [].
Proof.
  unfold writes. induction 1 as [|e evs He _ IH]; [done|].
  rewrite filter_cons_False; [done|].
  unfold no_write in He. by destruct (is_write e).
Qed.

Lemma writes_app evs1 evs2 : writes (evs1 ++ evs2) = (writes evs1 ++ writes evs2)%list.
Proof. apply filter_app. Qed.

Lemma writes_cons e evs : is_write e = true -> writes (e :: evs) = e :: writes evs.
Proof. intros He. unfold writes. by rewrite filter_cons_True. Qed.

Lemma writes_local evs : Forall (fun e => no_fetch e = true) evs -> writes evs = [].
Proof. intros H. by apply writes_nil, no_fetch_no_write. Qed.

Lemma writes_one evs w pre tail :
  Forall (fun e => no_write e = true) evs ->
  is_write w = true ->
  Forall (fun e => no_write e = true) pre ->
  Forall (fun e => no_write e = true) tail ->
  writes (evs ++ (w :: pre) ++ tail) = [w].
Proof.
  intros Hevs Hw Hpre Htail.
  rewrite !writes_app, (writes_nil evs Hevs), writes_cons by done.
  by rewrite (writes_nil pre), (writes_nil tail).
Qed.

(** The requests of a run that change the server, read off the state
    the run ends in. *)
Lemma writes_of_post {A} (m : M A) s ws :
  post m s (fun _ s1 => exists evs, s1 = after evs s /\ writes evs = ws) ->
  writes (events_of m s) = ws.
Proof.
  unfold post. intros (evs & E & Hws).
  rewrite (events_of_state m s evs); [done|]. by rewrite E.
Qed.

Lemma only_events {A} (P : event -> bool) (m : M A) s :
  only P m -> Forall (fun e => P e = true) (events_of m s).
Proof.
  intros Hm. destruct (Hm s) as (r & evs & E & Hevs).
  by rewrite (events_of_after _ _ _ _ E).
Qed.

End TraceFacts.

(* ===================================================================== *)
(** * The HTTP helper *)
(* ===================================================================== *)

Module ApiFacts.

Import NotificationService Samples Inputs Runs RunFacts Shapes TraceFacts.

Section Facts.

Variable h : host.

(** X1. When the server answers a request with a JSON object, [request]
    returns the [data] member of the answer if the status is in 200..299
    and the [success] member is truthy; otherwise it throws an [Error]
    whose message is the [error] member of the answer, or 'Request failed'
    when that member is missing or falsy. *)
Theorem request_outcome (m u : string) (d : jsval) s r (o : gmap string jsval) :
  net h m (sent_url h u) (sent_body m d) = Some r ->
  resp_json r = Some (JObj o) ->
  (Api.request h m u d s).1
  = if resp_ok r && truthy (field "success" o) then Ret (field "data" o)
    else Throw (Error (js_to_string (js_or (field "error" o) (JStr "Request failed")))).
Proof.
  intros Hnet Hjson.
  unfold Api.request, try_catch, bind, Api.fetch, emit, Api.json, bind.
  fold (sent_url h u). fold (sent_body m d). simpl.
  rewrite Hnet. simpl. rewrite Hjson. simpl.
  destruct (resp_ok r); simpl.
  - fold (field "success" o). destruct (truthy (field "success" o)); simpl; done.
  - done.
Qed.

(** X2. Every call of [request] sends exactly one request, to the URL
    prefixed with the base URL unless it starts with 'http', with a body
    only when the method is not GET and the data are truthy; it writes
    its one line on the console exactly when it throws. *)
Theorem request_trace (m u : string) (d : jsval) s :
  events_of (Api.request h m u d) s
  = EvFetch m (sent_url h u) (sent_body m d)
    :: match (Api.request h m u d s).1 with
       | Ret _ => []
       | Throw _ => [request_failed m u]
       end.
Proof.
  apply events_of_after with (r := (Api.request h m u d s).1).
  apply request_run.
Qed.

End Facts.

Lemma request_outcome_witness :
  (Api.request (sample_host (Some (JObj ∅)) None true refusing)
     "GET" PREFERENCES_URL JUndef initial).1 = Ret (JObj ∅).
Proof.
  exact (request_outcome (sample_host (Some (JObj ∅)) None true refusing)
           "GET" PREFERENCES_URL JUndef initial (envelope (JObj ∅))
           (literal [("success", JBool true); ("data", JObj ∅)])
           eq_refl eq_refl).
Defined.

End ApiFacts.

(* ===================================================================== *)
(** * Preferences: reading, merging and writing *)
(* ===================================================================== *)

Module Preferences.

Import NotificationService Samples Inputs MoreInputs Runs RunFacts Shapes TraceFacts.

Lemma lookup_drop_undefined (m : gmap string jsval) k :
  drop_undefined m !! k
  = match m !! k with
    | Some JUndef => None
    | x => x
    end.
Proof.
  unfold drop_undefined. rewrite map_lookup_filter.
  destruct (m !! k) as [v|]; [|done]. simpl.
  destruct v; simpl; by repeat case_guard.
Qed.

Lemma is_Some_literal9 k (a b c d e f g i j : jsval) :
  k ∈ FIELDS.*1 ->
  is_Some (literal
     [("email", a); ("notifyEmail", b); ("notifyBrowser", c);
      ("notifyAllEvents", d); ("email1hBefore", e); ("email10mBefore", f);
      ("browser1hBefore", g); ("browser10mBefore", i); ("notifyNewEvents", j)] !! k).
Proof.
  unfold FIELDS, literal. simpl. rewrite !elem_of_cons, elem_of_nil.
  intros H. repeat (destruct H as [->|H]; [by simplify_map_eq|]). done.
Qed.

Lemma is_Some_defaults k : k ∈ FIELDS.*1 -> is_Some (DEFAULT_PREFERENCES !! k).
Proof. apply is_Some_literal9. Qed.

Section Facts.

Variable h : host.

(** X3. [getPreferences] never throws and never writes to the server;
    the record it returns has every one of the nine preference fields,
    whatever the server answered. *)
Theorem getPreferences_is_complete s :
  exists prefs evs,
    getPreferences h s = (Ret prefs, after evs s)
    /\ Forall (fun e => is_write e = false) evs
    /\ forall k, k ∈ FIELDS.*1 -> is_Some (prefs !! k).
Proof.
  destruct (only_getPreferences h no_write (fun _ _ => eq_refl) eq_refl s)
    as (r & evs & E & Hevs).
  assert (exists prefs, r = Ret prefs
            /\ forall k, k ∈ FIELDS.*1 -> is_Some (prefs !! k)) as (prefs & -> & Hk).
  { assert (r = (getPreferences h s).1) as -> by by rewrite E.
    clear E Hevs. unfold getPreferences, try_catch, bind.
    destruct (Api.get h PREFERENCES_URL s) as [[response|e] s1]; simpl;
      [|eexists; split; [done | intros k; apply is_Some_literal9]].
    destruct (truthy response) eqn:Ht; simpl.
    - destruct (js_in "notify1hBefore" response) as [legacy|] eqn:Hin; simpl;
        [|eexists; split; [done | intros k; apply is_Some_literal9]].
      destruct legacy; simpl.
      + unfold prop.
        assert (forall k, exists v, js_get k response = Some v) as Hget.
        { intros k. destruct response; try discriminate Hin; simpl; eauto. }
        repeat match goal with
               | |- context [js_get ?k response] =>
                   let v := fresh "v" in
                   destruct (Hget k) as [v ->]; simpl
               end.
        eexists; split; [done | intros k; apply is_Some_literal9].
      + eexists; split; [done|]. intros k Hk.
        apply lookup_union_is_Some. right. by apply is_Some_defaults.
    - eexists; split; [done|]. intros k Hk.
      apply lookup_union_is_Some. right. by apply is_Some_defaults. }
  exists prefs, evs. split; [done|]. split; [|done].
  eapply Forall_impl; [exact Hevs|]. intros e. unfold no_write.
  by destruct (is_write e).
Qed.

(** X4. When the request for the preferences fails, or the server's
    data are neither an object nor an array, [getPreferences] returns
    exactly the default preferences. *)
Theorem getPreferences_falls_back_to_defaults s :
  (forall o, (Api.get h PREFERENCES_URL s).1 <> Ret (JObj o)) ->
  (forall l, (Api.get h PREFERENCES_URL s).1 <> Ret (JArr l)) ->
  (getPreferences h s).1 = Ret DEFAULT_PREFERENCES.
Proof.
  intros Hobj Harr. unfold getPreferences, try_catch, bind.
  destruct (Api.get h PREFERENCES_URL s) as [[response|e] s1]; simpl in *; [|done].
  destruct response as [| |b|n|str|l|o]; simpl.
  - by rewrite (left_id_L ∅ (∪)).
  - by rewrite (left_id_L ∅ (∪)).
  - destruct b; simpl; [done | by rewrite (left_id_L ∅ (∪))].
  - unfold js_or. simpl. destruct (n =? 0)%Z; simpl;
      [by rewrite (left_id_L ∅ (∪)) | done].
  - unfold js_or. simpl. destruct (String.eqb str ""); simpl;
      [by rewrite (left_id_L ∅ (∪)) | done].
  - by destruct (Harr l).
  - by destruct (Hobj o).
Qed.

(** X5. A stored record in the current format is laid over the
    defaults: every member of the record is returned as it is stored
    (not normalised), and a preference field the record lacks has its
    default value. *)
Theorem getPreferences_lays_record_over_defaults s (o : gmap string jsval) :
  (Api.get h PREFERENCES_URL s).1 = Ret (JObj o) ->
  o !! "notify1hBefore" = None ->
  exists prefs,
    (getPreferences h s).1 = Ret prefs
    /\ forall k, prefs !! k = match o !! k with
                              | Some v => Some v
                              | None => DEFAULT_PREFERENCES !! k
                              end.
Proof.
  intros Hget Hnew. unfold getPreferences, try_catch, bind.
  destruct (Api.get h PREFERENCES_URL s) as [r s1]; simpl in *. subst r. simpl.
  rewrite Hnew. simpl. eexists. split; [done|]. intros k.
  rewrite lookup_union. destruct (o !! k), (DEFAULT_PREFERENCES !! k); done.
Qed.

(** X6. A stored record in the legacy format (one that has a member
    [notify1hBefore]) is rebuilt field by field: the result has the nine
    preference fields and no other, the address is the stored one or the
    empty string, and every flag is a boolean, false only when the member
    of the same name is stored as [false]. *)
Theorem getPreferences_rebuilds_legacy_record s (o : gmap string jsval) :
  (Api.get h PREFERENCES_URL s).1 = Ret (JObj o) ->
  is_Some (o !! "notify1hBefore") ->
  exists prefs,
    (getPreferences h s).1 = Ret prefs
    /\ (forall k, is_Some (prefs !! k) <-> k ∈ FIELDS.*1)
    /\ prefs !! "email" = Some (js_or (field "email" o) (JStr ""))
    /\ forall k, k ∈ FIELDS.*1 -> k <> "email" ->
         prefs !! k = Some (JBool (neq_false (field k o))).
Proof.
  intros Hget Hold. unfold getPreferences, try_catch, bind.
  destruct (Api.get h PREFERENCES_URL s) as [r s1]; simpl in *. subst r. simpl.
  rewrite bool_decide_true by done. simpl.
  eexists. split; [done|]. split; [|split].
  - intros k. split; [|apply is_Some_literal9].
    unfold literal, FIELDS. simpl. intros [v Hv].
    rewrite !elem_of_cons.
    repeat (apply lookup_insert_Some in Hv as [[<- _]|[_ Hv]];
            [by repeat first [left; reflexivity | right]|]).
    by rewrite lookup_empty in Hv.
  - unfold literal. simpl. by simplify_map_eq.
  - unfold FIELDS, literal. simpl. intros k. rewrite !elem_of_cons, elem_of_nil.
    intros H Hne.
    repeat (destruct H as [->|H]; [try done; by simplify_map_eq|]). done.
Qed.

Lemma only_getEventPreferences (types : list string) :
  only no_write (getEventPreferences h types).
Proof.
  unfold getEventPreferences. apply only_try_catch.
  - apply only_bind; [by apply only_getPreferences|]. intros prefs.
    destruct (bool_decide _); [apply only_ret|].
    apply only_bind; [by apply only_request | intros; apply only_ret].
  - intros e. apply only_bind; [by apply only_console | intros; apply only_ret].
Qed.

(** X7. [getEventPreferences] never throws and never writes to the
    server; the list it returns has one record for each candidate type,
    in the order of the candidates, whatever the server answered. *)
Theorem getEventPreferences_covers_every_type (types : list string) s :
  exists prefs evs,
    getEventPreferences h types s = (Ret prefs, after evs s)
    /\ event_type <$> prefs = types
    /\ Forall (fun e => is_write e = false) evs.
Proof.
  destruct (only_getEventPreferences types s) as (r & evs & E & Hevs).
  assert (exists prefs, r = Ret prefs /\ event_type <$> prefs = types)
    as (prefs & -> & Ht).
  { assert (r = (getEventPreferences h types s).1) as -> by by rewrite E.
    clear E Hevs. unfold getEventPreferences, try_catch, bind.
    assert (forall f : string -> jsval,
              event_type <$> ((fun t => {| event_type := t; is_enabled := f t |})
                                <$> types) = types) as Hmap.
    { intros f. rewrite <- list_fmap_compose. by rewrite <- (list_fmap_id types) at 2. }
    destruct (getPreferences h s) as [[prefs|e] s1]; simpl;
      [|eexists; split; [done | apply (Hmap (fun _ => JBool false))]].
    case_bool_decide as Hlen; simpl.
    - exists []. split; [done|]. by destruct types.
    - destruct (Api.get h EVENT_PREFERENCES_URL s1) as [[response|e] s2]; simpl;
        [|eexists; split; [done | apply (Hmap (fun _ => JBool false))]].
      eexists. split; [done|]. apply Hmap. }
  exists prefs, evs. split; [done|]. split; [done|].
  eapply Forall_impl; [exact Hevs|]. intros e. unfold no_write.
  by destruct (is_write e).
Qed.

Lemma record_pref_other (prefMap : gmap string bool) pref t :
  type_of_record pref <> Some t ->
  record_pref prefMap pref !! t = prefMap !! t.
Proof.
  unfold type_of_record, record_pref. intros Hne.
  destruct pref as [| | | | | |o]; try done.
  destruct (o !! "event_type") as [[| | | |t'| |]|]; try done.
  destruct (o !! "is_enabled") as [[| |b| | | |]|]; try done.
  rewrite lookup_insert_ne; [done | congruence].
Qed.

Lemma foldl_record_pref_other (l : list jsval) t :
  Forall (fun pref => type_of_record pref <> Some t) l ->
  forall prefMap, foldl record_pref prefMap l !! t = prefMap !! t.
Proof.
  induction 1 as [|pref l Hp _ IH]; intros prefMap; [done|].
  simpl. rewrite IH. by apply record_pref_other.
Qed.

(** X8. A choice stored for an event type is kept whatever the
    [notifyAllEvents] flag says, and of several stored records about one
    type the last one counts: when the stored list has a record with
    [event_type] [t] and a boolean [is_enabled] [b], and no well-formed
    record about [t] after it, every returned record about [t] carries
    [b]. *)
Theorem stored_choice_overrides_global_flag (types : list string) s
    (l1 l2 : list jsval) (o : gmap string jsval) t b :
  (Api.get h EVENT_PREFERENCES_URL (getPreferences h s).2).1
  = Ret (JArr (l1 ++ JObj o :: l2)) ->
  o !! "event_type" = Some (JStr t) ->
  o !! "is_enabled" = Some (JBool b) ->
  Forall (fun pref => type_of_record pref <> Some t) l2 ->
  exists prefs,
    (getEventPreferences h types s).1 = Ret prefs
    /\ forall p, p ∈ prefs -> event_type p = t -> is_enabled p = JBool b.
Proof.
  intros Hget Ht Hb Hlater.
  destruct (total_getPreferences h s) as (prefs & s1 & E).
  unfold getEventPreferences, try_catch, bind. rewrite E in *. simpl in *.
  case_bool_decide as Hlen; simpl.
  { exists []. split; [done|]. intros p Hp. by apply elem_of_nil in Hp. }
  destruct (Api.get h EVENT_PREFERENCES_URL s1) as [r s2]; simpl in *. subst r.
  simpl. eexists. split; [done|].
  intros p Hp Hpt. apply list_elem_of_fmap in Hp as (t' & -> & _).
  simpl in *. subst t'.
  rewrite bool_decide_false; last first.
  { rewrite length_app. simpl. lia. }
  rewrite foldl_app. simpl. rewrite (foldl_record_pref_other _ _ Hlater).
  unfold record_pref at 1. rewrite Ht, Hb. by rewrite lookup_insert_eq.
Qed.

(** X9. [updatePreferences] writes once: it sends one PUT request to
    the preferences endpoint and no other request that changes the
    server.  The body has only snake_case members; the value of each is
    the one of the update if the update has that field, else the one of
    the current preferences; a field whose value is [undefined] (in the
    update, or in the current preferences when the update lacks it) is
    left out of the body. *)
Theorem updatePreferences_sends_merged_record (updates : gmap string jsval) s :
  exists current body,
    (getPreferences h s).1 = Ret current
    /\ writes (events_of (updatePreferences h updates) s)
       = [EvFetch "PUT" (sent_url h PREFERENCES_URL) (Some (JObj body))]
    /\ (forall camel snake, (camel, snake) ∈ FIELDS ->
          body !! snake
          = match updates !! camel with
            | Some JUndef => None
            | Some v => Some v
            | None => match current !! camel with
                      | Some JUndef => None
                      | x => x
                      end
            end)
    /\ (forall k, is_Some (body !! k) -> k ∈ FIELDS.*2).
Proof.
  destruct (only_getPreferences h no_write (fun _ _ => eq_refl) eq_refl s)
    as (r & evs & E & Hevs).
  destruct (total_getPreferences h s) as (current & s1' & E').
  rewrite E in E'. injection E' as -> _.
  exists current. eexists. split; [by rewrite E|]. split; [|split].
  - apply writes_of_post. unfold updatePreferences.
    apply post_try_catch, post_bind. unfold post at 1. rewrite E. simpl.
    apply post_bind. unfold post at 1. unfold Api.put. rewrite request_run. simpl.
    set (body := drop_undefined _).
    assert (forall pre tail,
              Forall (fun e => no_fetch e = true) pre ->
              Forall (fun e => no_fetch e = true) tail ->
              writes (evs ++ (EvFetch "PUT" (sent_url h PREFERENCES_URL) (Some (JObj body))
                              :: pre) ++ tail)%list
              = [EvFetch "PUT" (sent_url h PREFERENCES_URL) (Some (JObj body))]) as Hw.
    { intros pre tail Hpre Htail.
      rewrite !writes_app, (writes_nil evs Hevs), writes_cons by done.
      by rewrite (writes_local pre), (writes_local tail). }
    change (sent_body "PUT" (JObj body)) with (Some (JObj body)).
    destruct (Api.request h "PUT" PREFERENCES_URL (JObj body) (after evs s)).1
      as [result|e].
    + rewrite after_after. eapply (post_only no_fetch); [reads|].
      intros [prefs|e] tail Htail; rewrite after_after.
      * eexists. split; [done|]. rewrite <- app_assoc.
        apply (Hw [] tail); [each | done].
      * step. step. eexists. split; [done|]. rewrite <- !app_assoc.
        apply (Hw [] (tail ++ _)%list); each.
    + rewrite after_after. step. step. eexists. split; [done|].
      rewrite <- !app_assoc. simpl.
      apply (Hw [request_failed "PUT" PREFERENCES_URL] [_]); each.
  - intros camel snake Hin. rewrite lookup_drop_undefined.
    unfold FIELDS in Hin. rewrite !elem_of_cons, elem_of_nil in Hin.
    unfold literal, field. simpl.
    repeat (destruct Hin as [[= -> ->]|Hin];
            [simplify_map_eq; rewrite lookup_union;
             match goal with
             | |- context [updates !! ?k] =>
                 by destruct (updates !! k) as [[]|], (current !! k) as [[]|]
             end|]).
    done.
  - intros k [v Hv]. rewrite lookup_drop_undefined in Hv.
    unfold literal in Hv. simpl in Hv. unfold FIELDS. simpl.
    rewrite !elem_of_cons.
    destruct (_ !! k) as [w|] eqn:Hk; [clear Hv | discriminate Hv].
    repeat (apply lookup_insert_Some in Hk as [[<- _]|[_ Hk]];
            [by repeat first [left; reflexivity | right]|]).
    by rewrite lookup_empty in Hk.
Qed.

End Facts.

Lemma getPreferences_falls_back_to_defaults_witness :
  (getPreferences no_preferences_host initial).1 = Ret DEFAULT_PREFERENCES.
Proof.
  apply (getPreferences_falls_back_to_defaults no_preferences_host initial);
    intros x; vm_compute; discriminate.
Defined.

Lemma getPreferences_lays_record_over_defaults_witness :
  exists prefs,
    (getPreferences new_user_host initial).1 = Ret prefs
    /\ forall k, prefs !! k
                 = match literal [("notifyAllEvents", JBool false)] !! k with
                   | Some v => Some v
                   | None => DEFAULT_PREFERENCES !! k
                   end.
Proof.
  apply (getPreferences_lays_record_over_defaults new_user_host initial
           (literal [("notifyAllEvents", JBool false)]));
    reflexivity.
Defined.

Lemma getPreferences_rebuilds_legacy_record_witness :
  exists prefs,
    (getPreferences legacy_host initial).1 = Ret prefs
    /\ (forall k, is_Some (prefs !! k) <-> k ∈ FIELDS.*1)
    /\ prefs !! "email" = Some (JStr "")
    /\ forall k, k ∈ FIELDS.*1 -> k <> "email" ->
         prefs !! k
         = Some (JBool (neq_false
                          (field k (literal [("notify1hBefore", JBool false);
                                             ("notify10mBefore", JBool true)])))).
Proof.
  apply (getPreferences_rebuilds_legacy_record legacy_host initial
           (literal [("notify1hBefore", JBool false); ("notify10mBefore", JBool true)]));
    [reflexivity | by eexists].
Defined.

Lemma stored_choice_overrides_global_flag_witness :
  exists prefs,
    (getEventPreferences stored_choice_host ["standup"; "release"] initial).1 = Ret prefs
    /\ forall p, p ∈ prefs -> event_type p = "standup" -> is_enabled p = JBool true.
Proof.
  apply (stored_choice_overrides_global_flag stored_choice_host
           ["standup"; "release"] initial []
           [] (literal [("event_type", JStr "standup"); ("is_enabled", JBool true)])
           "standup" true);
    [reflexivity | reflexivity | reflexivity | apply Forall_nil_2].
Defined.

End Preferences.

(* ===================================================================== *)
(** * Validation of addresses *)
(* ===================================================================== *)

Module Email.

Import NotificationService Shapes.

#[local] Open Scope list_scope.

Lemma plain_toLowerCase c : plain (toLowerCase_ascii c) = plain c.
Proof. by destruct c as [[] [] [] [] [] [] [] []]. Qed.

Lemma at_toLowerCase c : Ascii.eqb (toLowerCase_ascii c) "@" = Ascii.eqb c "@".
Proof. by destruct c as [[] [] [] [] [] [] [] []]. Qed.

Lemma dot_toLowerCase c : Ascii.eqb (toLowerCase_ascii c) "." = Ascii.eqb c ".".
Proof. by destruct c as [[] [] [] [] [] [] [] []]. Qed.

Lemma forallb_plain_toLowerCase l :
  forallb plain (toLowerCase_ascii <$> l) = forallb plain l.
Proof.
  induction l as [|c l IH]; [done|].
  rewrite fmap_cons. cbn [forallb]. by rewrite plain_toLowerCase, IH.
Qed.

Lemma domain_ok_toLowerCase l :
  forall seen, domain_ok seen (toLowerCase_ascii <$> l) = domain_ok seen l.
Proof.
  induction l as [|c l IH]; intros seen; [done|].
  rewrite fmap_cons. cbn [domain_ok].
  rewrite dot_toLowerCase, plain_toLowerCase, forallb_plain_toLowerCase, IH.
  by destruct l.
Qed.

Lemma local_ok_toLowerCase l :
  forall seen, local_ok seen (toLowerCase_ascii <$> l) = local_ok seen l.
Proof.
  induction l as [|c l IH]; intros seen; [done|].
  rewrite fmap_cons. cbn [local_ok].
  by rewrite at_toLowerCase, plain_toLowerCase, domain_ok_toLowerCase, IH.
Qed.

Lemma domain_ok_spec l :
  forall seen,
    domain_ok seen l = true
    <-> exists b c, l = b ++ "."%char :: c
                    /\ (seen = true \/ b <> []) /\ c <> []
                    /\ forallb plain b = true /\ forallb plain c = true.
Proof.
  induction l as [|c0 l IH]; intros seen; simpl.
  - split; [done|]. intros (b & c & E & _). by destruct b.
  - rewrite orb_true_iff, !andb_true_iff, negb_true_iff, bool_decide_eq_false,
      Ascii.eqb_eq, IH.
    split.
    + intros [[[[-> Hseen] Hne] Hl]|[Hc0 (b & c & -> & _ & Hc & Hb & Hpc)]].
      * exists [], l. auto.
      * exists (c0 :: b), c. simpl. rewrite Hc0, Hb. auto.
    + intros (b & c & E & Hb & Hc & Hpb & Hpc). destruct b as [|x b]; simpl in *.
      * injection E as -> ->. left. by destruct Hb.
      * injection E as -> ->. apply andb_true_iff in Hpb as [Hx Hpb].
        right. split; [done|]. exists b, c. auto.
Qed.

Lemma local_ok_spec l :
  forall seen,
    local_ok seen l = true
    <-> exists a rest, l = a ++ "@"%char :: rest
                       /\ (seen = true \/ a <> [])
                       /\ forallb plain a = true /\ domain_ok false rest = true.
Proof.
  induction l as [|c0 l IH]; intros seen; simpl.
  - split; [done|]. intros (a & rest & E & _). by destruct a.
  - destruct (Ascii.eqb c0 "@") eqn:Hat.
    + apply Ascii.eqb_eq in Hat as ->. rewrite andb_true_iff. split.
      * intros [Hseen Hd]. exists [], l. auto.
      * intros (a & rest & E & Ha & Hpa & Hd). destruct a as [|x a]; simpl in *.
        -- injection E as ->. by destruct Ha.
        -- injection E as <- ->. done.
    + rewrite andb_true_iff, IH. split.
      * intros [Hc0 (a & rest & -> & _ & Hpa & Hd)].
        exists (c0 :: a), rest. simpl. rewrite Hc0, Hpa. auto.
      * intros (a & rest & E & Ha & Hpa & Hd). destruct a as [|x a]; simpl in *.
        -- injection E as -> ->. done.
        -- injection E as -> ->. apply andb_true_iff in Hpa as [Hx Hpa].
           split; [done|]. exists a, rest. auto.
Qed.

(** X10. On strings of ASCII characters (those on which a character of
    the embedding is a character of the program), [isValidEmail] accepts
    exactly the strings of the shape local@domain.tld: a non-empty local
    part, one [@], then two non-empty parts around a dot, none of the
    three parts holding white space or a further [@].  The case of the
    letters plays no part. *)
Theorem isValidEmail_accepts_exactly_addresses (email : string) :
  ascii_only email = true ->
  isValidEmail email = true
  <-> exists a b c,
        String.list_ascii_of_string email = a ++ "@"%char :: b ++ "."%char :: c
        /\ a <> [] /\ b <> [] /\ c <> []
        /\ forallb plain (a ++ b ++ c) = true.
Proof.
  intros _. unfold isValidEmail.
  destruct (String.eqb_spec email "") as [->|Hne].
  - split; [done|]. intros (a & b & c & E & _). by destruct a.
  - rewrite local_ok_toLowerCase, local_ok_spec. split.
    + intros (a & rest & E & [?|Ha] & Hpa & Hd); [done|].
      apply domain_ok_spec in Hd as (b & c & -> & [?|Hb] & Hc & Hpb & Hpc); [done|].
      exists a, b, c. rewrite !forallb_app, Hpa, Hpb, Hpc. auto.
    + intros (a & b & c & E & Ha & Hb & Hc & Hp).
      rewrite !forallb_app, !andb_true_iff in Hp. destruct Hp as (Hpa & Hpb & Hpc).
      exists a, (b ++ "."%char :: c). split; [done|]. split; [auto|]. split; [done|].
      apply domain_ok_spec. exists b, c. auto.
Qed.

Lemma isValidEmail_accepts_exactly_addresses_witness :
  isValidEmail "Ada@Example.org" = true
  <-> exists a b c,
        String.list_ascii_of_string "Ada@Example.org"
        = a ++ "@"%char :: b ++ "."%char :: c
        /\ a <> [] /\ b <> [] /\ c <> []
        /\ forallb plain (a ++ b ++ c) = true.
Proof.
  apply (isValidEmail_accepts_exactly_addresses "Ada@Example.org"). reflexivity.
Defined.

End Email.

(* ===================================================================== *)
(** * The life cycle of a push subscription *)
(* ===================================================================== *)

Module PushLifecycle.

Import NotificationService NotificationServiceRev1 Operations.
Import Samples Inputs MoreInputs.
Import Runs RunFacts Shapes TraceFacts.

Lemma subscribes_silent evs : silent evs -> subscribes evs = 0.
Proof.
  unfold subscribes, silent. induction 1 as [|e evs He _ IH]; [done|].
  rewrite filter_cons_False; [done|]. by rewrite He.
Qed.

Lemma subscribes_called evs1 evs2 :
  silent evs1 -> silent evs2 ->
  subscribes (evs1 ++ EvSubscribe :: evs2) = 1.
Proof.
  intros H1 H2. unfold subscribes. rewrite filter_app, length_app.
  rewrite filter_cons_True by done. simpl.
  fold (subscribes evs1). fold (subscribes evs2).
  by rewrite (subscribes_silent _ H1), (subscribes_silent _ H2).
Qed.

Section Facts.

Variable h : host.

(** X11. One call of [subscribeToPushNotifications] calls
    [pushManager.subscribe] at most once, whatever the browser, the server
    and the push service answer: a refused subscription is not retried. *)
Theorem subscribe_is_attempted_at_most_once (userId userEmail : string) s :
  let run := NotificationService.subscribeToPushNotifications h userId userEmail in
  subscribes (events_of run s) <= 1
  /\ subscribe_calls (run s).2 = subscribe_calls s + subscribes (events_of run s).
Proof.
  intros run. pose proof (Subscription.subscribe_ends h userId userEmail s) as H.
  unfold post in H. fold run in H.
  destruct H as [(evs & E & Hevs & _)
                |[(sub & evs1 & evs2 & _ & _ & _ & E & H1 & H2 & _)
                 |(e & e' & evs1 & evs2 & _ & _ & E & H1 & H2)]].
  - rewrite (events_of_state run s evs) by by rewrite E.
    rewrite E, (subscribes_silent _ Hevs). simpl. lia.
  - rewrite (events_of_state run s (evs1 ++ EvSubscribe :: evs2)) by by rewrite E.
    rewrite E, (subscribes_called _ _ H1 H2). simpl. lia.
  - rewrite (events_of_state run s (evs1 ++ EvSubscribe :: evs2)) by by rewrite E.
    rewrite E, (subscribes_called _ _ H1 H2). simpl. lia.
Qed.

Lemma subscribe_returns_held (userId userEmail : string) s sub s1 :
  NotificationService.subscribeToPushNotifications h userId userEmail s = (Ret sub, s1) ->
  push_subscription s1 = Some sub.
Proof.
  intros E. pose proof (Subscription.subscribe_ends h userId userEmail s) as H.
  unfold post in H. rewrite E in H. simpl in H.
  destruct H as [(evs & -> & _ & Hsub)
                |[(sub' & evs1 & evs2 & _ & [= <-] & _ & -> & _)
                 |(e & e' & evs1 & evs2 & _ & [=] & _)]]; [|done].
  by destruct (Hsub sub eq_refl).
Qed.


Lemma requestNotificationPermission_run s :
  exists p evs,
    requestNotificationPermission h s = (Ret p, after evs s)
    /\ Forall (fun e => local_only e = true) evs
    /\ (requestPermission h <> Ret granted -> is_granted p = false).
Proof.
  unfold requestNotificationPermission.
  destruct (negb (isSupported h)).
  - exists denied, [EvConsole warn "Push notifications are not supported in this browser"].
    split; [done|]. split; [|done]. each.
  - unfold try_catch, bind, emit, lift. simpl.
    destruct (requestPermission h) as [p|e] eqn:Ep.
    + exists p, [EvRequestPermission]. split; [done|].
      split; [each|].
      intros Hne. by destruct p.
    + exists denied,
        [EvRequestPermission;
         EvConsole error "Error requesting notification permission:"].
      split; [unfold console, emit, after; simpl; by rewrite <- app_assoc|].
      split; [|done]. each.
Qed.

(** X13. Without the permission (the prompt is answered otherwise than
    with 'granted', or fails, or the browser has no notifications)
    [subscribeToPushNotifications] throws, and it has then contacted
    neither the server nor the push manager: all it did is to prompt and
    to write on the console. *)
Theorem subscribe_needs_permission (userId userEmail : string) s :
  requestPermission h <> Ret granted ->
  exists e evs,
    NotificationService.subscribeToPushNotifications h userId userEmail s
    = (Throw e, after evs s)
    /\ Forall (fun ev => local_only ev = true) evs.
Proof.
  intros Hne.
  set (Q := fun (r : outcome PushSubscription) s1 =>
              exists e evs, r = Throw e /\ s1 = after evs s
                            /\ Forall (fun ev => local_only ev = true) evs).
  assert (post (NotificationService.subscribeToPushNotifications h userId userEmail) s Q)
    as (e & evs & E1 & E2 & Hevs).
  { assert (forall e evs, Forall (fun ev => local_only ev = true) evs ->
              post (exec console error "[NotificationService] Error in subscribeToPushNotifications:" in
                    if isBraveBrowser h && includes "push service error" (err_message e) then
                      throw (Error "Brave blocked push notification subscription. Please disable Shields for this site and try again.")
                    else throw e) (after evs s) Q) as Hcatch.
    { intros e evs Hevs. apply Subscription.outer_catch. intros e'.
      rewrite after_after. eexists e', _. split; [done|]. split; [done|].
      each. }
    unfold NotificationService.subscribeToPushNotifications.
    apply post_try_catch, post_bind.
    destruct (has_serviceWorker h); simpl.
    2:{ step. step. step. apply Hcatch.
        each. }
    step. apply post_bind.
    destruct (has_PushManager h); simpl.
    2:{ step. step. step. apply Hcatch.
        each. }
    step. apply post_bind.
    destruct (requestNotificationPermission_run s) as (p & evs & E & Hevs & Hp).
    unfold post at 1. rewrite E. simpl.
    apply post_bind. rewrite (Hp Hne). simpl.
    step. step. step. apply Hcatch.
    each. }
  exists e, evs. split; [|done].
  destruct (NotificationService.subscribeToPushNotifications h userId userEmail s).
  simpl in *. by subst.
Qed.

Lemma isSubscribed_run s :
  exists b evs,
    isSubscribed h s = (Ret b, after evs s)
    /\ (b = true -> is_Some (push_subscription s)).
Proof.
  unfold isSubscribed. destruct (isSupported h); simpl.
  2:{ exists false, []. by rewrite after_nil. }
  unfold try_catch, bind, lift, pushManager_getSubscription, bind, emit, console, emit.
  destruct (serviceWorker_ready h) as [[]|e]; simpl; [|by eexists false, [_]..].
  destruct (getSubscription_error h) as [e|]; simpl.
  - exists false, [EvGetSubscription; EvConsole error "Error checking subscription status:"].
    split; [unfold after; simpl; by rewrite <- app_assoc | done].
  - exists (bool_decide (is_Some (push_subscription s))), [EvGetSubscription].
    split; [done|]. intros Hb. by apply bool_decide_eq_true in Hb.
Qed.

(** X14. [isSubscribed] never throws and talks to the browser only.  It
    answers [true] only when the push service holds a subscription; on a
    browser that supports push, with a ready worker and a push manager
    that answers, it answers [true] exactly then. *)
Theorem isSubscribed_reports_the_push_service s :
  exists b evs,
    isSubscribed h s = (Ret b, after evs s)
    /\ Forall (fun e => no_fetch e = true) evs
    /\ (b = true -> is_Some (push_subscription s))
    /\ (isSupported h = true -> serviceWorker_ready h = Ret true ->
        getSubscription_error h = None ->
        b = bool_decide (is_Some (push_subscription s))).
Proof.
  unfold isSubscribed. destruct (isSupported h); simpl.
  2:{ exists false, []. rewrite after_nil. split; [done|].
      split; [each|]. split; [done|]. intros [=]. }
  unfold try_catch, bind, lift, pushManager_getSubscription, bind, emit, console, emit.
  destruct (serviceWorker_ready h) as [[]|e]; simpl.
  - destruct (getSubscription_error h) as [e|]; simpl.
    + exists false, [EvGetSubscription; EvConsole error "Error checking subscription status:"].
      split; [unfold after; simpl; by rewrite <- app_assoc|].
      split; [each|].
      split; [done|]. intros _ _ [=].
    + exists (bool_decide (is_Some (push_subscription s))), [EvGetSubscription].
      split; [done|]. split; [each|].
      split; [|done]. intros Hb. by apply bool_decide_eq_true in Hb.
  - exists false, [EvConsole error "Error checking subscription status:"].
    split; [done|]. split; [each|].
    split; [done|]. intros _ [=].
  - exists false, [EvConsole error "Error checking subscription status:"].
    split; [done|]. split; [each|].
    split; [done|]. intros _ [=].
Qed.

(** ** Ending a subscription *)

Section Unsubscribe.

Variable unsubscribe_settles : outcome bool.

(** X15. When [unsubscribeFromPushNotifications] returns [true] there
    was a subscription, the push service holds none any more, and
    [isSubscribed] then answers [false]. *)
Theorem unsubscribe_ends_the_subscription (userId : string) s s1 :
  unsubscribeFromPushNotifications h unsubscribe_settles userId s = (Ret true, s1) ->
  is_Some (push_subscription s)
  /\ push_subscription s1 = None
  /\ (isSubscribed h s1).1 = Ret false.
Proof.
  intros E.
  assert (is_Some (push_subscription s) /\ push_subscription s1 = None) as [Hs Hs1].
  { revert E. unfold unsubscribeFromPushNotifications.
    destruct (isSupported h); simpl; [|intros [=]].
    unfold try_catch, bind, lift, pushManager_getSubscription, bind, emit,
      subscription_unsubscribe, Api.fetch, bind, emit, console, emit.
    destruct (serviceWorker_ready h) as [[]|e]; simpl; [|intros [=]..].
    destruct (getSubscription_error h) as [e|]; simpl; [intros [=]|].
    destruct (push_subscription s) as [sub|]; simpl; [|intros [=]].
    destruct unsubscribe_settles as [b|e]; simpl; [|intros [=]].
    destruct (net h "DELETE" PUSH_SUBSCRIPTIONS_URL _); simpl;
      intros [= <-]; eauto. }
  split; [done|]. split; [done|].
  destruct (isSubscribed_run s1) as (b & evs & -> & Hb). simpl.
  destruct b; [|done]. destruct (Hb eq_refl) as [sub Hsub]. congruence.
Qed.

(** X16. With a subscription at hand, on a browser that supports push
    and lets the subscription go, [unsubscribeFromPushNotifications]
    returns [true] whatever the server answers, and even if the server
    cannot be reached: the one request that changes the server is the
    DELETE with the endpoint of the subscription. *)
Theorem unsubscribe_does_not_depend_on_server (userId : string) s sub b :
  isSupported h = true ->
  serviceWorker_ready h = Ret true ->
  getSubscription_error h = None ->
  push_subscription s = Some sub ->
  unsubscribe_settles = Ret b ->
  let run := unsubscribeFromPushNotifications h unsubscribe_settles userId in
  (run s).1 = Ret true
  /\ push_subscription (run s).2 = None
  /\ writes (events_of run s) = [unsubscription_request sub].
Proof.
  intros Hsup Hready Hget Hsub Hsettles run. subst run.
  unfold events_of, unsubscribeFromPushNotifications. rewrite Hsup. simpl.
  unfold try_catch, bind, lift, pushManager_getSubscription, bind, emit,
    subscription_unsubscribe, Api.fetch, bind, emit, console, emit.
  rewrite Hready. simpl. rewrite Hget. simpl. rewrite Hsub, Hsettles. simpl.
  destruct (net h "DELETE" PUSH_SUBSCRIPTIONS_URL _); simpl.
  - split; [done|]. split; [done|].
    rewrite <- app_assoc, drop_app_length. done.
  - split; [done|]. split; [done|].
    rewrite <- !app_assoc, drop_app_length. done.
Qed.

End Unsubscribe.

(** ** Starting at page load *)

(** X17. [initializePushNotifications] never throws.  It answers
    [true] only if the permission was already granted, an address was
    given and, when the call ends, the push service holds a
    subscription. *)
Theorem initializePushNotifications_true_means_subscribed
    (permission : NotificationPermission) (userId userEmail : string) s :
  exists b s1,
    initializePushNotifications h permission userId userEmail s = (Ret b, s1)
    /\ (b = true ->
        is_Some (push_subscription s1) /\ permission = granted /\ userEmail <> "").
Proof.
  unfold initializePushNotifications, hasNotificationPermission.
  destruct (isSupported h); simpl; [|by eexists false, _].
  destruct (has_Notification h); simpl; [|by eexists false, _].
  destruct permission; simpl; [|by eexists false, _..].
  destruct (String.eqb_spec userEmail "") as [->|Hne]; [by eexists false, _|].
  unfold try_catch, bind at 1.
  destruct (isSubscribed_run s) as (b & evs & -> & Hb).
  destruct b.
  - eexists true, _. split; [done|]. intros _. split; [by apply Hb | done].
  - unfold bind.
    destruct (NotificationService.subscribeToPushNotifications h userId userEmail
                (after evs s)) as [[sub|e] s1] eqn:E.
    + eexists true, _. split; [done|]. intros _.
      rewrite (subscribe_returns_held _ _ _ _ _ E). by eauto.
    + by eexists false, _.
Qed.

End Facts.

Lemma unsubscribe_ends_the_subscription_witness :
  let run := unsubscribeFromPushNotifications writable_host (Ret true) "user-1" in
  is_Some (push_subscription subscribed)
  /\ push_subscription (run subscribed).2 = None
  /\ (isSubscribed writable_host (run subscribed).2).1 = Ret false.
Proof.
  intros run.
  apply (unsubscribe_ends_the_subscription writable_host (Ret true) "user-1"
           subscribed (run subscribed).2).
  vm_compute. reflexivity.
Defined.

Lemma unsubscribe_does_not_depend_on_server_witness :
  let run := unsubscribeFromPushNotifications read_only_host (Ret true) "user-1" in
  (run subscribed).1 = Ret true
  /\ push_subscription (run subscribed).2 = None
  /\ writes (events_of run subscribed) = [unsubscription_request sample_subscription].
Proof.
  apply (unsubscribe_does_not_depend_on_server read_only_host (Ret true) "user-1"
           subscribed sample_subscription true); reflexivity.
Defined.


Lemma subscribe_needs_permission_witness :
  exists e evs,
    NotificationService.subscribeToPushNotifications denying_host
      "user-1" "ada@example.org" initial
    = (Throw e, after evs initial)
    /\ Forall (fun ev => local_only ev = true) evs.
Proof.
  apply (subscribe_needs_permission denying_host "user-1" "ada@example.org" initial).
  discriminate.
Defined.

End PushLifecycle.

(* ===================================================================== *)
(** * The other operations of the notification service *)
(* ===================================================================== *)

Module OperationFacts.

Import NotificationService Operations Samples Inputs MoreInputs.
Import Runs RunFacts Shapes TraceFacts.

Lemma field_delete k k' (o : gmap string jsval) :
  k <> k' -> field k (delete k' o) = field k o.
Proof. intros Hne. unfold field. by rewrite lookup_delete_ne. Qed.

Section Facts.

Variable h : host.

Lemma ensureNotificationsEnabled_run s :
  ensureNotificationsEnabled h s = (Ret tt, (getPreferences h s).2).
Proof.
  unfold ensureNotificationsEnabled, try_catch, bind.
  destruct (total_getPreferences h s) as (prefs & s1 & E). by rewrite E.
Qed.

Lemma only_ensureNotificationsEnabled : only no_write (ensureNotificationsEnabled h).
Proof.
  intros s. rewrite ensureNotificationsEnabled_run.
  destruct (only_getPreferences h no_write (fun _ _ => eq_refl) eq_refl s)
    as (r & evs & E & Hevs).
  exists (Ret tt), evs. by rewrite E.
Qed.

(** X18. [ensureNotificationsEnabled] only reads: it never throws and
    never writes to the server, and leaves the state that
    [getPreferences] leaves.  The preferences it gets are an object, so
    that the branch that would write the defaults is never taken. *)
Theorem ensureNotificationsEnabled_only_reads s :
  ensureNotificationsEnabled h s = (Ret tt, (getPreferences h s).2)
  /\ writes (events_of (ensureNotificationsEnabled h) s) = [].
Proof.
  split; [apply ensureNotificationsEnabled_run|].
  apply writes_nil, only_events, only_ensureNotificationsEnabled.
Qed.

(** X19. [updateEventPreference] with a non-empty type writes once: one
    POST to the event preference endpoint and no other request that
    changes the server.  The value it sends is the caller's, except for a
    new type while the [notifyAllEvents] preference is truthy: then it
    sends [true] whatever the caller asked for. *)
Theorem updateEventPreference_posts_once (eventType : string)
    (isEnabled isNewType : bool) s :
  eventType <> "" ->
  exists prefs,
    (getPreferences h s).1 = Ret prefs
    /\ writes (events_of (updateEventPreference h eventType isEnabled isNewType) s)
       = [EvFetch "POST" (sent_url h EVENT_PREFERENCES_URL)
            (Some (JObj (literal
               [("eventType", JStr eventType);
                ("isEnabled",
                 JBool (if isNewType && truthy (field "notifyAllEvents" prefs)
                        then true else isEnabled))])))].
Proof.
  intros Hne.
  destruct (only_getPreferences h no_write (fun _ _ => eq_refl) eq_refl s)
    as (r & evs & E & Hevs).
  destruct (total_getPreferences h s) as (prefs & s1' & E').
  rewrite E in E'. injection E' as -> _.
  exists prefs. split; [by rewrite E|].
  apply writes_of_post. unfold updateEventPreference.
  rewrite (proj2 (String.eqb_neq _ _) Hne).
  apply post_try_catch, post_bind. unfold post at 1. rewrite E. simpl.
  apply post_bind. unfold post at 1. unfold Api.post. rewrite request_run. simpl.
  set (sent := if isNewType && truthy (field "notifyAllEvents" prefs)
               then true else isEnabled).
  set (body := JObj _).
  change (sent_body "POST" body) with (Some body).
  destruct (Api.request h "POST" EVENT_PREFERENCES_URL body (after evs s)).1
    as [result|e]; rewrite after_after.
  - eapply (post_only no_write).
    { destruct sent; [apply only_ensureNotificationsEnabled | apply only_ret]. }
    intros [[]|e] tail Htail; rewrite after_after.
    + eexists. split; [done|]. rewrite <- app_assoc.
      apply (writes_one evs _ [] tail); by each.
    + step. step. eexists. split; [done|]. rewrite <- !app_assoc.
      apply (writes_one evs _ [] (tail ++ [_])); by each.
  - step. step. eexists. split; [done|]. rewrite <- !app_assoc. simpl.
    apply (writes_one evs _ [request_failed "POST" EVENT_PREFERENCES_URL] [_]); by each.
Qed.

(** [sendTestNotification] turns every failure into [false]. *)
Lemma sendTestNotification_returns (userId : string) s :
  exists b s1, sendTestNotification h userId s = (Ret b, s1).
Proof.
  apply total_try_catch. intros e. apply total_console_ret.
Qed.

(** ** Saving everything *)

Lemma save_event_preferences_run (email : jsval) (l : list jsval) :
  forall s, exists evs,
    save_event_preferences h email l s = (Ret tt, after evs s)
    /\ writes evs = event_preference_post h email <$> omap complete_pref l.
Proof.
  induction l as [|pref l IH]; intros s.
  - exists []. by rewrite after_nil.
  - cbn [save_event_preferences omap list_omap]. unfold bind at 1.
    destruct (complete_pref pref) as [[t e]|].
    + unfold try_catch, bind at 1, Api.post. rewrite request_run.
      set (body := JObj _). change (sent_body "POST" body) with (Some body).
      destruct (Api.request h "POST" EVENT_PREFERENCES_URL body s).1 as [v|err]; simpl.
      * destruct (IH (after [EvFetch "POST" (sent_url h EVENT_PREFERENCES_URL) (Some body)] s))
          as (evs & E & Hw).
        rewrite E, after_after. eexists. split; [done|].
        rewrite writes_app, Hw. by rewrite writes_cons.
      * match goal with
        | |- context [save_event_preferences h email l ?s1] =>
            destruct (IH s1) as (evs & E & Hw); rewrite E
        end.
        exists ([EvFetch "POST" (sent_url h EVENT_PREFERENCES_URL) (Some body);
                 request_failed "POST" EVENT_PREFERENCES_URL;
                 EvConsole error ("Error updating event preference for "
                                  ++ js_to_string t ++ ":")] ++ evs)%list.
        split.
        -- f_equal. unfold after. simpl. f_equal. by rewrite <- !app_assoc.
        -- rewrite writes_app, Hw. by rewrite writes_cons.
    + unfold ret at 1. destruct (IH s) as (evs & E & Hw). eauto.
Qed.

Lemma saveAllPreferences_unfold (preferences : jsval) :
  saveAllPreferences h preferences
  = try_catch
      (let* eventPreferences := prop "eventPreferences" preferences in
       exec updatePreferences h (main_preferences (own_props preferences)) in
       exec save_event_preferences h (field "email" (own_props preferences))
         (array_or_empty eventPreferences) in
       ret (literal [("success", JBool true)]))
      (fun _ =>
         exec console error "Error saving all preferences:" in
         throw (Error "Failed to save preferences")).
Proof.
  unfold saveAllPreferences, main_preferences.
  by rewrite !field_delete by done.
Qed.

(** X20. [saveAllPreferences] returns [{ success: true }] exactly when
    the preferences can be taken apart and the main preferences are
    saved: a failure to save the preference of an event type does not
    make it fail.  When it fails it throws 'Failed to save preferences',
    whatever the error was. *)
Theorem saveAllPreferences_outcome (preferences : jsval) s :
  (saveAllPreferences h preferences s).1
  = match js_get "eventPreferences" preferences,
          (updatePreferences h (main_preferences (own_props preferences)) s).1 with
    | Some _, Ret _ => Ret (literal [("success", JBool true)])
    | _, _ => Throw (Error "Failed to save preferences")
    end.
Proof.
  rewrite saveAllPreferences_unfold. unfold try_catch, bind at 1, prop.
  destruct (js_get "eventPreferences" preferences) as [eps|]; [|done].
  unfold ret at 1, bind at 1.
  destruct (updatePreferences h _ s) as [[prefs|e] s1]; [|done]. simpl.
  unfold bind at 1.
  destruct (save_event_preferences_run (field "email" (own_props preferences))
              (array_or_empty eps) s1) as (evs & -> & _).
  done.
Qed.

(** X21. Once the main preferences are saved, [saveAllPreferences]
    posts the preference of every event type that has an [eventType] and
    an [isEnabled] member, in the order of the list and each with the
    address of the main preferences; a record without one of the two is
    skipped, and a request that fails does not stop the following ones. *)
Theorem saveAllPreferences_posts_every_event_preference
    (preferences eventPreferences : jsval) s prefs s1 :
  js_get "eventPreferences" preferences = Some eventPreferences ->
  updatePreferences h (main_preferences (own_props preferences)) s = (Ret prefs, s1) ->
  writes (events_of (saveAllPreferences h preferences) s)
  = (writes (events_of (updatePreferences h (main_preferences (own_props preferences))) s)
     ++ (event_preference_post h (field "email" (own_props preferences))
           <$> omap complete_pref (array_or_empty eventPreferences)))%list.
Proof.
  intros Heps Eupd.
  destruct (only_updatePreferences h (fun _ => true) (fun _ _ => eq_refl)
              (main_preferences (own_props preferences)) eq_refl (fun _ => eq_refl) s)
    as (r & evs & E & _).
  rewrite E in Eupd. injection Eupd as -> <-.
  rewrite (events_of_after _ _ _ _ E).
  destruct (save_event_preferences_run (field "email" (own_props preferences))
              (array_or_empty eventPreferences) (after evs s)) as (evs' & E' & Hw).
  rewrite <- Hw, <- writes_app. f_equal.
  apply events_of_after with (r := Ret (literal [("success", JBool true)])).
  rewrite saveAllPreferences_unfold. unfold try_catch, bind at 1, prop.
  rewrite Heps. unfold ret at 1, bind at 1. rewrite E. unfold bind at 1.
  rewrite E', after_after. done.
Qed.

End Facts.

(** ** The event types of the calendar *)

Lemma elem_of_set_add (types : list string) x y :
  y ∈ set_add types x <-> y ∈ types \/ y = x.
Proof.
  unfold set_add. case_bool_decide as Hx.
  - split; [auto|]. intros [?| ->]; done.
  - rewrite elem_of_app, list_elem_of_singleton. done.
Qed.

Lemma NoDup_set_add (types : list string) x : NoDup types -> NoDup (set_add types x).
Proof.
  intros Hnd. unfold set_add. case_bool_decide as Hx; [done|].
  apply NoDup_app. split; [done|]. split; [|apply NoDup_singleton].
  intros y Hy Hy'. apply list_elem_of_singleton in Hy'. by subst.
Qed.

Lemma foldl_add_label (events : list CalendarEvent) :
  forall types,
    NoDup types ->
    NoDup (foldl add_label types events)
    /\ forall x, x ∈ foldl add_label types events
                 <-> x ∈ types \/ exists event, event ∈ events /\ label event = Some x.
Proof.
  induction events as [|event events IH]; intros types Hnd; simpl.
  - split; [done|]. intros x. split; [auto|].
    intros [?|(event & Hin & _)]; [done|]. by apply elem_of_nil in Hin.
  - assert (NoDup (add_label types event)) as Hnd'.
    { unfold add_label. destruct (label event); [by apply NoDup_set_add | done]. }
    destruct (IH _ Hnd') as [Hres Hmem]. split; [done|].
    intros x. rewrite Hmem. unfold add_label.
    destruct (label event) as [y|] eqn:Hy.
    + rewrite elem_of_set_add. split.
      * intros [[?| ->]|(ev & Hin & Hl)]; [by left | |].
        -- right. exists event. split; [apply list_elem_of_here | done].
        -- right. exists ev. split; [by apply list_elem_of_further | done].
      * intros [?|(ev & Hin & Hl)]; [by left; left|].
        apply elem_of_cons in Hin as [->|Hin].
        -- left. right. congruence.
        -- right. by exists ev.
    + split.
      * intros [?|(ev & Hin & Hl)]; [by left|].
        right. exists ev. split; [by apply list_elem_of_further | done].
      * intros [?|(ev & Hin & Hl)]; [by left|].
        apply elem_of_cons in Hin as [->|Hin]; [congruence|].
        right. by exists ev.
Qed.

Section Sorting.

Variable localeCompare : string -> string -> Z.

Lemma sorted_insert_perm x l : sorted_insert localeCompare x l ≡ₚ x :: l.
Proof.
  induction l as [|y l IH]; simpl; [done|].
  destruct (0 <? localeCompare y x)%Z; [done|].
  rewrite IH. apply Permutation_swap.
Qed.

Lemma sort_perm l : sort localeCompare l ≡ₚ l.
Proof.
  unfold sort.
  assert (forall acc, foldl (fun acc x => sorted_insert localeCompare x acc) acc l
                      ≡ₚ acc ++ l) as H.
  { induction l as [|x l IH]; intros acc; simpl; [by rewrite app_nil_r|].
    rewrite IH, sorted_insert_perm. simpl. apply Permutation_middle. }
  by rewrite (H []).
Qed.

(** X22. [getUniqueEventTypes] lists every label of the calendar
    once: a string is in the result exactly when it is the type of an
    event or, for an event without a type, its title; no string is
    listed twice, and events with neither give nothing. *)
Theorem getUniqueEventTypes_lists_each_label_once (events : list CalendarEvent) :
  NoDup (getUniqueEventTypes localeCompare events)
  /\ forall x, x ∈ getUniqueEventTypes localeCompare events
               <-> exists event, event ∈ events /\ label event = Some x.
Proof.
  unfold getUniqueEventTypes.
  destruct (foldl_add_label events [] (NoDup_nil_2)) as [Hnd Hmem]. split.
  - by rewrite sort_perm.
  - intros x. rewrite sort_perm, Hmem. split; [|auto].
    intros [Hin|?]; [|done]. by apply elem_of_nil in Hin.
Qed.

Lemma ascending_cons a b l :
  ascending localeCompare (a :: b :: l)
  = (localeCompare a b <=? 0)%Z && ascending localeCompare (b :: l).
Proof. done. Qed.

Lemma ascending_sorted_insert x l :
  (forall a b, (0 < localeCompare a b)%Z -> (localeCompare b a <= 0)%Z) ->
  ascending localeCompare l = true ->
  ascending localeCompare (sorted_insert localeCompare x l) = true.
Proof.
  intros Hanti. induction l as [|y l IH]; [done|].
  intros Hl. cbn [sorted_insert].
  destruct (0 <? localeCompare y x)%Z eqn:Hyx.
  - apply Z.ltb_lt in Hyx. rewrite ascending_cons, Hl, andb_true_r.
    apply Z.leb_le. by apply Hanti.
  - apply Z.ltb_ge in Hyx.
    destruct l as [|z l].
    + cbn [sorted_insert]. rewrite ascending_cons, andb_true_r. by apply Z.leb_le.
    + rewrite ascending_cons in Hl. apply andb_true_iff in Hl as [Hyz Hl].
      specialize (IH Hl). cbn [sorted_insert] in *.
      destruct (0 <? localeCompare z x)%Z.
      * rewrite ascending_cons, IH, andb_true_r. by apply Z.leb_le.
      * by rewrite ascending_cons, IH, Hyz.
Qed.

(** The current revision lists what the earlier one listed, in another
    order. *)
Lemma getUniqueEventTypes_permutes_earlier_revision (events : list CalendarEvent) :
  getUniqueEventTypes localeCompare events ≡ₚ getUniqueEventTypes_rev1 events.
Proof. apply sort_perm. Qed.

(** X23. When the comparator is antisymmetric (as [localeCompare] is),
    the list of [getUniqueEventTypes] is in ascending order: no type
    compares greater than the one after it. *)
Theorem getUniqueEventTypes_is_ascending (events : list CalendarEvent) :
  (forall a b, (0 < localeCompare a b)%Z -> (localeCompare b a <= 0)%Z) ->
  ascending localeCompare (getUniqueEventTypes localeCompare events) = true.
Proof.
  intros Hanti. unfold getUniqueEventTypes, sort.
  generalize (foldl add_label [] events). intros l.
  assert (forall acc, ascending localeCompare acc = true ->
            ascending localeCompare
              (foldl (fun acc x => sorted_insert localeCompare x acc) acc l) = true) as H.
  { induction l as [|x l IH]; intros acc Hacc; [done|]. simpl.
    by apply IH, ascending_sorted_insert. }
  by apply H.
Qed.

End Sorting.

Lemma by_code_point_antisymmetric a b :
  (0 < by_code_point a b)%Z -> (by_code_point b a <= 0)%Z.
Proof.
  unfold by_code_point. rewrite (String.compare_antisym a b).
  destruct (String.compare b a); simpl; lia.
Defined.

Lemma getUniqueEventTypes_is_ascending_witness :
  getUniqueEventTypes by_code_point [standup; release; untitled; standup]
  = ["release"; "standup"]
  /\ ascending by_code_point
       (getUniqueEventTypes by_code_point [standup; release; untitled; standup]) = true.
Proof.
  split; [reflexivity|].
  apply (getUniqueEventTypes_is_ascending by_code_point
           [standup; release; untitled; standup]).
  exact by_code_point_antisymmetric.
Defined.

Lemma updateEventPreference_posts_once_witness :
  exists prefs,
    (getPreferences writable_host initial).1 = Ret prefs
    /\ writes (events_of (updateEventPreference writable_host "standup" false true) initial)
       = [EvFetch "POST" (sent_url writable_host EVENT_PREFERENCES_URL)
            (Some (JObj (literal
               [("eventType", JStr "standup");
                ("isEnabled",
                 JBool (if true && truthy (field "notifyAllEvents" prefs)
                        then true else false))])))].
Proof.
  apply (updateEventPreference_posts_once writable_host "standup" false true initial).
  discriminate.
Defined.

Lemma saveAllPreferences_posts_every_event_preference_witness :
  writes (events_of (saveAllPreferences writable_host settings) initial)
  = (writes (events_of (updatePreferences writable_host
                          (main_preferences (own_props settings))) initial)
     ++ [event_preference_post writable_host (JStr "ada@example.org")
           (JStr "standup", JBool true)])%list.
Proof.
  set (saved := updatePreferences writable_host
                  (main_preferences (own_props settings)) initial).
  apply (saveAllPreferences_posts_every_event_preference writable_host settings
           (JArr [JObj (literal [("eventType", JStr "standup");
                                 ("isEnabled", JBool true)]);
                  JObj (literal [("eventType", JStr "release")])])
           initial
           (match saved.1 with Ret prefs => prefs | Throw _ => ∅ end)
           saved.2);
    [reflexivity | vm_compute; reflexivity].
Defined.

End OperationFacts.

(* ===================================================================== *)
(** * The cache of static assets *)
(* ===================================================================== *)

Module OfflineCache.

Import ServiceWorker Samples Inputs MoreInputs Runs CacheManager.

Lemma caches_match_app u cs1 cs2 :
  caches_match u (cs1 ++ cs2)
  = match caches_match u cs1 with
    | Some r => Some r
    | None => caches_match u cs2
    end.
Proof.
  induction cs1 as [|[n c] cs1 IH]; simpl; [done|].
  by destruct (c !! u).
Qed.

Lemma caches_match_open u name cs :
  caches_match u (caches_open name cs) = caches_match u cs.
Proof.
  unfold caches_open. case_bool_decide; [done|].
  rewrite caches_match_app. simpl. rewrite lookup_empty.
  by destruct (caches_match u cs).
Qed.


Lemma caches_match_put_eq u name r cs :
  name ∈ caches_keys cs ->
  caches_match u cs = None ->
  caches_match u (cache_put name u r cs) = Some r.
Proof.
  unfold cache_put, caches_keys.
  induction cs as [|[n c] cs IH]; intros Hin Hnone.
  - by apply elem_of_nil in Hin.
  - rewrite fmap_cons. simpl in *.
    destruct (c !! u) eqn:Hc; [done|].
    case_bool_decide as Hn; simpl.
    + by rewrite lookup_insert_eq.
    + rewrite Hc. apply IH; [|done].
      apply elem_of_cons in Hin as [->|Hin]; done.
Qed.

Section Fetch.

Variable network : string -> option Response.

(** X24. A static asset that the worker has to fetch is cached for the
    next time: when a GET request outside [/api/] misses the caches and
    the network answers it with a 200 response of type 'basic', the
    worker responds with that response and, once the write it started
    into the cache has completed, the same request is answered with it
    without the network, whatever the network would say. *)
Theorem fetched_asset_is_served_from_cache_next_time request w response :
  method request = "GET" ->
  String.prefix "chrome-extension://" (url request) = false ->
  includes "/api/" (url request) = false ->
  caches_match (url request) (caches w) = None ->
  network (url request) = Some response ->
  status response = 200%Z ->
  type response = "basic" ->
  let w' := (on_fetch network request w).2 in
  (on_fetch network request w).1 = RespondWith (Fulfilled (Some response))
  /\ forall network',
       on_fetch network' request w' = (RespondWith (Fulfilled (Some response)), w').
Proof.
  intros Hm Hext Hapi Hmiss Hnet Hstatus Htype w'.
  assert (on_fetch network request w
          = (RespondWith (Fulfilled (Some response)),
             set_caches (cache_put CACHE_NAME (url request) response
                           (caches_open CACHE_NAME (caches w)))
               (perform (Fetch (url request)) w))) as E.
  { unfold on_fetch. rewrite Hm, Hext, Hapi. simpl. rewrite Hmiss, Hnet.
    by rewrite Hstatus, Htype. }
  subst w'. rewrite E. simpl. split; [done|]. intros network'.
  unfold on_fetch. rewrite Hm, Hext, Hapi. simpl.
  rewrite caches_match_put_eq; [done | apply caches_open_keys |].
  by rewrite caches_match_open.
Qed.


End Fetch.


Lemma fetched_asset_is_served_from_cache_next_time_witness :
  let request := {| method := "GET"; url := "/styles.css" |} in
  let w' := (on_fetch (table [("/styles.css", page "css")]) request fresh_worker).2 in
  (on_fetch (table [("/styles.css", page "css")]) request fresh_worker).1
  = RespondWith (Fulfilled (Some (page "css")))
  /\ forall network',
       on_fetch network' request w' = (RespondWith (Fulfilled (Some (page "css"))), w').
Proof.
  apply (fetched_asset_is_served_from_cache_next_time
           (table [("/styles.css", page "css")])
           {| method := "GET"; url := "/styles.css" |} fresh_worker (page "css"));
    reflexivity.
Defined.


End OfflineCache.

(* ===================================================================== *)
(** * Notifications of the service worker *)
(* ===================================================================== *)

Module NotificationFacts.

Import WorkerNotifications Samples Inputs MoreInputs.

#[local] Open Scope list_scope.

Lemma truthy_js_or a b : truthy b = true -> truthy (js_or a b) = true.
Proof. intros Hb. unfold js_or. by destruct (truthy a) eqn:Ha. Qed.

Lemma truthy_js_get k v : truthy v = true -> exists x, js_get k v = Some x.
Proof. destruct v; simpl; try done; eauto. Qed.




Section Facts.

Variable has_registration : bool.
Variable has_showNotification : bool.
Variable host_show : jsval -> gmap string jsval -> display.
Variable Date_now : nat -> Z.
Variable JSON_parse : string -> option jsval.
Variable window_clients : list WindowClient.
Variable has_openWindow : bool.

#[local] Abbreviation showNotification :=
  (showNotification has_registration has_showNotification host_show Date_now).
#[local] Abbreviation on_message :=
  (on_message has_registration has_showNotification host_show Date_now).
#[local] Abbreviation on_push :=
  (on_push has_registration has_showNotification host_show Date_now JSON_parse).
#[local] Abbreviation on_notificationclick :=
  (on_notificationclick window_clients has_openWindow).

(** X27. Every notification that [showNotification] hands to the host
    is normalised: it vibrates with the fixed pattern, it has an icon and
    a badge (those of the payload, or the default ones), its data are an
    object whose [timestamp] is the time of the call, whatever the payload
    said, and every other member of the payload is passed unchanged. *)
Theorem shown_notification_is_normalised notificationData clock title options :
  (title, options) ∈ shows (showNotification notificationData clock).1.2 ->
  js_get "title" notificationData = Some title
  /\ options !! "vibrate" = Some VIBRATE
  /\ truthy (field "icon" options) = true
  /\ truthy (field "badge" options) = true
  /\ (exists data, options !! "data" = Some (JObj data)
                   /\ data !! "timestamp" = Some (JNum (Date_now clock)))
  /\ forall k, k ∉ ["title"; "icon"; "badge"; "vibrate"; "data"] ->
               options !! k = own_props notificationData !! k.
Proof.
  unfold WorkerNotifications.showNotification, shows.
  destruct has_registration; simpl; [|by intros ?%elem_of_nil].
  destruct has_showNotification; simpl; [|by intros ?%elem_of_nil].
  destruct (js_get "title" notificationData) as [t|]; simpl;
    [|by intros ?%elem_of_nil].
  set (shown := normalize _ _).
  assert ((title, options) ∈ [(t, shown)] ->
          Some t = Some title /\ options = shown) as Hone.
  { intros [= -> ->]%list_elem_of_singleton. done. }
  intros Hin.
  assert (Some t = Some title /\ options = shown) as [Ht ->].
  { by destruct (host_show t shown); apply Hone. }
  clear Hin Hone. split; [done|]. unfold shown, normalize, field.
  split; [by simplify_map_eq|].
  split; [simplify_map_eq; by apply truthy_js_or|].
  split; [simplify_map_eq; by apply truthy_js_or|].
  split; [eexists; split; apply lookup_insert_eq|].
  intros k Hk. rewrite !not_elem_of_cons in Hk.
  destruct Hk as (? & ? & ? & ? & ? & _).
  rewrite !lookup_insert_ne by done. by rewrite lookup_delete_ne.
Qed.

(** X28. The [message] handler never throws.  To a SHOW_NOTIFICATION
    message with a notification it replies once, on the first port of the
    message: with [success] true when the host displayed the
    notification, and with [success] false and a non-empty [error] when it
    did not.  It replies to no other message, and never without a
    port. *)
Theorem message_is_answered_once (data : jsval) (ports : list string) clock :
  let run := on_message data ports clock in
  run.1.1 = Returns tt
  /\ length (replies run.1.2) <= 1
  /\ forall port message,
       (port, message) ∈ replies run.1.2 ->
       head ports = Some port
       /\ truthy data = true
       /\ js_get "type" data = Some (JStr "SHOW_NOTIFICATION")
       /\ ((message !! "success" = Some (JBool true)
            /\ exists title options,
                 shows run.1.2 = [(title, options)]
                 /\ host_show title options = Displays)
           \/ (message !! "success" = Some (JBool false)
               /\ truthy (field "error" message) = true
               /\ forall title options,
                    (title, options) ∈ shows run.1.2 ->
                    host_show title options <> Displays)).
Proof.
  intros run. subst run. unfold WorkerNotifications.on_message, shows, replies.
  destruct (truthy data) eqn:Hdata; simpl;
    [|split; [done|]; split; [simpl; lia|]; by intros ? ? ?%elem_of_nil].
  destruct (js_get "type" data) as [type|] eqn:Htype; simpl;
    [|split; [done|]; split; [simpl; lia|]; by intros ? ? ?%elem_of_nil].
  destruct (is_show_notification type) eqn:Hshow; simpl;
    [|split; [done|]; split; [simpl; lia|]; by intros ? ? ?%elem_of_nil].
  assert (type = JStr "SHOW_NOTIFICATION") as ->.
  { destruct type; try done. simpl in Hshow. by apply String.eqb_eq in Hshow as ->. }
  destruct (truthy (default JUndef (js_get "notification" data))) eqn:Hn; simpl;
    [|split; [done|]; split; [simpl; lia|]; by intros ? ? ?%elem_of_nil].
  destruct (truthy_js_get "title" _ Hn) as [title Htitle].
  unfold WorkerNotifications.showNotification.
  destruct has_registration; simpl.
  2:{ split; [done|]. destruct ports as [|port ports]; simpl.
      - split; [lia|]. by intros ? ? ?%elem_of_nil.
      - split; [lia|]. intros p m [= -> ->]%list_elem_of_singleton.
        split; [done|]. split; [done|]. split; [done|]. right.
        split; [done|]. split; [done|]. by intros ? ? ?%elem_of_nil. }
  destruct has_showNotification; simpl.
  2:{ split; [done|]. destruct ports as [|port ports]; simpl.
      - split; [lia|]. by intros ? ? ?%elem_of_nil.
      - split; [lia|]. intros p m [= -> ->]%list_elem_of_singleton.
        split; [done|]. split; [done|]. split; [done|]. right.
        split; [done|]. split; [done|]. by intros ? ? ?%elem_of_nil. }
  rewrite Htitle. set (shown := normalize _ _).
  destruct (host_show title shown) as [|e|e] eqn:Hhost; simpl;
    (split; [done|]); (destruct ports as [|port ports]; simpl;
    [split; [lia|]; by intros ? ? ?%elem_of_nil|]);
    (split; [lia|]); intros p m [= -> ->]%list_elem_of_singleton;
    (split; [done|]); (split; [done|]); (split; [done|]).
  - left. split; [done|]. by exists title, shown.
  - right. split; [done|]. split; [by apply truthy_js_or|].
    intros t o [= -> ->]%list_elem_of_singleton. by rewrite Hhost.
  - right. split; [done|]. split; [by apply truthy_js_or|].
    intros t o [= -> ->]%list_elem_of_singleton. by rewrite Hhost.
Qed.

(** ** push *)

#[local] Abbreviation show_and_forget :=
  (show_and_forget has_registration has_showNotification host_show Date_now).
#[local] Abbreviation show_error_card :=
  (show_error_card has_registration has_showNotification host_show Date_now).






(** ** notificationclick *)


End Facts.

Lemma shown_notification_is_normalised_witness :
  let options :=
    normalize (delete "title" (own_props reminder)) (clock_from 1700000000000 0) in
  options !! "vibrate" = Some VIBRATE
  /\ truthy (field "icon" options) = true
  /\ truthy (field "badge" options) = true
  /\ (exists data, options !! "data" = Some (JObj data)
                   /\ data !! "timestamp" = Some (JNum (clock_from 1700000000000 0)))
  /\ forall k, k ∉ ["title"; "icon"; "badge"; "vibrate"; "data"] ->
               options !! k = own_props reminder !! k.
Proof.
  intros options.
  apply (shown_notification_is_normalised true true displaying
           (clock_from 1700000000000) reminder 0
           (JStr "Stand-up in 10 minutes") options).
  apply list_elem_of_here.
Defined.

(** A notification that the host refuses is reported to the page with the
    message of the host. *)
Lemma refused_notification_is_reported :
  replies
    (on_message true true blocking (clock_from 1700000000000)
       (JObj (literal [("type", JStr "SHOW_NOTIFICATION"); ("notification", reminder)]))
       ["port-1"] 0).1.2
  = [("port-1",
      literal [("success", JBool false);
               ("error", JStr "No notification permission has been granted")])].
Proof. reflexivity. Qed.

(** A push message that is no JSON gets the error card. *)
Lemma unreadable_push_shows_error_card :
  (shows
     (on_push true true displaying (clock_from 1700000000000) (fun _ => None)
        (Some {| has_json := true; json := None; has_text := true; text := "<html>" |})
        0).1.2).*1
  = [JStr "Notification Error"].
Proof. reflexivity. Qed.

(** A click on the reminder goes to the tab that shows the event. *)
Lemma click_focuses_the_tab_of_the_event :
  on_notificationclick [other_tab; calendar_tab] true "view"
    (JObj (literal [("eventId", JNum 42); ("timestamp", JNum 1)]))
  = [Close; Focus "https://calendar.example/event/42"].
Proof. reflexivity. Qed.

End NotificationFacts.
